(** * Spanner vector store: schema generation, ingestion, search, deletion

    A shallow embedding of [langchain_google_spanner/vector_store.py] and the
    properties of its DDL generator, batched ingestion path, similarity-search
    query builder, row-to-document mapper and delete operation. *)

From Stdlib Require Import ZArith Ascii String DecimalString Floats Lia.
From stdpp Require Import base list strings gmap.

Set Default Proof Using "Type".

(** ** Python strings *)

Module PyStr.

(** [sep.join(parts)] *)
Fixpoint join (sep : string) (parts : list string) : string :=
  match parts with
  | [] => ""
  | [p] => p
  | p :: rest => p +:+ sep +:+ join sep rest
  end.

Definition in_chars (c : ascii) (chars : string) : bool :=
  existsb (Ascii.eqb c) (list_ascii_of_string chars).

(** [s.rstrip(chars)]: every trailing character that belongs to [chars] is
    removed, however many there are. *)
Fixpoint rstrip (chars s : string) : string :=
  match s with
  | EmptyString => EmptyString
  | String c rest =>
      match rstrip chars rest with
      | EmptyString => if in_chars c chars then EmptyString else String c EmptyString
      | kept => String c kept
      end
  end.

(** [str(k)] for a Python [int]. *)
Definition of_int (k : Z) : string := NilZero.string_of_int (Z.to_int k).

(** The last character of a string, if any. *)
Definition last_char (s : string) : option ascii := last (list_ascii_of_string s).

End PyStr.

(** ** Exceptions and outcomes *)

Inductive exn : Type :=
| AssertionError
| ValueError (msg : string)
| KeyError (key : string)
| IndexError
| TypeError (msg : string)
| OverflowError
| ValidationError
| Exception (msg : string).

Inductive outcome (A : Type) : Type :=
| Ok (a : A)
| Raise (e : exn).
Arguments Ok {A} a.
Arguments Raise {A} e.

(** ** [str.format] with keyword fields

    The templates of this module use replacement fields by keyword name only
    (no doubled braces, conversions or format specs); this is the fragment
    modelled.  A field whose name is not among the keyword arguments raises
    [KeyError]; an unbalanced brace raises [ValueError]. *)

Fixpoint kw_lookup (name : string) (kw : list (string * string)) : option string :=
  match kw with
  | [] => None
  | (k, v) :: kw' => if String.eqb name k then Some v else kw_lookup name kw'
  end.

Fixpoint format_from (tpl : string) (field : option string)
    (kw : list (string * string)) : outcome string :=
  match tpl with
  | EmptyString =>
      match field with
      | None => Ok EmptyString
      | Some _ => Raise (ValueError "expected '}' before end of string")
      end
  | String c rest =>
      match field with
      | None =>
          if Ascii.eqb c "{" then format_from rest (Some EmptyString) kw
          else if Ascii.eqb c "}" then Raise (ValueError "Single '}' encountered in format string")
          else match format_from rest None kw with
               | Ok out => Ok (String c out)
               | Raise e => Raise e
               end
      | Some name =>
          if Ascii.eqb c "}" then
            match kw_lookup name kw with
            | None => Raise (KeyError name)
            | Some v =>
                match format_from rest None kw with
                | Ok out => Ok (v +:+ out)
                | Raise e => Raise e
                end
            end
          else format_from rest (Some (name +:+ String c EmptyString)) kw
      end
  end.

Definition format (tpl : string) (kw : list (string * string)) : outcome string :=
  format_from tpl None kw.

(** ** Dialects and distance semantics *)

(** [google.cloud.spanner_admin_database_v1.types.DatabaseDialect] *)
Inductive DatabaseDialect : Type :=
| DATABASE_DIALECT_UNSPECIFIED
| GOOGLE_STANDARD_SQL
| POSTGRESQL.

Definition is_postgresql (d : DatabaseDialect) : bool :=
  match d with POSTGRESQL => true | _ => false end.

Inductive DistanceStrategy : Type :=
| COSINE
| EUCLIDEIAN.

Inductive DialectSemantics : Type :=
| GoogleSqlSemnatics
| PGSqlSemnatics.

Definition getDistanceFunction (sem : DialectSemantics)
    (distance_strategy : DistanceStrategy) : string :=
  match sem with
  | GoogleSqlSemnatics =>
      match distance_strategy with
      | COSINE => "COSINE_DISTANCE"
      | _ => "EUCLIDEAN_DISTANCE"
      end
  | PGSqlSemnatics =>
      match distance_strategy with
      | COSINE => "spanner.cosine_distance"
      | _ => "spanner.euclidean_distance"
      end
  end.

Inductive NearestNeighborsAlgorithm : Type :=
| BRUTE_FORCE.

Record QueryParameters : Type := {
  algorithm : NearestNeighborsAlgorithm;
  distance_strategy : DistanceStrategy;
  staleness : Z;
}.

(** ** Schema definition *)

Record TableColumn : Type := {
  name : string;
  type : string;
  is_null : bool;
}.

(** [TableColumn(name, type, is_null)]: the dataclass constructor followed by
    [__post_init__].  An argument may be Python's [None]. *)
Definition TableColumn_init (name type : option string) (is_null : bool)
    : outcome TableColumn :=
  match name with
  | None => Raise (ValueError "column_name is mandatory and cannot be None.")
  | Some n =>
      match type with
      | None => Raise (ValueError "type is mandatory and cannot be None.")
      | Some t => Ok {| name := n; type := t; is_null := is_null |}
      end
  end.

(** A text between double quotes, as Python's messages write a type name. *)
Definition quoted (s : string) : string :=
  String "034"%char s +:+ String "034"%char EmptyString.

(** How an f-string renders a value that is a string or [None]. *)
Definition fstr (v : option string) : string :=
  match v with
  | Some s => s
  | None => "None"
  end.

Definition column_sql (column_config : TableColumn) : string :=
  ("  " +:+ name column_config +:+ " " +:+ type column_config)
  +:+ (if is_null column_config then "" else " NOT NULL")
  +:+ ",
".

Definition _generate_sql (dialect : DatabaseDialect) (table_name : string)
    (id_column : option string) (content_column embedding_column : string)
    (column_configs : option (list TableColumn)) : outcome string :=
  let sql := "CREATE TABLE " +:+ table_name +:+ " (
" in
  let sql :=
    if is_postgresql dialect then
      sql
      +:+ ("  " +:+ fstr id_column +:+ " varchar(36) DEFAULT (spanner.generate_uuid()),
")
      +:+ ("  " +:+ content_column +:+ " text,
")
      +:+ ("  " +:+ embedding_column +:+ " float8[],
")
    else
      sql
      +:+ ("  " +:+ fstr id_column +:+ " STRING(36) DEFAULT (GENERATE_UUID()),
")
      +:+ ("  " +:+ content_column +:+ " STRING(MAX),
")
      +:+ ("  " +:+ embedding_column +:+ " ARRAY<FLOAT64>,
") in
  let sql :=
    match column_configs with
    | None => sql
    | Some configs => fold_left (fun acc c => acc +:+ column_sql c) configs sql
    end in
  match id_column with
  | None =>
      Raise (TypeError ("can only concatenate str (not " +:+ quoted "NoneType"
                        +:+ ") to str"))
  | Some id =>
      if is_postgresql dialect then
        Ok (sql +:+ ("  PRIMARY KEY(" +:+ id +:+ ")
)"))
      else
        Ok (PyStr.rstrip ",
" sql +:+ "
) PRIMARY KEY(" +:+ id +:+ ")")
  end.


(** ** Python values and insertion-ordered dicts *)

(** The values that travel through rows, metadata mappings and documents.
    [JsonObject] is the Spanner client's [dict] subclass: built from a
    mapping, it holds its own copy of the entries. *)
#[warnings="-register-all"]
Inductive pyval : Type :=
| VNone
| VBool (b : bool)
| VInt (z : Z)
| VFloat (f : float)
| VStr (s : string)
| VList (items : list pyval)
| VDict (entries : list (string * pyval))
| JsonObject (entries : list (string * pyval)).

Definition is_not_None (v : pyval) : bool :=
  match v with VNone => false | _ => true end.

(** Truth value of an object in a condition. *)
Definition truthy (v : pyval) : bool :=
  match v with
  | VNone => false
  | VBool b => b
  | VInt z => negb (z =? 0)%Z
  | VFloat f => negb (PrimFloat.eqb f PrimFloat.zero)
  | VStr s => negb (String.eqb s "")
  | VList items => negb (bool_decide (length items = 0))
  | VDict entries | JsonObject entries => negb (bool_decide (length entries = 0))
  end.

Section Dict.
Context {V : Type}.

(** [d.get(k)] *)
Fixpoint dict_get (k : string) (d : list (string * V)) : option V :=
  match d with
  | [] => None
  | (k', v) :: d' => if String.eqb k k' then Some v else dict_get k d'
  end.

(** [d[k] = v]: an existing key keeps its position, a new one goes last. *)
Fixpoint dict_set (k : string) (v : V) (d : list (string * V)) : list (string * V) :=
  match d with
  | [] => [(k, v)]
  | (k', v') :: d' =>
      if String.eqb k k' then (k, v) :: d' else (k', v') :: dict_set k v d'
  end.

(** [d.keys()], in iteration order. *)
Definition dict_keys (d : list (string * V)) : list string := d.*1.

(** [{key(x): val(x) for x in xs}] *)
Definition dict_comprehension {X} (key : X -> string) (val : X -> V) (xs : list X)
    : list (string * V) :=
  fold_left (fun d x => dict_set (key x) (val x) d) xs [].

(** [d[k]] *)
Definition dict_item (k : string) (d : list (string * V)) : outcome V :=
  match dict_get k d with
  | Some v => Ok v
  | None => Raise (KeyError k)
  end.
End Dict.

(** [l[i]] for a non-negative index. *)
Definition list_item {A} (l : list A) (i : nat) : outcome A :=
  match l !! i with
  | Some x => Ok x
  | None => Raise IndexError
  end.

(** ** The world: caller-owned dicts, collaborator calls *)

Definition loc := nat.

Inductive ParamType : Type :=
| FLOAT64
| Array (element_type : ParamType).

Record SqlRequest : Type := {
  sql : string;
  params : list (string * list float);
  param_types : list (string * ParamType);
}.

(** What the call asked of its collaborators, in order. *)
Inductive event : Type :=
| EmbedDocuments (texts : list string)
| BatchInsert (table : string) (columns : list string) (values : list (list pyval))
| ExecuteUpdate (dml : string)
| ExecuteSql (exact_staleness : Z) (request : SqlRequest).

Record world : Type := {
  heap : gmap loc (list (string * pyval));
  trace : list event;
}.

Definition M (A : Type) : Type := world -> outcome A * world.

Definition ret {A} (a : A) : M A := fun w => (Ok a, w).
Definition raise {A} (e : exn) : M A := fun w => (Raise e, w).
Definition bind {A B} (m : M A) (k : A -> M B) : M B :=
  fun w => match m w with
           | (Ok a, w') => k a w'
           | (Raise e, w') => (Raise e, w')
           end.
Definition lift {A} (o : outcome A) : M A := fun w => (o, w).

Notation "x <- m ;; k" := (bind m (fun x => k))
  (at level 100, m at next level, right associativity).
Notation "m ;;; k" := (bind m (fun _ => k))
  (at level 100, right associativity).

Definition emit (e : event) : M unit :=
  fun w => (Ok tt, {| heap := heap w; trace := trace w ++ [e] |}).

(** Reading through a reference.  A reference held by Python code always
    denotes an object; the unallocated case reads as the empty dict. *)
Definition deref (r : loc) : M (list (string * pyval)) :=
  fun w => (Ok (default [] (heap w !! r)), w).

Definition assign (r : loc) (d : list (string * pyval)) : M unit :=
  fun w => (Ok tt, {| heap := <[r := d]> (heap w); trace := trace w |}).

(** A new dict object. *)
Definition alloc (d : list (string * pyval)) : M loc :=
  fun w => let r := fresh (dom (heap w)) in
           (Ok r, {| heap := <[r := d]> (heap w); trace := trace w |}).

Fixpoint mapM {A B} (f : A -> M B) (l : list A) : M (list B) :=
  match l with
  | [] => ret []
  | x :: l' => y <- f x ;; ys <- mapM f l' ;; ret (y :: ys)
  end.

Fixpoint foldM {A S} (f : S -> A -> M S) (l : list A) (s : S) : M S :=
  match l with
  | [] => ret s
  | x :: l' => s' <- f s x ;; foldM f l' s'
  end.

Fixpoint mapO {A B} (f : A -> outcome B) (l : list A) : outcome (list B) :=
  match l with
  | [] => Ok []
  | x :: l' =>
      match f x with
      | Raise e => Raise e
      | Ok y => match mapO f l' with
                | Raise e => Raise e
                | Ok ys => Ok (y :: ys)
                end
      end
  end.

(** [assert cond] *)
Definition py_assert (cond : bool) : M unit :=
  if cond then ret tt else raise AssertionError.

(** ** Collaborators *)

Record Embeddings : Type := {
  embed_documents : list string -> list (list float);
  embed_query : string -> list float;
}.

(** The database handle, as far as this module looks at it. *)
Record Database : Type := {
  database_exists : bool;
  database_dialect : DatabaseDialect;
  table_schema : string -> option (list (string * string));
  execute_sql : Z -> SqlRequest -> list (list pyval);
}.

Record Client : Type := {
  instance_exists : string -> bool;
  instance_database : string -> string -> Database;
}.

Record Document : Type := {
  page_content : pyval;
  metadata : pyval;
}.

(** ** The store *)

Record SpannerVectorStore : Type := {
  _instance_id : string;
  _database_id : string;
  _table_name : string;
  _id_column : string;
  _content_column : string;
  _embedding_column : string;
  _metadata_json_column : option string;
  _query_parameters : QueryParameters;
  _embedding_service : Embeddings;
  _database : Database;
  _dialect_semantics : DialectSemantics;
  _metadata_columns : list string;
  _columns_to_insert : list string;
}.

(** [x in l] / [x not in l] on lists of names *)
Definition name_in (x : string) (l : list string) : bool := bool_decide (x ∈ l).

(** [SpannerVectorStore.__init__] *)
Definition SpannerVectorStore_init
    (instance_id database_id table_name : string)
    (embedding_service : Embeddings)
    (id_column content_column embedding_column : string)
    (client : Client)
    (metadata_columns ignore_metadata_columns : option (list string))
    (metadata_json_column : option string)
    (query_parameters : QueryParameters) : outcome SpannerVectorStore :=
  if negb (instance_exists client instance_id) then
    Raise (Exception ("Instance with id-" +:+ instance_id +:+ " doesn't exist."))
  else
    let database := instance_database client instance_id database_id in
    let dialect_semantics :=
      if is_postgresql (database_dialect database) then PGSqlSemnatics
      else GoogleSqlSemnatics in
    if negb (database_exists database) then
      Raise (Exception ("Database with id-" +:+ database_id +:+ " doesn't exist."))
    else
      match table_schema database table_name with
      | None => Raise (Exception ("Table with name-" +:+ table_name +:+ " doesn't exist."))
      | Some schema =>
          let column_type_map := dict_comprehension fst snd schema in
          let default_columns := [id_column; content_column; embedding_column] in
          let columns_to_insert := [] ++ default_columns in
          let '(columns_to_insert, metadata_columns') :=
            match ignore_metadata_columns with
            | Some ignored =>
                let columns_to_insert :=
                  filter (fun element => element ∉ ignored)
                         (dict_keys column_type_map) in
                (columns_to_insert,
                 filter (fun item => item ∉ default_columns) columns_to_insert)
            | None =>
                let '(columns_to_insert, metadata_columns') :=
                  match metadata_columns with
                  | Some given => (columns_to_insert ++ given, [] ++ given)
                  | None => (columns_to_insert, [])
                  end in
                match metadata_json_column with
                | Some json_column =>
                    if negb (name_in json_column columns_to_insert) then
                      (columns_to_insert ++ [json_column],
                       metadata_columns' ++ [json_column])
                    else (columns_to_insert, metadata_columns')
                | None => (columns_to_insert, metadata_columns')
                end
            end in
          Ok {| _instance_id := instance_id;
                _database_id := database_id;
                _table_name := table_name;
                _id_column := id_column;
                _content_column := content_column;
                _embedding_column := embedding_column;
                _metadata_json_column := metadata_json_column;
                _query_parameters := query_parameters;
                _embedding_service := embedding_service;
                _database := database;
                _dialect_semantics := dialect_semantics;
                _metadata_columns := metadata_columns';
                _columns_to_insert := columns_to_insert |}
      end.

(** ** Ingestion *)

(** [range(start, stop, step)] for a positive step, as the loop runs it:
    [fuel] bounds the number of iterations ([stop] of them are enough). *)
Fixpoint range_from (fuel i stop step : nat) : list nat :=
  match fuel with
  | O => []
  | S fuel' => if i <? stop then i :: range_from fuel' (i + step) stop step else []
  end.

(** [range(0, stop, step)] *)
Definition py_range (stop : nat) (step : Z) : outcome (list nat) :=
  if (step =? 0)%Z then Raise (ValueError "range() arg 3 must not be zero")
  else if (step <? 0)%Z then Ok []
  else Ok (range_from stop 0 stop (Z.to_nat step)).

(** [l[i : i + size]] for [0 <= i] and [0 < size] *)
Definition slice {A} (l : list A) (i size : nat) : list A := take size (drop i l).

(** [_insert_data] *)
Definition _insert_data (self : SpannerVectorStore) (records : list (list pyval))
    (columns_to_insert : list string) : M unit :=
  emit (BatchInsert (_table_name self) columns_to_insert records).

(** The value appended for one column of one row (lines 430-433). *)
Definition metadata_value (row_metadata : list (string * pyval)) (column_name : string)
    : pyval :=
  match dict_get column_name row_metadata with
  | Some v => if is_not_None v then v else VNone
  | None => VNone
  end.

(** [values_dict[column_name].append(x)] *)
Definition values_append (column_name : string) (x : pyval)
    (values_dict : list (string * list pyval)) : outcome (list (string * list pyval)) :=
  match dict_get column_name values_dict with
  | Some column_values => Ok (dict_set column_name (column_values ++ [x]) values_dict)
  | None => Raise (KeyError column_name)
  end.

(** The body of [for row_metadata in metadatas] (lines 426-433). *)
Definition metadata_row (self : SpannerVectorStore)
    (values_dict : list (string * list pyval)) (row_metadata : loc)
    : M (list (string * list pyval)) :=
  match _metadata_json_column self with
  | Some json_column =>
      d <- deref row_metadata ;;
      assign row_metadata (dict_set json_column (JsonObject d) d)
  | None => ret tt
  end ;;;
  foldM (fun values_dict column_name =>
           d <- deref row_metadata ;;
           lift (values_append column_name (metadata_value d column_name) values_dict))
        (_metadata_columns self) values_dict.

Definition embedding_value (e : list float) : pyval := VList (VFloat <$> e).

(** The [texts] argument is an [Iterable[str]], and what the code does with
    it depends on the kind of object it is.  A list or a tuple can be gone
    through any number of times and indexed; an iterator -- a generator, a
    [map] object -- yields its items once and cannot be indexed; a set can
    be gone through again but not indexed.  [type_name] is the object's
    type as error messages name it. *)
Inductive Iterable : Type :=
| Sequence (items : list string)
| Iterator (type_name : string) (items : list string)
| Collection (type_name : string) (items : list string).

(** What one pass over the object yields: [list(texts)] on line 405. *)
Definition first_pass (texts : Iterable) : list string :=
  match texts with
  | Sequence items | Iterator _ items | Collection _ items => items
  end.

(** What another pass yields once [list(texts)] has run: an iterator is
    exhausted by then. *)
Definition second_pass (texts : Iterable) : list string :=
  match texts with
  | Sequence items | Collection _ items => items
  | Iterator _ _ => []
  end.

(** What a key of [values_dict] is bound to when the rows are built: a list
    or, under the content column (line 438), the caller's [texts] object as
    it is. *)
Inductive column_values : Type :=
| ListValues (values : list pyval)
| NotSubscriptable (type_name : string).

(** The [texts] object as a value of [values_dict]. *)
Definition texts_object (texts : Iterable) : column_values :=
  match texts with
  | Sequence items => ListValues (VStr <$> items)
  | Iterator type_name _ | Collection type_name _ => NotSubscriptable type_name
  end.

(** [obj[i]] for a non-negative index. *)
Definition subscript (obj : column_values) (i : nat) : outcome pyval :=
  match obj with
  | ListValues values => list_item values i
  | NotSubscriptable type_name =>
      Raise (TypeError ("'" +:+ type_name +:+ "' object is not subscriptable"))
  end.

(** A dict whose values are lists, seen as a dict of objects. *)
Definition lists_only (values_dict : list (string * list pyval))
    : list (string * column_values) :=
  prod_map id ListValues <$> values_dict.

(** [[values_dict[key][i] for key in values_dict] for i in range(n)] *)
Definition rows_of (values_dict : list (string * column_values)) (n : nat)
    : outcome (list (list pyval)) :=
  mapO (fun i =>
          mapO (fun key =>
                  match dict_item key values_dict with
                  | Ok obj => subscript obj i
                  | Raise e => Raise e
                  end)
               (dict_keys values_dict))
       (seq 0 n).

(** Lines 417-447 of [add_texts]: from the embedding call to the row list.
    Returns the insert column list and the rows.  [texts_list] and
    [number_of_records] are those of lines 405-406; the loop over the
    metadata dicts only ever meets lists in [values_dict], the three
    assignments after it may bind any object. *)
Definition add_texts_rows (self : SpannerVectorStore) (texts : Iterable)
    (metadatas : option (list loc)) (ids : option (list string))
    : M (list string * list (list pyval)) :=
  let texts_list := first_pass texts in
  let number_of_records := length texts_list in
  emit (EmbedDocuments texts_list) ;;;
  let embeds := embed_documents (_embedding_service self) texts_list in
  metadatas <- match metadatas with
               | None => mapM (fun _ => alloc []) (second_pass texts)
               | Some given => ret given
               end ;;
  let values_dict : list (string * list pyval) :=
    dict_comprehension (fun key => key) (fun _ => []) (_metadata_columns self) in
  values_dict <- match metadatas with
                 | [] => ret values_dict
                 | _ => foldM (metadata_row self) metadatas values_dict
                 end ;;
  let values_dict := lists_only values_dict in
  let values_dict :=
    match ids with
    | Some ids => dict_set (_id_column self) (ListValues (VStr <$> ids)) values_dict
    | None => values_dict
    end in
  let values_dict := dict_set (_content_column self) (texts_object texts) values_dict in
  let values_dict :=
    dict_set (_embedding_column self) (ListValues (embedding_value <$> embeds))
      values_dict in
  let columns_to_insert := dict_keys values_dict in
  rows_to_insert <- lift (rows_of values_dict number_of_records) ;;
  ret (columns_to_insert, rows_to_insert).

(** [add_texts].  A metadata dict is passed by reference. *)
Definition add_texts (self : SpannerVectorStore) (texts : Iterable)
    (metadatas : option (list loc)) (ids : option (list string))
    (batch_size : Z) : M (list string) :=
  let texts_list := first_pass texts in
  let number_of_records := length texts_list in
  if number_of_records =? 0 then ret []
  else
    match ids with
    | Some ids => py_assert (length ids =? number_of_records)
    | None => ret tt
    end ;;;
    match metadatas with
    | Some metadatas => py_assert (length metadatas =? number_of_records)
    | None => ret tt
    end ;;;
    prepared <- add_texts_rows self texts metadatas ids ;;
    let '(columns_to_insert, rows_to_insert) := prepared in
    starts <- lift (py_range (length rows_to_insert) batch_size) ;;
    foldM (fun _ i =>
             let batch := slice rows_to_insert i (Z.to_nat batch_size) in
             _insert_data self batch columns_to_insert)
          starts tt ;;;
    ret (match ids with Some ids => ids | None => [] end).

(** ** SQL templates

    The two triple-quoted templates of the module, character for character. *)

Definition SELECT_TEMPLATE : string := "
            SELECT {select_column_names} {distance_function}({embedding_column}, {vector_embedding_placeholder}) AS {distance_alias}
            FROM {table_name} 
            WHERE {filter}
            ORDER BY distance
            LIMIT {k_count};
        ".

Definition DELETE_TEMPLATE : string := "
                DELETE FROM {table_name} 
                WHERE {column_expression} IN {struct_placeholder}
                ".

Definition obind {A B} (o : outcome A) (k : A -> outcome B) : outcome B :=
  match o with
  | Ok a => k a
  | Raise e => Raise e
  end.

Notation "x <~ o ;; k" := (obind o (fun x => k))
  (at level 100, o at next level, right associativity).

(** ** Deletion *)

(** The nested [delete_records]: the statement it formats. *)
Definition delete_statement (self : SpannerVectorStore) (columns values : list string)
    : outcome string :=
  let column_expression := "(" +:+ PyStr.join ", " columns +:+ ")" in
  format DELETE_TEMPLATE
    [ ("table_name", _table_name self);
      ("column_expression", column_expression);
      ("struct_placeholder",
       PyStr.join ", " ((fun elem => "(" +:+ elem +:+ ")") <$> values)) ].

(** [delete] *)
Definition delete (self : SpannerVectorStore) (ids : option (list string))
    (documents : option (list Document)) : M bool :=
  match ids, documents with
  | None, None => raise (Exception "Pass id/documents to delete")
  | _, _ =>
      let '(columns, values) :=
        match ids with
        | Some ids => ([_id_column self], (fun value => "('" +:+ value +:+ "')") <$> ids)
        | None => ([], [])   (* elif documents is not None: pass *)
        end in
      sql_query <- lift (delete_statement self columns values) ;;
      emit (ExecuteUpdate sql_query) ;;;
      ret true
  end.

(** ** Similarity search *)

Definition DISTANCE_SELECT_QUERY_NAME : string := "distance".

(** [enumerate(l)] *)
Definition enumerate {A} (l : list A) : list (nat * A) := zip (seq 0 (length l)) l.

(** Lines 575-576: column name to position, the distance alias last. *)
Definition column_order_map (self : SpannerVectorStore) : list (string * nat) :=
  dict_set DISTANCE_SELECT_QUERY_NAME (length (_columns_to_insert self))
    (dict_comprehension snd fst (enumerate (_columns_to_insert self))).

(** [("@vector_embedding", "vector_embedding")] or [("$1", "p1")] *)
Definition parameter (self : SpannerVectorStore) : string * string :=
  if is_postgresql (database_dialect (_database self)) then ("$1", "p1")
  else ("@vector_embedding", "vector_embedding").

(** Lines 574-594: the statement text. *)
Definition search_statement (self : SpannerVectorStore) (k : Z)
    (pre_filter : option string) : outcome string :=
  let distance_function :=
    getDistanceFunction (_dialect_semantics self)
      (distance_strategy (_query_parameters self)) in
  let select_column_names := PyStr.join "," (_columns_to_insert self) +:+ "," in
  format SELECT_TEMPLATE
    [ ("table_name", _table_name self);
      ("embedding_column", _embedding_column self);
      ("select_column_names", select_column_names);
      ("vector_embedding_placeholder", (parameter self).1);
      ("filter", match pre_filter with Some text => text | None => "1 = 1" end);
      ("k_count", PyStr.of_int k);
      ("distance_function", distance_function);
      ("distance_alias", DISTANCE_SELECT_QUERY_NAME) ].

(** Lines 597-603: what is handed to [snapshot.execute_sql]. *)
Definition search_request (self : SpannerVectorStore) (embedding : list float)
    (k : Z) (pre_filter : option string) : outcome SqlRequest :=
  sql_query <~ search_statement self k pre_filter ;;
  Ok {| sql := sql_query;
        params := [((parameter self).2, embedding)];
        param_types := [((parameter self).2, Array FLOAT64)] |}.

(** [row[column_order_map[key]]] *)
Definition row_value (order : list (string * nat)) (row : list pyval) (key : string)
    : outcome pyval :=
  index <~ dict_item key order ;;
  list_item row index.

(** The dict comprehension of lines 612-616. *)
Fixpoint metadata_of_columns (order : list (string * nat)) (row : list pyval)
    (keys : list string) (acc : list (string * pyval)) : outcome (list (string * pyval)) :=
  match keys with
  | [] => Ok acc
  | key :: keys' =>
      v <~ row_value order row key ;;
      if is_not_None v then
        v' <~ row_value order row key ;;
        metadata_of_columns order row keys' (dict_set key v' acc)
      else metadata_of_columns order row keys' acc
  end.

(** [Document(page_content=..., metadata=...)]: langchain's document model
    validates its fields when it is built -- [page_content] has to be a
    string and [metadata] a mapping. *)
Definition Document_init (page_content metadata : pyval) : outcome Document :=
  match page_content, metadata with
  | VStr _, (VDict _ | JsonObject _) =>
      Ok {| page_content := page_content; metadata := metadata |}
  | _, _ => Raise ValidationError
  end.

(** [datetime.timedelta(seconds=seconds)] for an [int]; the duration is kept
    in seconds.  A duration is held as whole days and a rest, and one whose
    days leave [-999999999 .. 999999999] is refused. *)
Definition timedelta (seconds : Z) : outcome Z :=
  if (Z.abs (seconds / 86400) <=? 999999999)%Z then Ok seconds
  else Raise OverflowError.

(** The body of [for row in results] (lines 607-619). *)
Definition document_of_row (self : SpannerVectorStore) (row : list pyval)
    : outcome (Document * pyval) :=
  let order := column_order_map self in
  page_content <~ row_value order row (_content_column self) ;;
  metadata <~
    match _metadata_json_column self with
    | Some json_column =>
        v <~ row_value order row json_column ;;
        if truthy v then row_value order row json_column
        else entries <~ metadata_of_columns order row (_metadata_columns self) [] ;;
             Ok (VDict entries)
    | None =>
        entries <~ metadata_of_columns order row (_metadata_columns self) [] ;;
        Ok (VDict entries)
    end ;;
  doc <~ Document_init page_content metadata ;;
  distance <~ row_value order row DISTANCE_SELECT_QUERY_NAME ;;
  Ok (doc, distance).

(** [similarity_search_with_score_by_vector] *)
Definition similarity_search_with_score_by_vector (self : SpannerVectorStore)
    (embedding : list float) (k : Z) (pre_filter : option string)
    : M (list (Document * pyval)) :=
  let staleness := staleness (_query_parameters self) in
  staleness <- lift (timedelta staleness) ;;
  request <- lift (search_request self embedding k pre_filter) ;;
  emit (ExecuteSql staleness request) ;;;
  let results := execute_sql (_database self) staleness request in
  lift (mapO (document_of_row self) results).

(** ** Statement shapes named by the specification *)

(** An extra column as the statement declares it: [<name> <sqlType>], with
    [NOT NULL] when the column is not nullable. *)
Definition declaration (c : TableColumn) : string :=
  "  " +:+ name c +:+ " " +:+ type c +:+ (if is_null c then "" else " NOT NULL").

(** The declared columns, in order: id, content, embedding, then the extra
    columns as supplied. *)
Definition declarations (dialect : DatabaseDialect) (id content embedding : string)
    (extra : list TableColumn) : list string :=
  (if is_postgresql dialect then
     [ "  " +:+ id +:+ " varchar(36) DEFAULT (spanner.generate_uuid())";
       "  " +:+ content +:+ " text";
       "  " +:+ embedding +:+ " float8[]" ]
   else
     [ "  " +:+ id +:+ " STRING(36) DEFAULT (GENERATE_UUID())";
       "  " +:+ content +:+ " STRING(MAX)";
       "  " +:+ embedding +:+ " ARRAY<FLOAT64>" ])
  ++ (declaration <$> extra).

(** The [CREATE TABLE] statement of the specification: the key clause is the
    last item inside the parentheses for PostgreSQL and follows the closing
    parenthesis otherwise. *)
Definition create_table_shape (dialect : DatabaseDialect) (table id content embedding : string)
    (extra : list TableColumn) : string :=
  let separator := ",
" in
  let header := "CREATE TABLE " +:+ table +:+ " (
" in
  let key := "PRIMARY KEY(" +:+ id +:+ ")" in
  if is_postgresql dialect then
    header
    +:+ PyStr.join separator (declarations dialect id content embedding extra ++ ["  " +:+ key])
    +:+ "
)"
  else
    header
    +:+ PyStr.join separator (declarations dialect id content embedding extra)
    +:+ "
) " +:+ key.

(** The text of a column declaration stops where its type stops: a nullable
    column whose type text ends in a comma or a newline does not qualify. *)
Definition ends_declaration (c : TableColumn) : bool :=
  negb (is_null c)
  || match PyStr.last_char (type c) with
     | Some ch => negb (PyStr.in_chars ch ",
")
     | None => true
     end.

Definition last_column_ends_declaration (extra : list TableColumn) : bool :=
  match last extra with
  | Some c => ends_declaration c
  | None => true
  end.

(** What the trimming of line 275 leaves of a column that is declared last:
    a nullable column loses every comma and newline its type text ends in,
    together with the separator. *)
Definition trimmed (c : TableColumn) : TableColumn :=
  if is_null c
  then {| name := name c; type := PyStr.rstrip ",
" (type c); is_null := true |}
  else c.

Fixpoint trim_last (extra : list TableColumn) : list TableColumn :=
  match extra with
  | [] => []
  | [c] => [trimmed c]
  | c :: rest => c :: trim_last rest
  end.

(** ** A sample deployment, for the worked examples *)

Definition sample_embeddings : Embeddings :=
  {| embed_documents := fun texts => (fun _ => [1.5%float; 2%float]) <$> texts;
     embed_query := fun _ => [0%float; 1%float] |}.

(** A GoogleSQL database with one table [docs]; [rows] is what a snapshot
    read returns. *)
Definition sample_database (rows : list (list pyval)) : Database :=
  {| database_exists := true;
     database_dialect := GOOGLE_STANDARD_SQL;
     table_schema := fun table =>
       if String.eqb table "docs" then
         Some [ ("id", "STRING(36)"); ("content", "STRING(MAX)");
                ("embedding", "ARRAY<FLOAT64>"); ("author", "STRING(MAX)");
                ("metadata", "JSON") ]
       else None;
     execute_sql := fun _ _ => rows |}.

Definition sample_client (rows : list (list pyval)) : Client :=
  {| instance_exists := fun _ => true;
     instance_database := fun _ _ => sample_database rows |}.

Definition default_query_parameters : QueryParameters :=
  {| algorithm := BRUTE_FORCE; distance_strategy := EUCLIDEIAN; staleness := 0 |}.

(** The store opened on [docs] with one metadata column [author] and the
    catch-all column [metadata]. *)
Definition sample_store (rows : list (list pyval)) : SpannerVectorStore :=
  {| _instance_id := "inst";
     _database_id := "db";
     _table_name := "docs";
     _id_column := "id";
     _content_column := "content";
     _embedding_column := "embedding";
     _metadata_json_column := Some "metadata";
     _query_parameters := default_query_parameters;
     _embedding_service := sample_embeddings;
     _database := sample_database rows;
     _dialect_semantics := GoogleSqlSemnatics;
     _metadata_columns := ["author"; "metadata"];
     _columns_to_insert := ["id"; "content"; "embedding"; "author"; "metadata"] |}.

(** The sample store with a staleness of 10^14 seconds, more than a duration
    can hold. *)
Definition overdue_store : SpannerVectorStore :=
  {| _instance_id := "inst";
     _database_id := "db";
     _table_name := "docs";
     _id_column := "id";
     _content_column := "content";
     _embedding_column := "embedding";
     _metadata_json_column := Some "metadata";
     _query_parameters :=
       {| algorithm := BRUTE_FORCE; distance_strategy := EUCLIDEIAN;
          staleness := 100000000000000 |};
     _embedding_service := sample_embeddings;
     _database := sample_database [];
     _dialect_semantics := GoogleSqlSemnatics;
     _metadata_columns := ["author"; "metadata"];
     _columns_to_insert := ["id"; "content"; "embedding"; "author"; "metadata"] |}.

(** The same table opened without the catch-all column. *)
Definition plain_store : SpannerVectorStore :=
  {| _instance_id := "inst";
     _database_id := "db";
     _table_name := "docs";
     _id_column := "id";
     _content_column := "content";
     _embedding_column := "embedding";
     _metadata_json_column := None;
     _query_parameters := default_query_parameters;
     _embedding_service := sample_embeddings;
     _database := sample_database [];
     _dialect_semantics := GoogleSqlSemnatics;
     _metadata_columns := ["author"];
     _columns_to_insert := ["id"; "content"; "embedding"; "author"] |}.

Definition empty_world : world := {| heap := ∅; trace := [] |}.

(** An embedding service that returns a single vector, however many texts
    it is given, and the sample store with it. *)
Definition one_vector_embeddings : Embeddings :=
  {| embed_documents := fun _ => [[1%float]]; embed_query := fun _ => [1%float] |}.

Definition one_vector_store : SpannerVectorStore :=
  {| _instance_id := "inst";
     _database_id := "db";
     _table_name := "docs";
     _id_column := "id";
     _content_column := "content";
     _embedding_column := "embedding";
     _metadata_json_column := Some "metadata";
     _query_parameters := default_query_parameters;
     _embedding_service := one_vector_embeddings;
     _database := sample_database [];
     _dialect_semantics := GoogleSqlSemnatics;
     _metadata_columns := ["author"; "metadata"];
     _columns_to_insert := ["id"; "content"; "embedding"; "author"; "metadata"] |}.

(** ** The ingestion path, described *)

(** The dict a reference denotes in a heap. *)
Definition heap_dict (h : gmap loc (list (string * pyval))) (r : loc)
    : list (string * pyval) :=
  default [] (h !! r).

(** What line 427 does to the heap for one row: the dict gains the catch-all
    key, bound to a copy of what the dict held just before. *)
Definition stamp (json_column : option string) (h : gmap loc (list (string * pyval)))
    (r : loc) : gmap loc (list (string * pyval)) :=
  match json_column with
  | Some j => <[r := dict_set j (JsonObject (heap_dict h r)) (heap_dict h r)]> h
  | None => h
  end.

(** The dicts the loop reads its column values from, row by row: each as it
    stands once its own row has been stamped. *)
Fixpoint seen_dicts (json_column : option string) (h : gmap loc (list (string * pyval)))
    (refs : list loc) : list (list (string * pyval)) :=
  match refs with
  | [] => []
  | r :: refs' =>
      let h' := stamp json_column h r in
      heap_dict h' r :: seen_dicts json_column h' refs'
  end.

(** The inner loop over the metadata columns, for a row whose dict is [d]. *)
Fixpoint append_columns (d : list (string * pyval)) (columns : list string)
    (values_dict : list (string * list pyval)) : outcome (list (string * list pyval)) :=
  match columns with
  | [] => Ok values_dict
  | column_name :: columns' =>
      match values_append column_name (metadata_value d column_name) values_dict with
      | Ok values_dict' => append_columns d columns' values_dict'
      | Raise e => Raise e
      end
  end.

(** [l] with [x] added at the end unless it is there already: how a dict's
    key list grows. *)
Definition append_new (l : list string) (x : string) : list string :=
  if name_in x l then l else l ++ [x].

(** The column list of every insert of one [add_texts] call: the metadata
    columns (a repeated name counted once), then the id column when ids are
    supplied, the content column and the embedding column. *)
Definition insert_columns (self : SpannerVectorStore) (with_ids : bool) : list string :=
  let metadata := fold_left append_new (_metadata_columns self) [] in
  let with_id := if with_ids then append_new metadata (_id_column self) else metadata in
  append_new (append_new with_id (_content_column self)) (_embedding_column self).


(** The batches of the write loop: one slice per start index. *)
Definition batches_of {A} (rows : list A) (batch_size : nat) : list (list A) :=
  (fun i => slice rows i batch_size) <$> range_from (length rows) 0 (length rows) batch_size.

(** The rows a trace inserted, batch after batch, each with its column list. *)
Definition inserted (events : list event) : list (list string * list pyval) :=
  events ≫= (fun e => match e with
                      | BatchInsert _ columns values => (fun row => (columns, row)) <$> values
                      | _ => []
                      end).

(** How many times a name occurs in a column list. *)
Definition occurrences (k : string) (columns : list string) : nat :=
  length (filter (fun c => c = k) columns).

#[global] Instance pyval_inhabited : Inhabited pyval := populate VNone.

(** The row list that [rows_of] builds when every column holds enough
    values: row [i] takes the [i]-th value of each column, in key order. *)
Definition rows_table (values_dict : list (string * list pyval)) (n : nat)
    : list (list pyval) :=
  (fun i => (fun entry => entry.2 !!! i) <$> values_dict) <$> seq 0 n.

(** A computation that leaves the trace as it found it, whatever its outcome. *)
Definition silent {A} (m : M A) : Prop := forall w, trace (m w).2 = trace w.

(** The column values the metadata loop leaves behind, in closed form: one
    key per metadata column name, and under it one value per row (and per
    occurrence of the name among the metadata columns), read from the row's
    dict as the loop saw it. *)
Definition metadata_table (self : SpannerVectorStore)
    (h : gmap loc (list (string * pyval))) (refs : list loc)
    : list (string * list pyval) :=
  (fun k =>
     (k, seen_dicts (_metadata_json_column self) h refs
         ≫= fun d => replicate (occurrences k (_metadata_columns self)) (metadata_value d k)))
  <$> fold_left append_new (_metadata_columns self) [].

(** [values_dict] as it stands when the rows are built (line 442). *)
Definition values_table (self : SpannerVectorStore) (texts : list string)
    (ids : option (list string)) (h : gmap loc (list (string * pyval)))
    (refs : list loc) : list (string * list pyval) :=
  let values_dict := metadata_table self h refs in
  let values_dict :=
    match ids with
    | Some ids => dict_set (_id_column self) (VStr <$> ids) values_dict
    | None => values_dict
    end in
  let values_dict := dict_set (_content_column self) (VStr <$> texts) values_dict in
  dict_set (_embedding_column self)
    (embedding_value <$> embed_documents (_embedding_service self) texts) values_dict.

(** [values_dict] as it stands when the rows are built, whatever kind of
    object [texts] is. *)
Definition values_objects (self : SpannerVectorStore) (texts : Iterable)
    (ids : option (list string)) (h : gmap loc (list (string * pyval)))
    (refs : list loc) : list (string * column_values) :=
  let values_dict := lists_only (metadata_table self h refs) in
  let values_dict :=
    match ids with
    | Some ids => dict_set (_id_column self) (ListValues (VStr <$> ids)) values_dict
    | None => values_dict
    end in
  let values_dict := dict_set (_content_column self) (texts_object texts) values_dict in
  dict_set (_embedding_column self)
    (ListValues (embedding_value
                   <$> embed_documents (_embedding_service self) (first_pass texts)))
    values_dict.

(** ** The remaining entry points *)

(** A caller's document on the write path: its metadata is a dict object,
    held by reference. *)
Record DocumentRef : Type := {
  ref_page_content : string;
  ref_metadata : loc;
}.

(** [add_documents]; [batch_size] is what [**kwargs] carries to [add_texts]
    (5000 when absent). *)
Definition add_documents (self : SpannerVectorStore) (documents : list DocumentRef)
    (ids : option (list string)) (batch_size : Z) : M (list string) :=
  let texts := ref_page_content <$> documents in
  let metadatas := ref_metadata <$> documents in
  add_texts self (Sequence texts) (Some metadatas) ids batch_size.

(** The store of the sample table opened with an ignore list that names the
    content column. *)
Definition content_ignored_store : outcome SpannerVectorStore :=
  SpannerVectorStore_init "inst" "db" "docs" sample_embeddings "id" "content" "embedding"
    (sample_client [[VStr "7"; VList []; VNone; VNone; VFloat 0.5]])
    None (Some ["content"]) None default_query_parameters.

(** * Properties *)

(** ** Strings *)

Section StringFacts.

Lemma append_String (c : ascii) (s t : string) : String c s +:+ t = String c (s +:+ t).
Proof. reflexivity. Qed.

Lemma append_empty_l (s : string) : "" +:+ s = s.
Proof. reflexivity. Qed.

Lemma append_empty_r (s : string) : s +:+ "" = s.
Proof. induction s as [|c s IH]; [reflexivity|]. by rewrite append_String, IH. Qed.

Lemma append_assoc (s t u : string) : (s +:+ t) +:+ u = s +:+ t +:+ u.
Proof. induction s as [|c s IH]; [reflexivity|]. by rewrite !append_String, IH. Qed.

Lemma list_ascii_append (s t : string) :
  list_ascii_of_string (s +:+ t) = list_ascii_of_string s ++ list_ascii_of_string t.
Proof. induction s as [|c s IH]; [reflexivity|]. rewrite append_String. cbn. by rewrite IH. Qed.

Lemma last_char_append (s t : string) :
  PyStr.last_char (s +:+ t)
  = match PyStr.last_char t with Some c => Some c | None => PyStr.last_char s end.
Proof.
  unfold PyStr.last_char. rewrite list_ascii_append.
  destruct (list_ascii_of_string t) as [|c l] using rev_ind.
  - by rewrite app_nil_r.
  - by rewrite app_assoc, !last_snoc.
Qed.

Lemma last_char_String (c : ascii) (s : string) :
  PyStr.last_char (String c s)
  = match PyStr.last_char s with Some c' => Some c' | None => Some c end.
Proof. apply (last_char_append (String c "") s). Qed.

(** A string made of strippable characters only is stripped to nothing. *)
Lemma rstrip_all (chars s : string) :
  forallb (fun c => PyStr.in_chars c chars) (list_ascii_of_string s) = true ->
  PyStr.rstrip chars s = "".
Proof.
  induction s as [|c s IH]; [done|]. cbn. intros [Hc Hs]%andb_prop.
  by rewrite (IH Hs), Hc.
Qed.

Lemma rstrip_append (chars s t : string) :
  PyStr.rstrip chars t = "" -> PyStr.rstrip chars (s +:+ t) = PyStr.rstrip chars s.
Proof.
  intros Ht. induction s as [|c s IH]; [done|].
  rewrite append_String. cbn. by rewrite IH.
Qed.

(** Nothing is stripped from a string whose last character is kept. *)
Lemma rstrip_kept (chars s : string) (c : ascii) :
  PyStr.last_char s = Some c -> PyStr.in_chars c chars = false ->
  PyStr.rstrip chars s = s.
Proof.
  intros Hlast Hc. induction s as [|a s IH]; [done|].
  rewrite last_char_String in Hlast. cbn.
  destruct (PyStr.last_char s) as [c'|] eqn:Hs.
  - rewrite (IH Hlast). destruct s; [done|done].
  - destruct s as [|b s]; [|by rewrite last_char_String in Hs; destruct (PyStr.last_char s)].
    cbn. by simplify_eq; rewrite Hc.
Qed.

(** Stripping stops at a character that is kept. *)
Lemma rstrip_after (chars p s : string) (c : ascii) :
  PyStr.last_char p = Some c -> PyStr.in_chars c chars = false ->
  PyStr.rstrip chars (p +:+ s) = p +:+ PyStr.rstrip chars s.
Proof.
  intros Hlast Hc. induction p as [|a p IH]; [done|].
  rewrite !append_String. cbn [PyStr.rstrip].
  destruct p as [|b p].
  - cbn in Hlast. simplify_eq. rewrite !append_empty_l.
    destruct (PyStr.rstrip chars s); [by rewrite Hc|done].
  - rewrite last_char_String in Hlast.
    rewrite IH; [done|].
    by destruct (PyStr.last_char (String b p)) eqn:E;
      [|rewrite last_char_String in E; destruct (PyStr.last_char p)].
Qed.

Lemma join_cons (sep x : string) (l : list string) :
  l <> [] -> PyStr.join sep (x :: l) = x +:+ sep +:+ PyStr.join sep l.
Proof. by destruct l. Qed.

Lemma join_snoc (sep : string) (l : list string) (x : string) :
  l <> [] -> PyStr.join sep (l ++ [x]) = PyStr.join sep l +:+ sep +:+ x.
Proof.
  induction l as [|y l IH]; [done|]. intros _.
  destruct l as [|z l]; [done|].
  change (PyStr.join sep ((y :: z :: l) ++ [x]))
    with (y +:+ sep +:+ PyStr.join sep ((z :: l) ++ [x])).
  rewrite IH by done.
  change (PyStr.join sep (y :: z :: l)) with (y +:+ sep +:+ PyStr.join sep (z :: l)).
  by rewrite !append_assoc.
Qed.

End StringFacts.

(** Right-nests every concatenation, so that two spellings of one text meet. *)
Ltac flatten_strings :=
  repeat (rewrite append_assoc || rewrite append_String || rewrite append_empty_l).

(** ** Dicts *)

Section DictFacts.
Context {V : Type}.
Implicit Types (d : list (string * V)) (k : string) (v : V).

Lemma dict_get_set_eq k v d : dict_get k (dict_set k v d) = Some v.
Proof.
  induction d as [|[k' v'] d IH]; cbn; [by rewrite String.eqb_refl|].
  destruct (String.eqb k k') eqn:E; cbn; by rewrite ?String.eqb_refl, ?E.
Qed.

Lemma dict_get_set_ne k k' v d : k <> k' -> dict_get k' (dict_set k v d) = dict_get k' d.
Proof.
  intros Hne. induction d as [|[k'' v''] d IH]; cbn.
  - by apply String.eqb_neq in Hne; rewrite String.eqb_sym, Hne.
  - destruct (String.eqb k k'') eqn:E; cbn.
    + apply String.eqb_eq in E as <-.
      by apply String.eqb_neq in Hne; rewrite String.eqb_sym, Hne.
    + by rewrite IH.
Qed.

Lemma dict_get_None k d : dict_get k d = None <-> k ∉ dict_keys d.
Proof.
  unfold dict_keys. induction d as [|[k' v'] d IH]; cbn.
  - split; [intros _; apply not_elem_of_nil|done].
  - rewrite not_elem_of_cons. destruct (String.eqb_spec k k') as [->|Hne].
    + split; [done|]. by intros [? _].
    + rewrite IH. tauto.
Qed.

Lemma dict_get_is_Some k d : is_Some (dict_get k d) <-> k ∈ dict_keys d.
Proof.
  rewrite <- not_eq_None_Some, dict_get_None.
  split; [apply dec_stable|auto].
Qed.

Lemma dict_keys_set k v d : dict_keys (dict_set k v d) = append_new (dict_keys d) k.
Proof.
  unfold dict_keys, append_new, name_in.
  induction d as [|[k' v'] d IH]; cbn; [done|].
  destruct (String.eqb_spec k k') as [->|Hne]; cbn.
  - by rewrite bool_decide_eq_true_2 by apply list_elem_of_here.
  - rewrite IH. destruct (bool_decide (k ∈ d.*1)) eqn:E.
    + apply bool_decide_eq_true in E.
      by rewrite bool_decide_eq_true_2 by (by apply list_elem_of_further).
    + apply bool_decide_eq_false in E.
      by rewrite bool_decide_eq_false_2 by (by rewrite elem_of_cons; intros [?|?]).
Qed.

Lemma append_new_NoDup (l : list string) k : NoDup l -> NoDup (append_new l k).
Proof.
  unfold append_new, name_in. intros Hl. case_bool_decide; [done|].
  apply NoDup_app. repeat split; [done| |apply NoDup_singleton].
  intros x Hx ->%list_elem_of_singleton. done.
Qed.

Lemma dict_set_NoDup k v d : NoDup (dict_keys d) -> NoDup (dict_keys (dict_set k v d)).
Proof. rewrite dict_keys_set. apply append_new_NoDup. Qed.

Lemma append_new_elem (l : list string) k x : x ∈ append_new l k <-> x ∈ l \/ x = k.
Proof.
  unfold append_new, name_in. case_bool_decide.
  - split; [auto|]. by intros [?| ->].
  - rewrite elem_of_app, list_elem_of_singleton. tauto.
Qed.

(** Under distinct keys, an entry is what [get] finds. *)
Lemma dict_get_entry k v d : NoDup (dict_keys d) -> (k, v) ∈ d -> dict_get k d = Some v.
Proof.
  unfold dict_keys. induction d as [|[k' v'] d IH]; cbn.
  - intros _ H. by apply elem_of_nil in H.
  - intros [Hk' Hd]%NoDup_cons [H|H]%elem_of_cons.
    + simplify_eq. by rewrite String.eqb_refl.
    + destruct (String.eqb_spec k k') as [->|Hne]; [|by apply IH].
      exfalso. apply Hk'. apply list_elem_of_fmap. by exists (k', v).
Qed.

Lemma dict_get_lookup (p : nat) k v d :
  NoDup (dict_keys d) -> d !! p = Some (k, v) -> dict_get k d = Some v.
Proof. intros Hd Hp. apply dict_get_entry; [done|]. by eapply list_elem_of_lookup_2. Qed.

(** Two dicts with the same keys in the same order and the same bindings
    are the same dict. *)
Lemma dict_ext d1 d2 :
  NoDup (dict_keys d1) -> dict_keys d1 = dict_keys d2 ->
  (forall k, k ∈ dict_keys d1 -> dict_get k d1 = dict_get k d2) -> d1 = d2.
Proof.
  unfold dict_keys. revert d2.
  induction d1 as [|[k v] d1 IH]; intros [|[k2 v2] d2]; cbn; try done.
  intros [Hk Hd]%NoDup_cons [= <- Hkeys] Hget.
  pose proof (Hget k ltac:(apply list_elem_of_here)) as Hhead.
  rewrite String.eqb_refl in Hhead. simplify_eq. f_equal.
  apply IH; [done..|].
  intros k' Hk'. specialize (Hget k' ltac:(by apply list_elem_of_further)).
  destruct (decide (k' = k)) as [Heq|Hne]; [by subst|].
  apply String.eqb_neq in Hne. by rewrite Hne in Hget.
Qed.

Lemma fold_dict_set_keys {X} (key : X -> string) (val : X -> V) (xs : list X) d :
  dict_keys (fold_left (fun d x => dict_set (key x) (val x) d) xs d)
  = fold_left append_new (key <$> xs) (dict_keys d).
Proof.
  revert d. induction xs as [|x xs IH]; intros d; [done|].
  rewrite fmap_cons. cbn [fold_left]. by rewrite IH, dict_keys_set.
Qed.

Lemma dict_comprehension_keys {X} (key : X -> string) (val : X -> V) (xs : list X) :
  dict_keys (dict_comprehension key val xs) = fold_left append_new (key <$> xs) [].
Proof. apply fold_dict_set_keys. Qed.

Lemma fold_append_new_NoDup (l acc : list string) :
  NoDup acc -> NoDup (fold_left append_new l acc).
Proof.
  revert acc. induction l as [|x l IH]; intros acc Hacc; cbn; [done|].
  by apply IH, append_new_NoDup.
Qed.

Lemma fold_append_new_elem (l acc : list string) x :
  x ∈ fold_left append_new l acc <-> x ∈ acc \/ x ∈ l.
Proof.
  revert acc. induction l as [|y l IH]; intros acc; cbn.
  - rewrite elem_of_nil. tauto.
  - rewrite IH, append_new_elem, elem_of_cons. tauto.
Qed.

(** Names that are already distinct are kept as they are. *)
Lemma fold_append_new_distinct (l acc : list string) :
  NoDup (acc ++ l) -> fold_left append_new l acc = acc ++ l.
Proof.
  revert acc. induction l as [|x l IH]; intros acc Hnd; cbn; [by rewrite app_nil_r|].
  assert (Hx : x ∉ acc).
  { apply NoDup_app in Hnd as (_ & Hdisj & _). intros Hx. apply (Hdisj x Hx), list_elem_of_here. }
  unfold append_new at 2, name_in. rewrite bool_decide_eq_false_2 by done.
  rewrite IH; [by rewrite <- app_assoc|]. by rewrite <- app_assoc.
Qed.

End DictFacts.

(** ** Schema definition *)

Section Ddl.

Let separator : string := ",
".

Lemma column_sql_declaration (c : TableColumn) :
  column_sql c = declaration c +:+ separator.
Proof. unfold column_sql, declaration. by rewrite !append_assoc. Qed.

(** The loop over the extra columns appends their declarations, each
    followed by the separator. *)
Lemma extra_columns_loop (configs : list TableColumn) (header : string)
    (declared : list string) :
  declared <> [] ->
  fold_left (fun acc c => acc +:+ column_sql c) configs
    (header +:+ PyStr.join separator declared +:+ separator)
  = header +:+ PyStr.join separator (declared ++ (declaration <$> configs)) +:+ separator.
Proof.
  revert declared. induction configs as [|c configs IH]; intros declared Hne.
  - cbn. by rewrite app_nil_r.
  - cbn [fold_left fmap list_fmap].
    replace ((header +:+ PyStr.join separator declared +:+ separator) +:+ column_sql c)
      with (header +:+ PyStr.join separator (declared ++ [declaration c]) +:+ separator).
    + rewrite IH by (by destruct declared). by rewrite <- app_assoc.
    + rewrite join_snoc, column_sql_declaration by done. by rewrite !append_assoc.
Qed.

Lemma declaration_last_char (c : TableColumn) :
  ends_declaration c = true ->
  exists ch, PyStr.last_char (declaration c) = Some ch
             /\ PyStr.in_chars ch separator = false.
Proof.
  unfold ends_declaration, declaration. intros Hc.
  rewrite !last_char_append.
  destruct (is_null c); cbn in Hc.
  - destruct (PyStr.last_char (type c)) as [ch|].
    + exists ch. split; [done|]. by apply negb_true_iff.
    + by exists " "%char.
  - by exists "L"%char.
Qed.

Lemma declarations_last_char (dialect : DatabaseDialect)
    (id content embedding : string) (extra : list TableColumn) :
  is_postgresql dialect = false ->
  last_column_ends_declaration extra = true ->
  exists ch,
    PyStr.last_char (PyStr.join separator (declarations dialect id content embedding extra))
    = Some ch
    /\ PyStr.in_chars ch separator = false.
Proof.
  intros Hd Hlast. unfold declarations. rewrite Hd.
  destruct extra as [|c extra _] using rev_ind.
  - exists ">"%char. cbn [fmap list_fmap app PyStr.join].
    by rewrite !last_char_append.
  - unfold last_column_ends_declaration in Hlast. rewrite last_snoc in Hlast.
    destruct (declaration_last_char c Hlast) as (ch & Hch & Hkeep).
    exists ch. split; [|done].
    rewrite fmap_app, app_assoc. cbn [fmap list_fmap].
    rewrite join_snoc by (by destruct (declaration <$> extra)).
    by rewrite !last_char_append, Hch.
Qed.

Lemma trim_last_snoc (extra : list TableColumn) (c : TableColumn) :
  trim_last (extra ++ [c]) = extra ++ [trimmed c].
Proof.
  induction extra as [|c' extra IH]; [done|].
  cbn [app trim_last]. rewrite IH. by destruct extra.
Qed.

(** Trimming the text that ends in a column's declaration and the separator
    leaves the declaration of the trimmed column. *)
Lemma declaration_trimmed (p : string) (c : TableColumn) :
  PyStr.rstrip separator (p +:+ declaration c +:+ separator)
  = p +:+ declaration (trimmed c).
Proof.
  unfold declaration, trimmed. destruct (is_null c) eqn:Hnull; cbn [name type is_null].
  - rewrite !append_empty_r.
    replace (p +:+ ("  " +:+ name c +:+ " " +:+ type c) +:+ separator)
      with ((p +:+ "  " +:+ name c +:+ " ") +:+ type c +:+ separator)
      by (by rewrite !append_assoc).
    rewrite (rstrip_after _ _ _ " "%char); [|by rewrite !last_char_append|done].
    rewrite rstrip_append by reflexivity. by rewrite !append_assoc.
  - rewrite Hnull.
    replace (p +:+ ("  " +:+ name c +:+ " " +:+ type c +:+ " NOT NULL") +:+ separator)
      with ((p +:+ "  " +:+ name c +:+ " " +:+ type c +:+ " NOT NULL") +:+ separator)
      by (by rewrite !append_assoc).
    rewrite (rstrip_after _ _ _ "L"%char); [|by rewrite !last_char_append|done].
    by rewrite append_empty_r.
Qed.

(** The statement before its last step: the header and every declaration,
    each followed by the separator. *)
Lemma generate_sql_unfold (dialect : DatabaseDialect)
    (table_name id_column content_column embedding_column : string)
    (column_configs : option (list TableColumn)) :
  let body :=
    ("CREATE TABLE " +:+ table_name +:+ " (
") +:+ PyStr.join separator
        (declarations dialect id_column content_column embedding_column
           (default [] column_configs))
      +:+ separator in
  _generate_sql dialect table_name (Some id_column) content_column embedding_column
    column_configs
  = if is_postgresql dialect
    then Ok (body +:+ ("  PRIMARY KEY(" +:+ id_column +:+ ")
)"))
    else Ok (PyStr.rstrip separator body +:+ "
) PRIMARY KEY(" +:+ id_column +:+ ")").
Proof.
  intros body. subst body.
  set (extra := default [] column_configs).
  set (header := "CREATE TABLE " +:+ table_name +:+ " (
").
  assert (Hbody :
    match column_configs with
    | Some configs =>
        fold_left (fun acc c => acc +:+ column_sql c) configs
          (header +:+ PyStr.join separator
                        (declarations dialect id_column content_column embedding_column [])
                  +:+ separator)
    | None =>
        header +:+ PyStr.join separator
                     (declarations dialect id_column content_column embedding_column [])
               +:+ separator
    end
    = header +:+ PyStr.join separator
                   (declarations dialect id_column content_column embedding_column extra)
             +:+ separator).
  { subst extra. destruct column_configs as [configs|]; cbn [default from_option id].
    - rewrite extra_columns_loop by (by unfold declarations; destruct (is_postgresql dialect)).
      unfold declarations. cbn [fmap list_fmap]. by rewrite app_nil_r.
    - done. }
  unfold _generate_sql. fold header.
  destruct (is_postgresql dialect) eqn:Hd.
  - replace (header +:+ ("  " +:+ fstr (Some id_column)
               +:+ " varchar(36) DEFAULT (spanner.generate_uuid()),
") +:+ ("  " +:+ content_column +:+ " text,
") +:+ ("  " +:+ embedding_column +:+ " float8[],
"))
      with (header +:+ PyStr.join separator
                        (declarations dialect id_column content_column embedding_column [])
                  +:+ separator)
      by (unfold declarations; rewrite Hd; cbn [fmap list_fmap app PyStr.join fstr];
          by rewrite !append_assoc).
    by rewrite Hbody.
  - replace (header +:+ ("  " +:+ fstr (Some id_column)
               +:+ " STRING(36) DEFAULT (GENERATE_UUID()),
") +:+ ("  " +:+ content_column +:+ " STRING(MAX),
") +:+ ("  " +:+ embedding_column +:+ " ARRAY<FLOAT64>,
"))
      with (header +:+ PyStr.join separator
                        (declarations dialect id_column content_column embedding_column [])
                  +:+ separator)
      by (unfold declarations; rewrite Hd; cbn [fmap list_fmap app PyStr.join fstr];
          by rewrite !append_assoc).
    by rewrite Hbody.
Qed.

(** What the generator returns, for every input with an id column name: on
    PostgreSQL the statement of the specification; on any other dialect
    that statement for the columns with the last one trimmed. *)
Lemma generate_sql_closed_form (dialect : DatabaseDialect)
    (table_name id_column content_column embedding_column : string)
    (column_configs : option (list TableColumn)) :
  _generate_sql dialect table_name (Some id_column) content_column embedding_column
    column_configs
  = Ok (create_table_shape dialect table_name id_column content_column embedding_column
          (if is_postgresql dialect then default [] column_configs
           else trim_last (default [] column_configs))).
Proof.
  rewrite generate_sql_unfold. cbv zeta. unfold create_table_shape.
  set (extra := default [] column_configs).
  set (header := "CREATE TABLE " +:+ table_name +:+ " (
").
  destruct (is_postgresql dialect) eqn:Hd.
  - f_equal. rewrite join_snoc by (unfold declarations; rewrite Hd; discriminate).
    by rewrite !append_assoc.
  - f_equal. unfold declarations. rewrite Hd.
    destruct extra as [|c extra _] using rev_ind.
    + cbn [trim_last fmap list_fmap app].
      rewrite <- (append_assoc header _ separator).
      rewrite (rstrip_after _ _ _ ">"%char);
        [|by cbn [PyStr.join]; rewrite !last_char_append|done].
      by rewrite !append_assoc.
    + rewrite trim_last_snoc, !fmap_app, !app_assoc. cbn [fmap list_fmap].
      rewrite !join_snoc by (by destruct (declaration <$> extra)).
      replace (header +:+ (PyStr.join separator _ +:+ separator +:+ declaration c)
               +:+ separator)
        with ((header +:+ PyStr.join separator
                 ([ "  " +:+ id_column +:+ " STRING(36) DEFAULT (GENERATE_UUID())";
                    "  " +:+ content_column +:+ " STRING(MAX)";
                    "  " +:+ embedding_column +:+ " ARRAY<FLOAT64>" ]
                  ++ (declaration <$> extra)) +:+ separator)
              +:+ declaration c +:+ separator)
        by (by rewrite !append_assoc).
      rewrite declaration_trimmed. by rewrite !append_assoc.
Qed.

(** C4.  What the generator returns.  On PostgreSQL it is the statement the
    claim describes, for every input.  On any other dialect it is that
    statement for the columns with the last one trimmed: line 275 strips
    every trailing comma and newline, so a nullable last column whose type
    text ends in one loses that part of its type, where the comment above
    the line speaks of the last comma and newline and the PostgreSQL branch
    keeps the type text.  The sample column [tags] shows both. *)
Theorem generate_sql_trims_type_text :
  (forall (dialect : DatabaseDialect)
      (table_name id_column content_column embedding_column : string)
      (column_configs : option (list TableColumn)),
      _generate_sql dialect table_name (Some id_column) content_column embedding_column
        column_configs
      = Ok (create_table_shape dialect table_name id_column content_column
              embedding_column
              (if is_postgresql dialect then default [] column_configs
               else trim_last (default [] column_configs))))
  /\ let tags := {| name := "tags"; type := "ARRAY<STRING(MAX)>,"; is_null := true |} in
     _generate_sql GOOGLE_STANDARD_SQL "docs" (Some "id") "content" "embedding" (Some [tags])
     = Ok "CREATE TABLE docs (
  id STRING(36) DEFAULT (GENERATE_UUID()),
  content STRING(MAX),
  embedding ARRAY<FLOAT64>,
  tags ARRAY<STRING(MAX)>
) PRIMARY KEY(id)"
     /\ _generate_sql POSTGRESQL "docs" (Some "id") "content" "embedding" (Some [tags])
        = Ok "CREATE TABLE docs (
  id varchar(36) DEFAULT (spanner.generate_uuid()),
  content text,
  embedding float8[],
  tags ARRAY<STRING(MAX)>,,
  PRIMARY KEY(id)
)".
Proof.
  split; [apply generate_sql_closed_form|].
  split; reflexivity.
Qed.

(** Where the last extra column, when nullable, has a type text that does
    not itself end in a comma or a newline, only the separator is trimmed
    and the statement is the one of the specification on every dialect. *)
Lemma generate_sql_shape (dialect : DatabaseDialect)
    (table_name id_column content_column embedding_column : string)
    (column_configs : option (list TableColumn)) :
  (is_postgresql dialect = false ->
   last_column_ends_declaration (default [] column_configs) = true) ->
  _generate_sql dialect table_name (Some id_column) content_column embedding_column
    column_configs
  = Ok (create_table_shape dialect table_name id_column content_column embedding_column
          (default [] column_configs)).
Proof.
  intros Hclean.
  set (extra := default [] column_configs) in *.
  set (header := "CREATE TABLE " +:+ table_name +:+ " (
").
  assert (Hbody :
    match column_configs with
    | Some configs =>
        fold_left (fun acc c => acc +:+ column_sql c) configs
          (header +:+ PyStr.join separator
                        (declarations dialect id_column content_column embedding_column [])
                  +:+ separator)
    | None =>
        header +:+ PyStr.join separator
                     (declarations dialect id_column content_column embedding_column [])
               +:+ separator
    end
    = header +:+ PyStr.join separator
                   (declarations dialect id_column content_column embedding_column extra)
             +:+ separator).
  { subst extra. destruct column_configs as [configs|]; cbn [default from_option id].
    - rewrite extra_columns_loop by (by unfold declarations; destruct (is_postgresql dialect)).
      unfold declarations. cbn [fmap list_fmap]. by rewrite app_nil_r.
    - done. }
  unfold _generate_sql, create_table_shape. fold header.
  destruct (is_postgresql dialect) eqn:Hd.
  - f_equal.
    replace (header +:+ ("  " +:+ fstr (Some id_column)
               +:+ " varchar(36) DEFAULT (spanner.generate_uuid()),
") +:+ ("  " +:+ content_column +:+ " text,
") +:+ ("  " +:+ embedding_column +:+ " float8[],
"))
      with (header +:+ PyStr.join separator
                        (declarations dialect id_column content_column embedding_column [])
                  +:+ separator)
      by (unfold declarations; rewrite Hd; cbn [fmap list_fmap app PyStr.join fstr];
          by rewrite !append_assoc).
    rewrite Hbody.
    rewrite join_snoc
      by (unfold declarations; rewrite Hd; discriminate).
    by rewrite !append_assoc.
  - f_equal.
    replace (header +:+ ("  " +:+ fstr (Some id_column)
               +:+ " STRING(36) DEFAULT (GENERATE_UUID()),
") +:+ ("  " +:+ content_column +:+ " STRING(MAX),
") +:+ ("  " +:+ embedding_column +:+ " ARRAY<FLOAT64>,
"))
      with (header +:+ PyStr.join separator
                        (declarations dialect id_column content_column embedding_column [])
                  +:+ separator)
      by (unfold declarations; rewrite Hd; cbn [fmap list_fmap app PyStr.join fstr];
          by rewrite !append_assoc).
    rewrite Hbody.
    destruct (declarations_last_char dialect id_column content_column embedding_column
                extra Hd (Hclean eq_refl)) as (ch & Hch & Hkeep).
    rewrite <- (append_assoc header _ separator).
    rewrite rstrip_append by reflexivity.
    rewrite (rstrip_kept _ _ ch); [by rewrite !append_assoc|by rewrite last_char_append, Hch|done].
Qed.

Lemma generate_sql_shape_witness :
  last_column_ends_declaration
    [ {| name := "author"; type := "STRING(64)"; is_null := false |};
      {| name := "year"; type := "INT64"; is_null := true |} ] = true
  /\ _generate_sql GOOGLE_STANDARD_SQL "docs" (Some "id") "content" "embedding"
       (Some [ {| name := "author"; type := "STRING(64)"; is_null := false |};
               {| name := "year"; type := "INT64"; is_null := true |} ])
     = Ok "CREATE TABLE docs (
  id STRING(36) DEFAULT (GENERATE_UUID()),
  content STRING(MAX),
  embedding ARRAY<FLOAT64>,
  author STRING(64) NOT NULL,
  year INT64
) PRIMARY KEY(id)".
Proof.
  split; [reflexivity|].
  exact (generate_sql_shape GOOGLE_STANDARD_SQL "docs" "id" "content" "embedding"
           (Some [ {| name := "author"; type := "STRING(64)"; is_null := false |};
                   {| name := "year"; type := "INT64"; is_null := true |} ])
           (fun _ => eq_refl)).
Defined.

Example generate_sql_postgresql :
  _generate_sql POSTGRESQL "docs" (Some "id") "content" "embedding"
    (Some [ {| name := "author"; type := "varchar(64)"; is_null := false |} ])
  = Ok "CREATE TABLE docs (
  id varchar(36) DEFAULT (spanner.generate_uuid()),
  content text,
  embedding float8[],
  author varchar(64) NOT NULL,
  PRIMARY KEY(id)
)".
Proof. reflexivity. Qed.

(** On a nullable last column whose type text ends in a comma, [rstrip]
    removes that comma together with the separator, so the column is not
    rendered as [<name> <sqlType>]. *)
Lemma generate_sql_shape_counterexample :
  let tags := {| name := "tags"; type := "ARRAY<STRING(MAX)>,"; is_null := true |} in
  _generate_sql GOOGLE_STANDARD_SQL "docs" (Some "id") "content" "embedding" (Some [tags])
  = Ok "CREATE TABLE docs (
  id STRING(36) DEFAULT (GENERATE_UUID()),
  content STRING(MAX),
  embedding ARRAY<FLOAT64>,
  tags ARRAY<STRING(MAX)>
) PRIMARY KEY(id)"
  /\ _generate_sql GOOGLE_STANDARD_SQL "docs" (Some "id") "content" "embedding" (Some [tags])
     <> Ok (create_table_shape GOOGLE_STANDARD_SQL "docs" "id" "content" "embedding" [tags]).
Proof.
  split; [reflexivity|].
  intros H.
  apply (f_equal (fun o => match o with Ok s => String.length s | Raise _ => 0 end)) in H.
  vm_compute in H. discriminate H.
Qed.

(** C9 (as amended).  What is validated is the construction of an extra
    column: it raises a value error exactly when the name or the type is
    unset, and a name and a type that are strings, empty or not, give the
    column.  DDL generation itself raises no configuration error for an id
    column name that is a string, empty or not: it returns the statement,
    with the name as it is in the declaration of the id column and in the
    key clause. *)
Theorem ddl_validation :
  (forall (n t : option string) (nullable : bool),
      (n = None \/ t = None) <-> exists msg, TableColumn_init n t nullable = Raise (ValueError msg))
  /\ (forall (n t : string) (nullable : bool),
        TableColumn_init (Some n) (Some t) nullable
        = Ok {| name := n; type := t; is_null := nullable |})
  /\ (forall (dialect : DatabaseDialect)
         (table_name id_column content_column embedding_column : string)
         (column_configs : option (list TableColumn)),
        exists rest,
          _generate_sql dialect table_name (Some id_column) content_column
            embedding_column column_configs
          = Ok ("CREATE TABLE " +:+ table_name +:+ " (
  " +:+ id_column +:+ " "
                +:+ (if is_postgresql dialect
                     then "varchar(36) DEFAULT (spanner.generate_uuid())"
                     else "STRING(36) DEFAULT (GENERATE_UUID())")
                +:+ rest +:+ "PRIMARY KEY(" +:+ id_column +:+ ")"
                +:+ (if is_postgresql dialect then "
)" else ""))).
Proof.
  split; [|split].
  - intros n t nullable. split.
    + intros [-> | ->]; [by eexists|]. destruct n; by eexists.
    + intros [msg H]. destruct n, t; cbn in H; by auto.
  - done.
  - intros dialect table_name id_column content_column embedding_column column_configs.
    rewrite generate_sql_closed_form. unfold create_table_shape, declarations.
    destruct (is_postgresql dialect).
    + set (extra := default [] column_configs).
      set (others := [ "  " +:+ content_column +:+ " text";
                       "  " +:+ embedding_column +:+ " float8[]" ]
                     ++ (declaration <$> extra)).
      exists (separator +:+ PyStr.join separator others +:+ separator +:+ "  ").
      f_equal.
      replace (([ "  " +:+ id_column +:+ " varchar(36) DEFAULT (spanner.generate_uuid())";
                  "  " +:+ content_column +:+ " text";
                  "  " +:+ embedding_column +:+ " float8[]" ]
                ++ (declaration <$> extra))
               ++ ["  " +:+ "PRIMARY KEY(" +:+ id_column +:+ ")"])
        with (("  " +:+ id_column +:+ " varchar(36) DEFAULT (spanner.generate_uuid())")
              :: (others ++ ["  " +:+ "PRIMARY KEY(" +:+ id_column +:+ ")"]))
        by reflexivity.
      rewrite join_cons by (by destruct others).
      rewrite join_snoc by done. by flatten_strings.
    + set (extra := trim_last (default [] column_configs)).
      set (others := [ "  " +:+ content_column +:+ " STRING(MAX)";
                       "  " +:+ embedding_column +:+ " ARRAY<FLOAT64>" ]
                     ++ (declaration <$> extra)).
      exists (separator +:+ PyStr.join separator others +:+ "
) ").
      f_equal.
      replace ([ "  " +:+ id_column +:+ " STRING(36) DEFAULT (GENERATE_UUID())";
                 "  " +:+ content_column +:+ " STRING(MAX)";
                 "  " +:+ embedding_column +:+ " ARRAY<FLOAT64>" ]
               ++ (declaration <$> extra))
        with (("  " +:+ id_column +:+ " STRING(36) DEFAULT (GENERATE_UUID())") :: others)
        by reflexivity.
      rewrite join_cons by done. by flatten_strings.
Qed.

(** C9, as stated, fails: an empty id column name is not rejected, the
    statement is assembled and returned; and an extra column with an empty
    type text is constructed and declared with nothing after its name. *)
Lemma ddl_validation_counterexample :
  _generate_sql GOOGLE_STANDARD_SQL "docs" (Some "") "content" "embedding" None
  = Ok "CREATE TABLE docs (
   STRING(36) DEFAULT (GENERATE_UUID()),
  content STRING(MAX),
  embedding ARRAY<FLOAT64>
) PRIMARY KEY()"
  /\ TableColumn_init (Some "year") (Some "") true
     = Ok {| name := "year"; type := ""; is_null := true |}
  /\ _generate_sql GOOGLE_STANDARD_SQL "docs" (Some "id") "content" "embedding"
       (Some [ {| name := "year"; type := ""; is_null := true |} ])
     = Ok "CREATE TABLE docs (
  id STRING(36) DEFAULT (GENERATE_UUID()),
  content STRING(MAX),
  embedding ARRAY<FLOAT64>,
  year 
) PRIMARY KEY(id)".
Proof. split; [reflexivity|]. split; reflexivity. Qed.

(** An extra column with an empty type text is constructed, and declared
    with nothing after its name. *)
Example empty_type_is_declared :
  TableColumn_init (Some "year") (Some "") true
  = Ok {| name := "year"; type := ""; is_null := true |}
  /\ _generate_sql GOOGLE_STANDARD_SQL "docs" (Some "id") "content" "embedding"
       (Some [ {| name := "year"; type := ""; is_null := true |} ])
     = Ok "CREATE TABLE docs (
  id STRING(36) DEFAULT (GENERATE_UUID()),
  content STRING(MAX),
  embedding ARRAY<FLOAT64>,
  year 
) PRIMARY KEY(id)".
Proof. split; reflexivity. Qed.

End Ddl.

(** ** Similarity search *)

(** The statement text and the bound parameter, for any store and query. *)
Lemma search_request_text (self : SpannerVectorStore) (embedding : list float)
    (k : Z) (pre_filter : option string) :
  let dialect := database_dialect (_database self) in
  let placeholder := match dialect with POSTGRESQL => "$1" | _ => "@vector_embedding" end in
  let bound_name := match dialect with POSTGRESQL => "p1" | _ => "vector_embedding" end in
  let filter := match pre_filter with Some text => text | None => "1 = 1" end in
  let distance_function :=
    getDistanceFunction (_dialect_semantics self) (distance_strategy (_query_parameters self)) in
  search_request self embedding k pre_filter
  = Ok {| sql := "
            SELECT " +:+ PyStr.join "," (_columns_to_insert self) +:+ ", "
              +:+ distance_function +:+ "(" +:+ _embedding_column self +:+ ", "
              +:+ placeholder +:+ ") AS distance
            FROM " +:+ _table_name self +:+ " 
            WHERE " +:+ filter +:+ "
            ORDER BY distance
            LIMIT " +:+ PyStr.of_int k +:+ ";
        ";
          params := [(bound_name, embedding)];
          param_types := [(bound_name, Array FLOAT64)] |}.
Proof.
  intros dialect placeholder bound_name filter distance_function.
  unfold search_request, search_statement, parameter.
  subst placeholder bound_name filter dialect.
  destruct (database_dialect (_database self)); cbn [is_postgresql fst snd].
  all: cbv -[String.append PyStr.join PyStr.of_int getDistanceFunction].
  all: by flatten_strings.
Qed.

(** C1.  The request handed to the snapshot read has the text
    [SELECT <columns>, <distance function>(<embedding column>, <placeholder>)
    AS distance FROM <table> WHERE <filter> ORDER BY distance LIMIT <k>;]
    where the filter is the pre-filter text as given, or [1 = 1] without one,
    and the placeholder is [@vector_embedding] unless the dialect is
    PostgreSQL, where it is [$1].  The query vector does not occur in the
    text: it is the one bound parameter, typed as an array of FLOAT64.  A
    call reads once, with this request -- unless the store's staleness is
    refused as a duration, in which case the call raises before a statement
    is built or anything is read. *)
Theorem search_statement_shape (self : SpannerVectorStore) (embedding : list float)
    (k : Z) (pre_filter : option string) (w : world) :
  let dialect := database_dialect (_database self) in
  let placeholder := match dialect with POSTGRESQL => "$1" | _ => "@vector_embedding" end in
  let bound_name := match dialect with POSTGRESQL => "p1" | _ => "vector_embedding" end in
  let filter := match pre_filter with Some text => text | None => "1 = 1" end in
  let distance_function :=
    getDistanceFunction (_dialect_semantics self) (distance_strategy (_query_parameters self)) in
  let request :=
    {| sql := "
            SELECT " +:+ PyStr.join "," (_columns_to_insert self) +:+ ", "
              +:+ distance_function +:+ "(" +:+ _embedding_column self +:+ ", "
              +:+ placeholder +:+ ") AS distance
            FROM " +:+ _table_name self +:+ " 
            WHERE " +:+ filter +:+ "
            ORDER BY distance
            LIMIT " +:+ PyStr.of_int k +:+ ";
        ";
       params := [(bound_name, embedding)];
       param_types := [(bound_name, Array FLOAT64)] |} in
  search_request self embedding k pre_filter = Ok request
  /\ match timedelta (staleness (_query_parameters self)) with
     | Ok exact_staleness =>
         trace (similarity_search_with_score_by_vector self embedding k pre_filter w).2
         = trace w ++ [ExecuteSql exact_staleness request]
     | Raise e =>
         similarity_search_with_score_by_vector self embedding k pre_filter w = (Raise e, w)
     end.
Proof.
  intros dialect placeholder bound_name filter distance_function request.
  pose proof (search_request_text self embedding k pre_filter) as Hreq.
  cbv zeta in Hreq. fold dialect placeholder bound_name filter distance_function in Hreq.
  fold request in Hreq.
  split; [exact Hreq|].
  unfold similarity_search_with_score_by_vector, bind, lift, emit.
  destruct (timedelta (staleness (_query_parameters self))) as [exact_staleness|e]; [|done].
  rewrite Hreq. cbn.
  reflexivity.
Qed.

Example search_statement_sample :
  search_request (sample_store []) [0.25%float; 1%float] 4 (Some "author = 'bob'")
  = Ok {| sql := "
            SELECT id,content,embedding,author,metadata, EUCLIDEAN_DISTANCE(embedding, @vector_embedding) AS distance
            FROM docs 
            WHERE author = 'bob'
            ORDER BY distance
            LIMIT 4;
        ";
          params := [("vector_embedding", [0.25%float; 1%float])];
          param_types := [("vector_embedding", Array FLOAT64)] |}.
Proof. reflexivity. Qed.

(** A store that [__init__] returns dispatches on the dialect its database
    reports. *)
Lemma init_dialect_semantics instance_id database_id table_name embedding_service
    id_column content_column embedding_column client metadata_columns
    ignore_metadata_columns metadata_json_column query_parameters self :
  SpannerVectorStore_init instance_id database_id table_name embedding_service
    id_column content_column embedding_column client metadata_columns
    ignore_metadata_columns metadata_json_column query_parameters = Ok self ->
  _dialect_semantics self
  = if is_postgresql (database_dialect (_database self)) then PGSqlSemnatics
    else GoogleSqlSemnatics.
Proof.
  unfold SpannerVectorStore_init. intros H.
  destruct (instance_exists _ _); [|done].
  destruct (database_exists _); [|done].
  destruct (table_schema _ _); [|done].
  destruct (is_postgresql (database_dialect (instance_database client instance_id database_id)))
    eqn:Hd.
  all: destruct ignore_metadata_columns, metadata_columns, metadata_json_column;
    cbn in H; repeat case_match; simplify_eq; cbn in *; congruence.
Qed.

Lemma sample_store_is_constructed (rows : list (list pyval)) :
  SpannerVectorStore_init "inst" "db" "docs" sample_embeddings "id" "content" "embedding"
    (sample_client rows) (Some ["author"]) None (Some "metadata") default_query_parameters
  = Ok (sample_store rows).
Proof. reflexivity. Qed.

(** ** Reading rows back *)

Section ReadDirection.

Variable self : SpannerVectorStore.

Lemma Document_init_Ok (content mapping : pyval) (doc : Document) :
  Document_init content mapping = Ok doc ->
  page_content doc = content /\ metadata doc = mapping.
Proof. destruct content, mapping; cbn; intros [= <-]; done. Qed.

(** When the catch-all column is configured and the row's value in it is
    true in a condition, that value is the document's metadata, whatever the
    individual metadata columns hold. *)
Lemma document_of_row_catch_all (json_column : string) (row : list pyval)
    (v : pyval) (doc : Document) (distance : pyval) :
  _metadata_json_column self = Some json_column ->
  row_value (column_order_map self) row json_column = Ok v ->
  truthy v = true ->
  document_of_row self row = Ok (doc, distance) ->
  metadata doc = v
  /\ row_value (column_order_map self) row (_content_column self) = Ok (page_content doc)
  /\ row_value (column_order_map self) row DISTANCE_SELECT_QUERY_NAME = Ok distance.
Proof.
  intros Hjson Hv Htrue. unfold document_of_row. cbv zeta. rewrite Hjson.
  destruct (row_value _ row (_content_column self)) as [content|]; [cbn [obind]|done].
  rewrite Hv. cbn [obind]. rewrite Htrue. cbn [obind]. rewrite ?Hv. cbn [obind].
  destruct (Document_init content v) as [built|] eqn:Hdoc; [cbn [obind]|done].
  destruct (row_value _ row DISTANCE_SELECT_QUERY_NAME) as [d|]; [cbn [obind]|done].
  intros [= <- <-]. by destruct (Document_init_Ok _ _ _ Hdoc) as [-> ->].
Qed.

(** Otherwise -- no catch-all column, or a value in it that is false in a
    condition, which covers null and the empty object alike -- the metadata
    is the mapping collected from the metadata columns. *)
Lemma document_of_row_columns (row : list pyval) (doc : Document) (distance : pyval) :
  match _metadata_json_column self with
  | Some json_column =>
      exists v, row_value (column_order_map self) row json_column = Ok v /\ truthy v = false
  | None => True
  end ->
  document_of_row self row = Ok (doc, distance) ->
  exists entries,
    metadata_of_columns (column_order_map self) row (_metadata_columns self) [] = Ok entries
    /\ metadata doc = VDict entries
    /\ row_value (column_order_map self) row (_content_column self) = Ok (page_content doc)
    /\ row_value (column_order_map self) row DISTANCE_SELECT_QUERY_NAME = Ok distance.
Proof.
  intros Hjson. unfold document_of_row. cbv zeta.
  destruct (row_value _ row (_content_column self)) as [content|]; [cbn [obind]|done].
  destruct (_metadata_json_column self) as [j|].
  - destruct Hjson as (v & -> & Hfalse). cbn [obind]. rewrite Hfalse.
    destruct (metadata_of_columns _ row _ []) as [entries|]; [cbn [obind]|done].
    destruct (Document_init content (VDict entries)) as [built|] eqn:Hdoc;
      [cbn [obind]|done].
    destruct (row_value _ row DISTANCE_SELECT_QUERY_NAME) as [d|]; [cbn [obind]|done].
    intros [= <- <-]. exists entries.
    by destruct (Document_init_Ok _ _ _ Hdoc) as [-> ->].
  - destruct (metadata_of_columns _ row _ []) as [entries|]; [cbn [obind]|done].
    destruct (Document_init content (VDict entries)) as [built|] eqn:Hdoc;
      [cbn [obind]|done].
    destruct (row_value _ row DISTANCE_SELECT_QUERY_NAME) as [d|]; [cbn [obind]|done].
    intros [= <- <-]. exists entries.
    by destruct (Document_init_Ok _ _ _ Hdoc) as [-> ->].
Qed.

End ReadDirection.

(** What [add_texts] writes for a text without metadata: the catch-all slot
    holds the empty object. *)
Example ingest_without_metadata :
  trace (add_texts (sample_store []) (Sequence ["hello"]) None None 5000 empty_world).2
  = [ EmbedDocuments ["hello"];
      BatchInsert "docs" ["author"; "metadata"; "content"; "embedding"]
        [[VNone; JsonObject []; VStr "hello"; VList [VFloat 1.5; VFloat 2]]] ].
Proof. reflexivity. Qed.

(** C2.  What the code returns for such a row when it is read back: the
    catch-all value is the empty object, which is not null but false in a
    condition, so the metadata is collected from the metadata columns
    instead -- the catch-all column among them -- and is not the catch-all
    value. *)
Theorem empty_catch_all_is_not_returned :
  let row := [VStr "7"; VStr "hello"; VList [VFloat 1.5; VFloat 2]; VNone; JsonObject [];
              VFloat 0.5] in
  row_value (column_order_map (sample_store [row])) row "metadata" = Ok (JsonObject [])
  /\ document_of_row (sample_store [row]) row
     = Ok ({| page_content := VStr "hello";
              metadata := VDict [("metadata", JsonObject [])] |}, VFloat 0.5).
Proof. split; reflexivity. Qed.

(** ** Deletion *)

Section Deletion.

Variable self : SpannerVectorStore.

(** With neither ids nor documents, [delete] raises before anything is
    executed. *)
Lemma delete_requires_selector (w : world) :
  delete self None None w = (Raise (Exception "Pass id/documents to delete"), w).
Proof. reflexivity. Qed.

(** With ids, the statement names the id column and lists each id as a
    parenthesised, quoted literal. *)
Lemma delete_by_ids (ids : list string) (w : world) :
  delete self (Some ids) None w
  = (Ok true,
     {| heap := heap w;
        trace := trace w ++
          [ExecuteUpdate ("
                DELETE FROM " +:+ _table_name self +:+ " 
                WHERE (" +:+ _id_column self +:+ ") IN "
              +:+ PyStr.join ", "
                    ((fun elem => "(" +:+ elem +:+ ")")
                       <$> ((fun value => "('" +:+ value +:+ "')") <$> ids))
              +:+ "
                ")] |}).
Proof.
  unfold delete, delete_statement, bind, lift, emit, ret.
  cbv -[String.append PyStr.join fmap app heap trace].
  by flatten_strings.
Qed.

(** C7.  What the code does for the two calls the claim names: with neither
    selector it raises; with an empty id list it raises nothing, and a
    statement whose [IN] list is empty is executed. *)
Theorem delete_empty_ids_is_executed (w : world) :
  delete self None None w = (Raise (Exception "Pass id/documents to delete"), w)
  /\ delete self (Some []) None w
     = (Ok true,
        {| heap := heap w;
           trace := trace w ++
             [ExecuteUpdate ("
                DELETE FROM " +:+ _table_name self +:+ " 
                WHERE (" +:+ _id_column self +:+ ") IN 
                ")] |}).
Proof.
  split; [reflexivity|].
  unfold delete, delete_statement, bind, lift, emit, ret.
  cbv -[String.append app heap trace].
  by flatten_strings.
Qed.

(** C8.  What the code does when only documents are supplied: the branch is
    a stub, so the column and value lists stay empty, the statement built
    from them is executed, and [True] is returned; nothing is raised. *)
Theorem delete_by_documents_is_executed (documents : list Document) (w : world) :
  delete self None (Some documents) w
  = (Ok true,
     {| heap := heap w;
        trace := trace w ++
          [ExecuteUpdate ("
                DELETE FROM " +:+ _table_name self +:+ " 
                WHERE () IN 
                ")] |}).
Proof.
  unfold delete, delete_statement, bind, lift, emit, ret.
  cbv -[String.append app heap trace].
  by flatten_strings.
Qed.

End Deletion.

(** ** Effects *)

Section Effects.

Lemma world_eta (w : world) : {| heap := heap w; trace := trace w |} = w.
Proof. by destruct w. Qed.

Lemma bind_Ok {A B} (m : M A) (k : A -> M B) (w w' : world) (a : A) :
  m w = (Ok a, w') -> bind m k w = k a w'.
Proof. unfold bind. by intros ->. Qed.

Lemma bind_Raise {A B} (m : M A) (k : A -> M B) (w w' : world) (e : exn) :
  m w = (Raise e, w') -> bind m k w = (Raise e, w').
Proof. unfold bind. by intros ->. Qed.

Lemma silent_bind {A B} (m : M A) (k : A -> M B) :
  silent m -> (forall a, silent (k a)) -> silent (bind m k).
Proof.
  intros Hm Hk w. unfold bind. specialize (Hm w).
  destruct (m w) as [[a|e] w']; cbn in *; [|done]. by rewrite Hk.
Qed.

Lemma silent_ret {A} (a : A) : silent (ret a).
Proof. done. Qed.

Lemma silent_lift {A} (o : outcome A) : silent (lift o).
Proof. done. Qed.

Lemma silent_deref (r : loc) : silent (deref r).
Proof. done. Qed.

Lemma silent_assign (r : loc) d : silent (assign r d).
Proof. done. Qed.

Lemma silent_alloc d : silent (alloc d).
Proof. done. Qed.

Lemma silent_mapM {A B} (f : A -> M B) (l : list A) :
  (forall x, silent (f x)) -> silent (mapM f l).
Proof.
  intros Hf. induction l as [|x l IH]; [done|]. cbn [mapM].
  apply silent_bind; [done|]. intros y. apply silent_bind; [done|]. intros ys. done.
Qed.

Lemma silent_foldM {A S} (f : S -> A -> M S) (l : list A) (s : S) :
  (forall s x, silent (f s x)) -> silent (foldM f l s).
Proof.
  intros Hf. revert s. induction l as [|x l IH]; intros s; [done|]. cbn [foldM].
  apply silent_bind; [done|]. done.
Qed.

Lemma mapO_fmap {A B} (f : A -> outcome B) (g : A -> B) (l : list A) :
  (forall x, x ∈ l -> f x = Ok (g x)) -> mapO f l = Ok (g <$> l).
Proof.
  induction l as [|x l IH]; intros Hf; [done|]. cbn.
  rewrite (Hf x) by apply list_elem_of_here.
  rewrite IH; [done|]. intros y Hy. apply Hf. by apply list_elem_of_further.
Qed.

Lemma mapO_length {A B} (f : A -> outcome B) (l : list A) (ys : list B) :
  mapO f l = Ok ys -> length ys = length l.
Proof.
  revert ys. induction l as [|x l IH]; intros ys; cbn; [by intros [= <-]|].
  destruct (f x); [|done]. destruct (mapO f l) as [ys'|]; [|done].
  intros [= <-]. cbn. by rewrite (IH ys').
Qed.

Lemma mapO_lookup {A B} (f : A -> outcome B) (l : list A) (ys : list B) (i : nat) (y : B) :
  mapO f l = Ok ys -> ys !! i = Some y -> exists x, l !! i = Some x /\ f x = Ok y.
Proof.
  revert ys i. induction l as [|x l IH]; intros ys i; cbn; [by intros [= <-]|].
  destruct (f x) as [y0|] eqn:Hx; [|done]. destruct (mapO f l) as [ys'|]; [|done].
  intros [= <-]. destruct i as [|i]; cbn.
  - intros [= <-]. by exists x.
  - intros Hi. by apply (IH ys').
Qed.

End Effects.

(** ** Building the rows *)

Section RowBuilding.

Variable self : SpannerVectorStore.

Implicit Types (values_dict : list (string * list pyval)) (w : world) (r : loc).

(** The loop over the metadata columns reads one dict and touches nothing. *)
Lemma column_loop_pure r (columns : list string) values_dict w :
  foldM (fun values_dict column_name =>
           d <- deref r ;;
           lift (values_append column_name (metadata_value d column_name) values_dict))
        columns values_dict w
  = (append_columns (heap_dict (heap w) r) columns values_dict, w).
Proof.
  revert values_dict. induction columns as [|c columns IH]; intros values_dict; [done|].
  cbn [foldM append_columns]. unfold bind at 1. unfold bind at 1, deref at 1, lift at 1.
  fold (heap_dict (heap w) r).
  destruct (values_append c _ values_dict) as [values_dict'|e]; [apply IH|done].
Qed.

Lemma metadata_row_pure values_dict r w :
  let h' := stamp (_metadata_json_column self) (heap w) r in
  metadata_row self values_dict r w
  = (append_columns (heap_dict h' r) (_metadata_columns self) values_dict,
     {| heap := h'; trace := trace w |}).
Proof.
  unfold metadata_row, stamp. destruct (_metadata_json_column self) as [j|]; cbn zeta.
  - unfold bind at 1. unfold bind at 1, deref at 1, assign.
    fold (heap_dict (heap w) r). cbn [heap trace].
    by rewrite column_loop_pure.
  - unfold bind at 1, ret. rewrite column_loop_pure. by rewrite world_eta.
Qed.

Lemma values_append_Some c x values_dict (l : list pyval) :
  dict_get c values_dict = Some l ->
  values_append c x values_dict = Ok (dict_set c (l ++ [x]) values_dict).
Proof. unfold values_append. by intros ->. Qed.

Lemma occurrences_cons (k c : string) (columns : list string) :
  occurrences k (c :: columns)
  = (if decide (c = k) then 1 else 0) + occurrences k columns.
Proof. unfold occurrences. rewrite filter_cons. by case_decide. Qed.

(** One pass over the columns keeps the keys and extends the list under
    each key by one value per occurrence of the key among the columns. *)
Lemma append_columns_spec (d : list (string * pyval)) (columns : list string) values_dict :
  (forall c, c ∈ columns -> c ∈ dict_keys values_dict) ->
  exists values_dict',
    append_columns d columns values_dict = Ok values_dict'
    /\ dict_keys values_dict' = dict_keys values_dict
    /\ forall k, dict_get k values_dict'
                 = (fun l => l ++ replicate (occurrences k columns) (metadata_value d k))
                     <$> dict_get k values_dict.
Proof.
  revert values_dict. induction columns as [|c columns IH]; intros values_dict Hkeys.
  - exists values_dict. repeat split; [done..|]. intros k. cbn.
    destruct (dict_get k values_dict); cbn; by rewrite ?app_nil_r.
  - assert (Hc : c ∈ dict_keys values_dict) by apply Hkeys, list_elem_of_here.
    destruct (proj2 (dict_get_is_Some c values_dict) Hc) as [l Hl].
    cbn [append_columns]. rewrite (values_append_Some _ _ _ _ Hl).
    assert (Hsame : dict_keys (dict_set c (l ++ [metadata_value d c]) values_dict)
                    = dict_keys values_dict).
    { rewrite dict_keys_set. unfold append_new, name_in.
      by rewrite bool_decide_eq_true_2. }
    destruct (IH (dict_set c (l ++ [metadata_value d c]) values_dict))
      as (values_dict' & Hrun & Hk & Hget).
    { intros c' Hc'. rewrite Hsame. by apply Hkeys, list_elem_of_further. }
    exists values_dict'. split; [done|]. split; [by rewrite Hk|].
    intros k. rewrite Hget, occurrences_cons.
    destruct (decide (c = k)) as [->|Hne].
    + rewrite dict_get_set_eq, Hl. cbn. by rewrite <- app_assoc.
    + by rewrite dict_get_set_ne.
Qed.

(** The loop over the rows: the heap is stamped row by row, the trace is
    untouched, the keys stay, and under each key the list grows by the
    values read from the dicts as the loop saw them. *)
Lemma metadata_loop_spec (refs : list loc) values_dict w :
  (forall c, c ∈ _metadata_columns self -> c ∈ dict_keys values_dict) ->
  exists values_dict',
    foldM (metadata_row self) refs values_dict w
    = (Ok values_dict',
       {| heap := fold_left (stamp (_metadata_json_column self)) refs (heap w);
          trace := trace w |})
    /\ dict_keys values_dict' = dict_keys values_dict
    /\ forall k,
         dict_get k values_dict'
         = (fun l => l ++ (seen_dicts (_metadata_json_column self) (heap w) refs
                           ≫= fun d => replicate (occurrences k (_metadata_columns self))
                                                  (metadata_value d k)))
             <$> dict_get k values_dict.
Proof.
  revert values_dict w. induction refs as [|r refs IH]; intros values_dict w Hkeys.
  - exists values_dict. cbn. rewrite world_eta. repeat split; [done..|].
    intros k. destruct (dict_get k values_dict); cbn; by rewrite ?app_nil_r.
  - cbn [foldM fold_left seen_dicts]. unfold bind at 1. rewrite metadata_row_pure. cbn zeta.
    set (h' := stamp (_metadata_json_column self) (heap w) r).
    destruct (append_columns_spec (heap_dict h' r) (_metadata_columns self) values_dict Hkeys)
      as (values_dict1 & -> & Hk1 & Hget1).
    destruct (IH values_dict1 {| heap := h'; trace := trace w |})
      as (values_dict' & Hrun & Hk & Hget).
    { intros c Hc. rewrite Hk1. by apply Hkeys. }
    exists values_dict'. split; [exact Hrun|]. split; [by rewrite Hk|].
    intros k. rewrite Hget, Hget1. cbn [heap].
    destruct (dict_get k values_dict); cbn; [|done].
    by rewrite <- app_assoc.
Qed.

Lemma lists_only_get (k : string) (d : list (string * list pyval)) :
  dict_get k (lists_only d) = ListValues <$> dict_get k d.
Proof.
  unfold lists_only. induction d as [|[k' l] d IH]; [done|].
  rewrite fmap_cons. cbn. by destruct (String.eqb k k').
Qed.

Lemma lists_only_keys (d : list (string * list pyval)) :
  dict_keys (lists_only d) = dict_keys d.
Proof.
  unfold lists_only, dict_keys. rewrite <- list_fmap_compose.
  apply list_fmap_ext. by intros _ [k l] _.
Qed.

Lemma lists_only_set (k : string) (l : list pyval) (d : list (string * list pyval)) :
  dict_set k (ListValues l) (lists_only d) = lists_only (dict_set k l d).
Proof.
  unfold lists_only. induction d as [|[k' l'] d IH]; [done|].
  rewrite fmap_cons. cbn. destruct (String.eqb k k'); [done|].
  by rewrite fmap_cons, <- IH.
Qed.

(** With distinct keys and enough values in every column, the rows are
    built, and they are the table read row-wise. *)
Lemma rows_of_spec (values_dict : list (string * list pyval)) (n : nat) :
  NoDup (dict_keys values_dict) ->
  (forall k l, (k, l) ∈ values_dict -> n <= length l) ->
  rows_of (lists_only values_dict) n = Ok (rows_table values_dict n).
Proof.
  intros Hnd Hlen. unfold rows_of, rows_table.
  apply mapO_fmap. intros i Hi%elem_of_seq.
  rewrite lists_only_keys. unfold dict_keys.
  assert (Hrow :
    mapO (fun key => match dict_item key (lists_only values_dict) with
                     | Ok obj => subscript obj i
                     | Raise e => Raise e
                     end) (values_dict.*1)
    = Ok ((fun key => default [] (dict_get key values_dict) !!! i) <$> values_dict.*1)).
  { apply mapO_fmap. intros key [[k l] [-> Hkl]]%list_elem_of_fmap. cbn.
    unfold dict_item. rewrite lists_only_get, (dict_get_entry _ _ _ Hnd Hkl). cbn.
    unfold list_item. specialize (Hlen _ _ Hkl).
    destruct (lookup_lt_is_Some_2 l i ltac:(lia)) as [x Hx].
    rewrite Hx. by rewrite (list_lookup_total_correct _ _ _ Hx). }
  rewrite Hrow. f_equal. rewrite <- list_fmap_compose.
  apply list_fmap_ext. intros p [k l] Hp. cbn.
  by rewrite (dict_get_lookup p k l values_dict Hnd Hp).
Qed.

End RowBuilding.

(** ** Batching *)

Section Batching.

Context {A : Type}.
Implicit Types (rows : list A) (size : nat).






(** The slices from [i] on, laid end to end, are the rows from [i] on. *)
Lemma slices_concat rows (fuel i step : nat) :
  0 < step -> length rows - i <= fuel ->
  concat ((fun j => slice rows j step) <$> range_from fuel i (length rows) step)
  = drop i rows.
Proof.
  intros Hstep. revert i. induction fuel as [|fuel IH]; intros i Hfuel; cbn [range_from].
  - by rewrite drop_ge by lia.
  - destruct (Nat.ltb_spec i (length rows)) as [Hlt|Hge]; rewrite ?fmap_cons; cbn [concat fmap list_fmap].
    + rewrite IH by lia. unfold slice.
      rewrite <- (take_drop step (drop i rows)) at 2.
      by rewrite drop_drop.
    + by rewrite drop_ge by lia.
Qed.

Lemma batches_of_concat rows size : 0 < size -> concat (batches_of rows size) = rows.
Proof. intros Hsize. unfold batches_of. by rewrite slices_concat by lia. Qed.




End Batching.

Section WriteLoop.

Variable self : SpannerVectorStore.

(** One insert per start index, in order; nothing else happens. *)
Lemma insert_loop (columns : list string) (rows : list (list pyval)) (size : nat)
    (starts : list nat) (w : world) :
  foldM (fun _ i => _insert_data self (slice rows i size) columns) starts tt w
  = (Ok tt,
     {| heap := heap w;
        trace := trace w ++
          ((fun i => BatchInsert (_table_name self) columns (slice rows i size)) <$> starts) |}).
Proof.
  revert w. induction starts as [|i starts IH]; intros w.
  - cbn. by rewrite app_nil_r, world_eta.
  - cbn [foldM]. unfold bind at 1, _insert_data at 1, emit at 1.
    rewrite IH. cbn [heap trace]. by rewrite fmap_cons, <- app_assoc.
Qed.

Implicit Types (h : gmap loc (list (string * pyval))) (refs : list loc) (r : loc).

(** Stamping one dict leaves the others as they are. *)
Lemma stamp_frame (j : option string) h r r' : r <> r' -> stamp j h r !! r' = h !! r'.
Proof. intros Hne. unfold stamp. destruct j; [|done]. by rewrite lookup_insert_ne. Qed.

Lemma fold_stamp_frame (j : option string) refs h r :
  r ∉ refs -> fold_left (stamp j) refs h !! r = h !! r.
Proof.
  revert h. induction refs as [|r0 refs IH]; intros h Hr; [done|].
  apply not_elem_of_cons in Hr as [Hne Hr]. cbn [fold_left].
  rewrite IH by done. by apply stamp_frame.
Qed.

(** The dicts made for a call without metadatas are new, distinct and empty
    objects: no dict that existed before is among them, or changed by making
    them. *)
Lemma alloc_all_fresh {X} (xs : list X) (w : world) :
  exists refs w',
    mapM (fun _ => alloc []) xs w = (Ok refs, w')
    /\ length refs = length xs /\ trace w' = trace w
    /\ NoDup refs
    /\ (forall r, r ∈ refs -> heap w' !! r = Some [])
    /\ forall r, is_Some (heap w !! r) -> (r ∉ refs) /\ heap w' !! r = heap w !! r.
Proof.
  revert w. induction xs as [|x xs IH]; intros w.
  - exists [], w. do 3 (split; [done|]). split; [constructor|].
    split; [by intros r ?%elem_of_nil|].
    intros r _. split; [apply not_elem_of_nil|done].
  - cbn [mapM]. unfold bind at 1, alloc at 1.
    set (r0 := fresh (dom (heap w))).
    assert (Hfresh : heap w !! r0 = None) by (apply not_elem_of_dom, is_fresh).
    destruct (IH {| heap := <[r0 := []]> (heap w); trace := trace w |})
      as (refs & w' & Hrun & Hlen & Htrace & Hnd & Hempty & Hold).
    cbn [heap] in Hold.
    destruct (Hold r0) as [Hr0 Hr0']; [by rewrite lookup_insert_eq|].
    rewrite lookup_insert_eq in Hr0'.
    exists (r0 :: refs), w'.
    unfold bind at 1. rewrite Hrun. cbn [ret]. split; [done|].
    split; [by cbn; rewrite Hlen|]. split; [done|].
    split; [by constructor|].
    split; [by intros r [->|Hr]%elem_of_cons; [|apply Hempty]|].
    intros r Hr.
    assert (Hne : r0 <> r) by (intros <-; rewrite Hfresh in Hr; by destruct Hr).
    destruct (Hold r) as [Hout Hsame]; [by rewrite lookup_insert_ne|].
    split; [by apply not_elem_of_cons|].
    rewrite Hsame. by rewrite lookup_insert_ne.
Qed.

End WriteLoop.

(** ** The values behind the rows *)

Section ValuesTable.

Variable self : SpannerVectorStore.

Implicit Types (h : gmap loc (list (string * pyval))) (refs : list loc).

Lemma dict_get_tabulate {V} (f : string -> V) (l : list string) (k : string) :
  dict_get k ((fun k => (k, f k)) <$> l) = if decide (k ∈ l) then Some (f k) else None.
Proof.
  induction l as [|x l IH]; [done|]. rewrite fmap_cons. cbn [dict_get].
  destruct (String.eqb_spec k x) as [->|Hne].
  - by rewrite decide_True by apply list_elem_of_here.
  - rewrite IH. destruct (decide (k ∈ l)) as [Hin|Hout].
    + by rewrite decide_True by (by apply list_elem_of_further).
    + by rewrite decide_False by (by rewrite elem_of_cons; intros [?|?]).
Qed.

Lemma dict_keys_tabulate {V} (f : string -> V) (l : list string) :
  dict_keys ((fun k => (k, f k)) <$> l) = l.
Proof. unfold dict_keys. rewrite <- list_fmap_compose. apply list_fmap_id. Qed.

Lemma dict_get_constant {V X} (key : X -> string) (c : V) (xs : list X)
    (d : list (string * V)) (k : string) :
  dict_get k (fold_left (fun d x => dict_set (key x) c d) xs d)
  = if decide (k ∈ key <$> xs) then Some c else dict_get k d.
Proof.
  revert d. induction xs as [|x xs IH]; intros d; [done|].
  rewrite fmap_cons. cbn [fold_left]. rewrite IH.
  destruct (decide (k ∈ key <$> xs)) as [Hin|Hout].
  - by rewrite decide_True by (by apply list_elem_of_further).
  - destruct (decide (k = key x)) as [->|Hne].
    + rewrite decide_True by apply list_elem_of_here. apply dict_get_set_eq.
    + rewrite decide_False by (by rewrite elem_of_cons; intros [?|?]).
      by apply dict_get_set_ne.
Qed.

Lemma seen_dicts_length h refs :
  length (seen_dicts (_metadata_json_column self) h refs) = length refs.
Proof. revert h. induction refs as [|r refs IH]; intros h; cbn; [done|]. by rewrite IH. Qed.

Lemma bind_replicate_length {X Y} (xs : list X) (n : nat) (g : X -> Y) :
  length (xs ≫= fun x => replicate n (g x)) = length xs * n.
Proof.
  induction xs as [|x xs IH]; [done|].
  rewrite bind_cons, length_app, length_replicate, IH. cbn. lia.
Qed.

Lemma occurrences_pos (k : string) (columns : list string) :
  k ∈ columns -> 0 < occurrences k columns.
Proof.
  unfold occurrences. intros Hk.
  assert (Hin : k ∈ filter (fun c => c = k) columns) by (by apply list_elem_of_filter).
  destruct (filter _ columns); [by apply elem_of_nil in Hin|cbn; lia].
Qed.

(** The metadata loop, started from the empty lists, leaves the metadata
    table. *)
Lemma metadata_loop_table refs (w : world) :
  foldM (metadata_row self) refs
    (dict_comprehension (fun key => key) (fun _ => []) (_metadata_columns self)) w
  = (Ok (metadata_table self (heap w) refs),
     {| heap := fold_left (stamp (_metadata_json_column self)) refs (heap w);
        trace := trace w |}).
Proof.
  set (values_dict := dict_comprehension _ _ _).
  assert (Hkeys : dict_keys values_dict = fold_left append_new (_metadata_columns self) []).
  { unfold values_dict. by rewrite dict_comprehension_keys, list_fmap_id. }
  destruct (metadata_loop_spec self refs values_dict w) as (values_dict' & -> & Hk & Hget).
  { intros c Hc. rewrite Hkeys. apply fold_append_new_elem. by right. }
  f_equal. f_equal.
  assert (Hnd : NoDup (dict_keys values_dict')).
  { rewrite Hk, Hkeys. apply fold_append_new_NoDup, NoDup_nil_2. }
  apply dict_ext; [done| |].
  - unfold metadata_table. by rewrite dict_keys_tabulate, Hk.
  - intros k Hin. rewrite Hget. unfold metadata_table. rewrite dict_get_tabulate.
    rewrite Hk, Hkeys in Hin. rewrite decide_True by done.
    unfold values_dict, dict_comprehension. rewrite dict_get_constant, list_fmap_id.
    rewrite decide_True; [done|].
    apply fold_append_new_elem in Hin as [Hin|Hin]; [by apply elem_of_nil in Hin|done].
Qed.

Lemma values_table_keys (texts : list string) (ids : option (list string)) h refs :
  dict_keys (values_table self texts ids h refs)
  = insert_columns self (match ids with Some _ => true | None => false end).
Proof.
  unfold values_table, insert_columns, metadata_table.
  rewrite !dict_keys_set. destruct ids; rewrite ?dict_keys_set, dict_keys_tabulate; done.
Qed.

Lemma insert_columns_NoDup (with_ids : bool) : NoDup (insert_columns self with_ids).
Proof.
  unfold insert_columns. do 2 apply append_new_NoDup.
  destruct with_ids; [apply append_new_NoDup|];
    apply fold_append_new_NoDup, NoDup_nil_2.
Qed.

Lemma values_table_NoDup (texts : list string) (ids : option (list string)) h refs :
  NoDup (dict_keys (values_table self texts ids h refs)).
Proof. rewrite values_table_keys. apply insert_columns_NoDup. Qed.

Lemma metadata_table_get (k : string) (l : list pyval) h refs :
  dict_get k (metadata_table self h refs) = Some l ->
  k ∈ _metadata_columns self
  /\ l = seen_dicts (_metadata_json_column self) h refs
         ≫= fun d => replicate (occurrences k (_metadata_columns self)) (metadata_value d k).
Proof.
  unfold metadata_table. rewrite dict_get_tabulate. case_decide as Hin; [|done].
  intros [= <-]. split; [|done].
  apply fold_append_new_elem in Hin as [Hin|Hin]; [by apply elem_of_nil in Hin|done].
Qed.

(** Every column of the table holds at least one value per text. *)
Lemma values_table_enough (texts : list string) (ids : option (list string)) h refs
    (k : string) (l : list pyval) :
  (forall given, ids = Some given -> length given = length texts) ->
  length refs = length texts ->
  length texts <= length (embed_documents (_embedding_service self) texts) ->
  (k, l) ∈ values_table self texts ids h refs ->
  length texts <= length l.
Proof.
  intros Hids Hrefs Hembeds Hin.
  pose proof (dict_get_entry k l _ (values_table_NoDup texts ids h refs) Hin) as Hget.
  unfold values_table in Hget.
  destruct (decide (_embedding_column self = k)) as [<-|Hne1].
  { rewrite dict_get_set_eq in Hget. simplify_eq. by rewrite length_fmap. }
  rewrite dict_get_set_ne in Hget by done.
  destruct (decide (_content_column self = k)) as [<-|Hne2].
  { rewrite dict_get_set_eq in Hget. simplify_eq. by rewrite length_fmap. }
  rewrite dict_get_set_ne in Hget by done.
  assert (Hmeta : dict_get k (metadata_table self h refs) = Some l -> length texts <= length l).
  { intros [Hk ->]%metadata_table_get.
    rewrite bind_replicate_length, seen_dicts_length, Hrefs.
    pose proof (occurrences_pos k _ Hk). nia. }
  destruct ids as [given|]; [|by apply Hmeta].
  destruct (decide (_id_column self = k)) as [<-|Hne3].
  { rewrite dict_get_set_eq in Hget. simplify_eq. by rewrite length_fmap, (Hids given). }
  rewrite dict_get_set_ne in Hget by done. by apply Hmeta.
Qed.

Lemma bind_replicate_one {X Y} (xs : list X) (g : X -> Y) :
  (xs ≫= fun x => replicate 1 (g x)) = g <$> xs.
Proof. induction xs as [|x xs IH]; [done|]. rewrite bind_cons, IH. done. Qed.

Lemma occurrences_elem (k : string) (columns : list string) :
  0 < occurrences k columns -> k ∈ columns.
Proof.
  unfold occurrences. intros Hpos.
  destruct (filter (fun c => c = k) columns) as [|c l] eqn:Hf; [cbn in Hpos; lia|].
  assert (Hc : c ∈ filter (fun c => c = k) columns) by (rewrite Hf; apply list_elem_of_here).
  apply list_elem_of_filter in Hc as [-> Hc]. done.
Qed.

Lemma metadata_value_default (d : list (string * pyval)) (c : string) :
  metadata_value d c = default VNone (dict_get c d).
Proof. unfold metadata_value. destruct (dict_get c d) as [[]|]; done. Qed.

(** Stamping touches the catch-all key only. *)
Lemma heap_dict_stamp_get (j : option string) h (r0 r : loc) (c : string) :
  (forall k, j = Some k -> c <> k) ->
  dict_get c (heap_dict (stamp j h r0) r) = dict_get c (heap_dict h r).
Proof.
  intros Hc. destruct j as [k|]; [|done]. unfold stamp, heap_dict at 1.
  destruct (decide (r0 = r)) as [->|Hne].
  - rewrite lookup_insert_eq. cbn. apply dict_get_set_ne. intros <-. by apply (Hc k).
  - by rewrite lookup_insert_ne.
Qed.

Lemma fold_stamp_get (j : option string) refs h (r : loc) (c : string) :
  (forall k, j = Some k -> c <> k) ->
  dict_get c (heap_dict (fold_left (stamp j) refs h) r) = dict_get c (heap_dict h r).
Proof.
  intros Hc. revert h. induction refs as [|r0 refs IH]; intros h; [done|].
  cbn [fold_left]. rewrite IH. by apply heap_dict_stamp_get.
Qed.

(** The dict row [i] is read from, whether or not there is a catch-all
    column. *)
Lemma seen_dicts_row (j : option string) refs h (i : nat) (r : loc) :
  refs !! i = Some r ->
  seen_dicts j h refs !! i
  = Some (heap_dict (stamp j (fold_left (stamp j) (take i refs) h) r) r).
Proof.
  revert h i. induction refs as [|r0 refs IH]; intros h i; [done|].
  destruct i as [|i]; cbn [seen_dicts lookup list_lookup take fold_left].
  - by intros [= ->].
  - intros Hi. by rewrite IH.
Qed.

(** The list kept for a metadata column that is named once: one value per
    row. *)
Lemma metadata_table_once (c : string) h refs :
  occurrences c (_metadata_columns self) = 1 ->
  dict_get c (metadata_table self h refs)
  = Some ((fun d => metadata_value d c) <$> seen_dicts (_metadata_json_column self) h refs).
Proof.
  intros Honce. unfold metadata_table.
  rewrite dict_get_tabulate, Honce, bind_replicate_one.
  rewrite decide_True; [done|].
  apply fold_append_new_elem. right. apply occurrences_elem. lia.
Qed.

Lemma values_table_metadata (texts : list string) (ids : option (list string)) h refs
    (c : string) :
  occurrences c (_metadata_columns self) = 1 ->
  c ∉ [_id_column self; _content_column self; _embedding_column self] ->
  dict_get c (values_table self texts ids h refs)
  = Some ((fun d => metadata_value d c) <$> seen_dicts (_metadata_json_column self) h refs).
Proof.
  intros Honce Hbase.
  apply not_elem_of_cons in Hbase as [Hid Hrest].
  apply not_elem_of_cons in Hrest as [Hcontent Hrest].
  apply not_elem_of_cons in Hrest as [Hembedding _].
  unfold values_table. rewrite !dict_get_set_ne by done.
  destruct ids; [rewrite dict_get_set_ne by done|]; by apply metadata_table_once.
Qed.

(** The objects of [values_dict], key by key. *)
Lemma values_objects_embedding (texts : Iterable) (ids : option (list string)) h refs :
  dict_get (_embedding_column self) (values_objects self texts ids h refs)
  = Some (ListValues (embedding_value
                        <$> embed_documents (_embedding_service self) (first_pass texts))).
Proof. apply dict_get_set_eq. Qed.

Lemma values_objects_content (texts : Iterable) (ids : option (list string)) h refs :
  _content_column self <> _embedding_column self ->
  dict_get (_content_column self) (values_objects self texts ids h refs)
  = Some (texts_object texts).
Proof.
  intros Hne. unfold values_objects. rewrite dict_get_set_ne by done. apply dict_get_set_eq.
Qed.

Lemma values_objects_id (texts : Iterable) (given : list string) h refs :
  _id_column self <> _embedding_column self ->
  _id_column self <> _content_column self ->
  dict_get (_id_column self) (values_objects self texts (Some given) h refs)
  = Some (ListValues (VStr <$> given)).
Proof.
  intros Hne1 Hne2. unfold values_objects. rewrite !dict_get_set_ne by done.
  apply dict_get_set_eq.
Qed.

Lemma values_objects_metadata (texts : Iterable) (ids : option (list string)) h refs
    (c : string) :
  occurrences c (_metadata_columns self) = 1 ->
  c ∉ [_id_column self; _content_column self; _embedding_column self] ->
  dict_get c (values_objects self texts ids h refs)
  = Some (ListValues ((fun d => metadata_value d c)
                        <$> seen_dicts (_metadata_json_column self) h refs)).
Proof.
  intros Honce Hbase.
  apply not_elem_of_cons in Hbase as [Hid Hrest].
  apply not_elem_of_cons in Hrest as [Hcontent Hrest].
  apply not_elem_of_cons in Hrest as [Hembedding _].
  unfold values_objects. rewrite !dict_get_set_ne by done.
  destruct ids; [rewrite dict_get_set_ne by done|];
    by rewrite lists_only_get, metadata_table_once.
Qed.

(** When [texts] is a list, the objects of [values_dict] are all lists. *)
Lemma values_objects_sequence (items : list string) (ids : option (list string)) h refs :
  values_objects self (Sequence items) ids h refs
  = lists_only (values_table self items ids h refs).
Proof.
  unfold values_objects, values_table. cbn [texts_object first_pass].
  destruct ids; by rewrite !lists_only_set.
Qed.

Lemma values_objects_keys (texts : Iterable) (ids : option (list string)) h refs :
  dict_keys (values_objects self texts ids h refs)
  = insert_columns self (match ids with Some _ => true | None => false end).
Proof.
  unfold values_objects, insert_columns, metadata_table.
  rewrite !dict_keys_set.
  destruct ids; rewrite ?dict_keys_set, lists_only_keys, dict_keys_tabulate; done.
Qed.

(** Lines 417-447, in closed form, for every kind of [texts].  [refs] are
    the metadata dicts the loop ran over -- the caller's, or new, distinct
    and empty ones, one per item of a second pass over [texts], when none
    were supplied -- and [h0] is the heap the loop started from.  The one
    step that can raise is the indexing that builds the rows. *)
Lemma add_texts_rows_run (texts : Iterable) (metadatas : option (list loc))
    (ids : option (list string)) (w : world) :
  exists refs h0,
    match metadatas with
    | Some given => refs = given /\ h0 = heap w
    | None =>
        length refs = length (second_pass texts) /\ NoDup refs
        /\ (forall r, r ∈ refs -> h0 !! r = Some [])
        /\ forall r, is_Some (heap w !! r) -> (r ∉ refs) /\ h0 !! r = heap w !! r
    end
    /\ add_texts_rows self texts metadatas ids w
       = (rows <~ rows_of (values_objects self texts ids h0 refs)
                    (length (first_pass texts)) ;;
          Ok (dict_keys (values_objects self texts ids h0 refs), rows),
          {| heap := fold_left (stamp (_metadata_json_column self)) refs h0;
             trace := trace w ++ [EmbedDocuments (first_pass texts)] |}).
Proof.
  set (w1 := {| heap := heap w; trace := trace w ++ [EmbedDocuments (first_pass texts)] |}).
  assert (Hstage : exists refs w0,
    match metadatas with
    | None => mapM (fun _ => alloc []) (second_pass texts)
    | Some given => ret given
    end w1 = (Ok refs, w0)
    /\ trace w0 = trace w1
    /\ match metadatas with
       | Some given => refs = given /\ heap w0 = heap w
       | None =>
           length refs = length (second_pass texts) /\ NoDup refs
           /\ (forall r, r ∈ refs -> heap w0 !! r = Some [])
           /\ forall r, is_Some (heap w !! r) -> (r ∉ refs) /\ heap w0 !! r = heap w !! r
       end).
  { destruct metadatas as [given|].
    - by exists given, w1.
    - destruct (alloc_all_fresh (second_pass texts) w1)
        as (refs & w0 & Hrun & Hlen & Htrace & Hnd & Hempty & Hold).
      by exists refs, w0. }
  destruct Hstage as (refs & w0 & Hrun & Htrace & Hgiven).
  exists refs, (heap w0). split; [done|].
  unfold add_texts_rows. cbv zeta. unfold bind at 1, emit at 1. fold w1.
  unfold bind at 1. rewrite Hrun.
  unfold bind at 1.
  assert (Hloop :
    match refs with
    | [] => ret (dict_comprehension (fun key => key) (fun _ => []) (_metadata_columns self))
    | _ :: _ => foldM (metadata_row self) refs
                  (dict_comprehension (fun key => key) (fun _ => []) (_metadata_columns self))
    end w0
    = (Ok (metadata_table self (heap w0) refs),
       {| heap := fold_left (stamp (_metadata_json_column self)) refs (heap w0);
          trace := trace w0 |})).
  { rewrite <- metadata_loop_table. by destruct refs. }
  rewrite Hloop. fold (values_objects self texts ids (heap w0) refs).
  unfold bind, lift, ret. rewrite Htrace. cbn [trace].
  by destruct (rows_of _ _).
Qed.

(** When [texts] is a list, the lengths agree and the embedding service
    returns a vector per text, the rows are built. *)
Lemma add_texts_rows_spec (texts : list string) (metadatas : option (list loc))
    (ids : option (list string)) (w : world) :
  (forall given, ids = Some given -> length given = length texts) ->
  (forall given, metadatas = Some given -> length given = length texts) ->
  length texts <= length (embed_documents (_embedding_service self) texts) ->
  exists refs h0,
    length refs = length texts
    /\ (forall given, metadatas = Some given -> refs = given /\ h0 = heap w)
    /\ (metadatas = None -> NoDup refs /\ forall r, r ∈ refs -> heap_dict h0 r = [])
    /\ add_texts_rows self (Sequence texts) metadatas ids w
       = (Ok (dict_keys (values_table self texts ids h0 refs),
              rows_table (values_table self texts ids h0 refs) (length texts)),
          {| heap := fold_left (stamp (_metadata_json_column self)) refs h0;
             trace := trace w ++ [EmbedDocuments texts] |}).
Proof.
  intros Hids Hmetas Hembeds.
  destruct (add_texts_rows_run (Sequence texts) metadatas ids w)
    as (refs & h0 & Hgiven & ->).
  cbn [first_pass second_pass] in *.
  assert (Hlen : length refs = length texts).
  { destruct metadatas as [given|]; [|by destruct Hgiven].
    destruct Hgiven as [-> _]. by apply Hmetas. }
  exists refs, h0. split; [done|]. split.
  { intros given ->. done. }
  split.
  { intros ->. destruct Hgiven as (_ & Hnd & Hempty & _). split; [done|].
    intros r Hr. unfold heap_dict. by rewrite Hempty. }
  rewrite values_objects_sequence, lists_only_keys.
  rewrite rows_of_spec; [done|apply values_table_NoDup|].
  intros k l Hin. by eapply values_table_enough.
Qed.

End ValuesTable.

(** ** Ingestion *)

Section Ingestion.

Variable self : SpannerVectorStore.

(** Past the guards, [add_texts] is the row building followed by the write
    loop. *)
Lemma add_texts_guarded (texts : Iterable) (metadatas : option (list loc))
    (ids : option (list string)) (batch_size : Z) (w : world) :
  first_pass texts <> [] ->
  (forall given, ids = Some given -> length given = length (first_pass texts)) ->
  (forall given, metadatas = Some given -> length given = length (first_pass texts)) ->
  add_texts self texts metadatas ids batch_size w
  = (prepared <- add_texts_rows self texts metadatas ids ;;
     let '(columns_to_insert, rows_to_insert) := prepared in
     starts <- lift (py_range (length rows_to_insert) batch_size) ;;
     foldM (fun _ i =>
              let batch := slice rows_to_insert i (Z.to_nat batch_size) in
              _insert_data self batch columns_to_insert)
           starts tt ;;;
     ret (match ids with Some ids => ids | None => [] end)) w.
Proof.
  intros Hne Hids Hmetas. unfold add_texts. cbv zeta.
  destruct (Nat.eqb_spec (length (first_pass texts)) 0) as [Hz|_];
    [by destruct (first_pass texts)|].
  assert (Hguard1 :
    match ids with
    | Some ids => py_assert (length ids =? length (first_pass texts))
    | None => ret tt
    end w = (Ok tt, w)).
  { destruct ids as [given|]; [|done]. by rewrite (Hids given eq_refl), Nat.eqb_refl. }
  assert (Hguard2 :
    match metadatas with
    | Some metadatas => py_assert (length metadatas =? length (first_pass texts))
    | None => ret tt
    end w = (Ok tt, w)).
  { destruct metadatas as [given|]; [|done]. by rewrite (Hmetas given eq_refl), Nat.eqb_refl. }
  unfold bind at 1. rewrite Hguard1.
  unfold bind at 1. by rewrite Hguard2.
Qed.

(** A call with a list of texts that passes the guards and whose service
    returns a vector per text: the whole run, in closed form. *)
Lemma add_texts_spec (texts : list string) (metadatas : option (list loc))
    (ids : option (list string)) (batch_size : Z) (w : world) :
  texts <> [] ->
  (0 < batch_size)%Z ->
  (forall given, ids = Some given -> length given = length texts) ->
  (forall given, metadatas = Some given -> length given = length texts) ->
  length texts <= length (embed_documents (_embedding_service self) texts) ->
  exists refs h0,
    length refs = length texts
    /\ (forall given, metadatas = Some given -> refs = given /\ h0 = heap w)
    /\ (metadatas = None -> NoDup refs /\ forall r, r ∈ refs -> heap_dict h0 r = [])
    /\ add_texts_rows self (Sequence texts) metadatas ids w
       = (Ok (dict_keys (values_table self texts ids h0 refs),
              rows_table (values_table self texts ids h0 refs) (length texts)),
          {| heap := fold_left (stamp (_metadata_json_column self)) refs h0;
             trace := trace w ++ [EmbedDocuments texts] |})
    /\ add_texts self (Sequence texts) metadatas ids batch_size w
       = (Ok (default [] ids),
          {| heap := fold_left (stamp (_metadata_json_column self)) refs h0;
             trace := trace w ++
               EmbedDocuments texts ::
               (BatchInsert (_table_name self)
                  (dict_keys (values_table self texts ids h0 refs))
                <$> batches_of (rows_table (values_table self texts ids h0 refs)
                                  (length texts))
                               (Z.to_nat batch_size)) |}).
Proof.
  intros Hne Hsize Hids Hmetas Hembeds.
  destruct (add_texts_rows_spec self texts metadatas ids w Hids Hmetas Hembeds)
    as (refs & h0 & Hlen & Hgiven & Hfresh & Hrows).
  exists refs, h0. do 4 (split; [done|]).
  rewrite add_texts_guarded by done.
  unfold bind at 1. rewrite Hrows.
  unfold py_range.
  destruct (Z.eqb_spec batch_size 0) as [?|_]; [lia|].
  destruct (Z.ltb_spec batch_size 0) as [?|_]; [lia|].
  unfold bind at 1, lift at 1.
  unfold bind at 1. rewrite insert_loop. unfold ret. cbn [heap trace].
  assert (Hret : match ids with Some given => given | None => [] end = default [] ids)
    by (by destruct ids).
  rewrite Hret, <- app_assoc. cbn [app].
  unfold batches_of. by rewrite <- list_fmap_compose.
Qed.


(** C6 (as amended).  With at least one text, a supplied id list or
    metadata list of another length makes the call raise at the guard: the
    world is as before, so no embedding was requested and nothing was
    written.  With no texts, every call returns the empty list, and the
    world is as before as well. *)
Theorem add_texts_length_guard (texts : Iterable) (metadatas : option (list loc))
    (ids : option (list string)) (batch_size : Z) (w : world) :
  (first_pass texts <> [] ->
   (exists given, ids = Some given /\ length given <> length (first_pass texts))
   \/ (exists given, metadatas = Some given /\ length given <> length (first_pass texts)) ->
   add_texts self texts metadatas ids batch_size w = (Raise AssertionError, w))
  /\ (first_pass texts = [] ->
      add_texts self texts metadatas ids batch_size w = (Ok [], w)).
Proof.
  split.
  - intros Hne Hbad. unfold add_texts. cbv zeta.
    destruct (Nat.eqb_spec (length (first_pass texts)) 0) as [Hz|_];
      [by destruct (first_pass texts)|].
    destruct ids as [given_ids|].
    + destruct (Nat.eqb_spec (length given_ids) (length (first_pass texts))) as [Heq|Hneq];
        [|done].
      destruct Hbad as [(given & [= <-] & Hlen)|(given & -> & Hlen)]; [done|].
      unfold bind at 1, py_assert at 1, ret at 1.
      by destruct (Nat.eqb_spec (length given) (length (first_pass texts))).
    + destruct Hbad as [(given & [=] & _)|(given & -> & Hlen)].
      unfold bind at 1, ret at 1.
      by destruct (Nat.eqb_spec (length given) (length (first_pass texts))).
  - intros Hnil. unfold add_texts. cbv zeta. by rewrite Hnil.
Qed.

End Ingestion.



Lemma add_texts_length_guard_witness :
  add_texts (sample_store []) (Sequence ["a"; "b"]) None (Some ["1"]) 5000 empty_world
  = (Raise AssertionError, empty_world).
Proof.
  apply (proj1 (add_texts_length_guard (sample_store []) (Sequence ["a"; "b"]) None
                  (Some ["1"]) 5000 empty_world)).
  - discriminate.
  - left. exists ["1"]. split; [reflexivity|]. cbn. lia.
Defined.

(** C6, as stated, fails when there are no texts: the call returns the empty
    list before any length is compared, so a non-empty id list goes
    unnoticed. *)
Lemma add_texts_length_guard_counterexample :
  length ["orphan"] <> length (@nil string)
  /\ add_texts (sample_store []) (Sequence []) None (Some ["orphan"]) 5000 empty_world
     = (Ok [], empty_world).
Proof. split; [discriminate|reflexivity]. Qed.

(** ** Column orderings *)

Section ColumnOrder.

Variable self : SpannerVectorStore.

Lemma enumerate_positions (l : list string) (s : nat) (d : list (string * nat))
    (name : string) (i : nat) :
  dict_get name (fold_left (fun d x => dict_set x.2 x.1 d) (zip (seq s (length l)) l) d)
  = Some i ->
  (s <= i /\ l !! (i - s) = Some name) \/ dict_get name d = Some i.
Proof.
  revert s d. induction l as [|x l IH]; intros s d; cbn [length seq zip zip_with fold_left].
  - by right.
  - intros [[Hle Hl]|Hd]%IH.
    + left. split; [lia|]. by replace (i - s) with (S (i - S s)) by lia.
    + cbn [fst snd] in Hd. destruct (decide (x = name)) as [->|Hne].
      * rewrite dict_get_set_eq in Hd. simplify_eq. left. split; [lia|].
        by rewrite Nat.sub_diag.
      * rewrite dict_get_set_ne in Hd by done. by right.
Qed.

(** The distance alias is mapped to the position after the last column. *)
Lemma column_order_distance :
  dict_get DISTANCE_SELECT_QUERY_NAME (column_order_map self)
  = Some (length (_columns_to_insert self)).
Proof. apply dict_get_set_eq. Qed.

(** The position recorded for a column name holds that name. *)
Lemma column_order_sound (column : string) (i : nat) :
  column <> DISTANCE_SELECT_QUERY_NAME ->
  dict_get column (column_order_map self) = Some i ->
  _columns_to_insert self !! i = Some column.
Proof.
  intros Hne. unfold column_order_map. rewrite dict_get_set_ne by done.
  unfold dict_comprehension, enumerate.
  intros [[_ Hl]|Hd]%enumerate_positions; [|done].
  by rewrite Nat.sub_0_r in Hl.
Qed.

(** Every configured column has a position. *)
Lemma column_order_complete (column : string) :
  column ∈ _columns_to_insert self -> is_Some (dict_get column (column_order_map self)).
Proof.
  intros Hin. apply dict_get_is_Some. unfold column_order_map.
  rewrite dict_keys_set. apply append_new_elem. left.
  rewrite dict_comprehension_keys. apply fold_append_new_elem. right.
  unfold enumerate. by rewrite snd_zip by (rewrite length_seq; lia).
Qed.

Lemma mapO_lookup_forward {A B} (f : A -> outcome B) (l : list A) (ys : list B)
    (p : nat) (x : A) :
  mapO f l = Ok ys -> l !! p = Some x -> exists y, ys !! p = Some y /\ f x = Ok y.
Proof.
  revert ys p. induction l as [|x0 l IH]; intros ys p; cbn; [done|].
  destruct (f x0) as [y0|] eqn:Hx; [|done]. destruct (mapO f l) as [ys'|]; [|done].
  intros [= <-]. destruct p as [|p]; cbn.
  - intros [= <-]. by exists y0.
  - intros Hp. by apply (IH ys').
Qed.

(** A built row holds, at the position of each key, what indexing that
    key's object at the row's index gives. *)
Lemma rows_of_row (values_dict : list (string * column_values)) (n : nat)
    (rows : list (list pyval)) (i : nat) (row : list pyval) :
  rows_of values_dict n = Ok rows -> rows !! i = Some row ->
  i < n
  /\ length row = length (dict_keys values_dict)
  /\ forall p key, dict_keys values_dict !! p = Some key ->
       exists obj v,
         dict_get key values_dict = Some obj
         /\ subscript obj i = Ok v /\ row !! p = Some v.
Proof.
  unfold rows_of. intros Hrows Hi.
  destruct (mapO_lookup _ _ _ _ _ Hrows Hi) as (i' & Hseq & Hrow).
  apply lookup_seq in Hseq as [-> Hlt]. cbn in Hrow.
  split; [done|]. split; [by apply mapO_length in Hrow|].
  intros p key Hp.
  destruct (mapO_lookup_forward _ _ _ _ _ Hrow Hp) as (v & Hv & Hf).
  unfold dict_item in Hf.
  destruct (dict_get key values_dict) as [obj|]; [|done].
  by exists obj, v.
Qed.

Lemma subscript_list (values : list pyval) (i : nat) (v : pyval) :
  subscript (ListValues values) i = Ok v -> values !! i = Some v.
Proof. cbn. unfold list_item. by destruct (values !! i); intros [= <-]. Qed.

(** The same for a table of lists with enough values in every column. *)
Lemma rows_table_row (values_dict : list (string * list pyval)) (n i : nat)
    (row : list pyval) :
  NoDup (dict_keys values_dict) ->
  (forall k l, (k, l) ∈ values_dict -> n <= length l) ->
  rows_table values_dict n !! i = Some row ->
  forall p key, dict_keys values_dict !! p = Some key ->
    exists column_values v,
      dict_get key values_dict = Some column_values
      /\ column_values !! i = Some v /\ row !! p = Some v.
Proof.
  intros Hnd Hlen Hrow p key Hp.
  destruct (rows_of_row _ _ _ _ _ (rows_of_spec values_dict n Hnd Hlen) Hrow)
    as (_ & _ & Hslots).
  destruct (Hslots p key) as (obj & v & Hget & Hv & Hslot); [by rewrite lists_only_keys|].
  rewrite lists_only_get in Hget.
  destruct (dict_get key values_dict) as [column_values|]; [|done].
  cbn in Hget. simplify_eq. apply subscript_list in Hv. by exists column_values, v.
Qed.

(** Indexing the [texts] object gives a value only when it is a list, and
    then the text at that index. *)
Lemma subscript_texts (texts : Iterable) (i : nat) (v : pyval) :
  subscript (texts_object texts) i = Ok v ->
  exists text, texts = Sequence (first_pass texts)
               /\ first_pass texts !! i = Some text /\ v = VStr text.
Proof.
  destruct texts as [items|t items|t items]; cbn; [|done..].
  intros Hv%(subscript_list (VStr <$> items)).
  rewrite list_lookup_fmap in Hv.
  destruct (items !! i) as [text|]; [|done]. cbn in Hv. simplify_eq. by exists text.
Qed.

Lemma slice_elem {A} (l : list A) (i size : nat) (x : A) : x ∈ slice l i size -> x ∈ l.
Proof.
  unfold slice. intros (j & Hj & _)%elem_of_take.
  rewrite lookup_drop in Hj. by eapply list_elem_of_lookup_2.
Qed.

(** Whatever the arguments and however the call ends, the events it adds
    are the embedding request and, after it, inserts of slices of the built
    rows under the keys of [values_dict]. *)
Lemma add_texts_events (texts : Iterable) (metadatas : option (list loc))
    (ids : option (list string)) (batch_size : Z) (w : world) :
  exists new,
    trace (add_texts self texts metadatas ids batch_size w).2 = trace w ++ new
    /\ forall e, e ∈ new ->
         e = EmbedDocuments (first_pass texts)
         \/ exists h0 refs rows i,
              (forall given, metadatas = Some given -> refs = given /\ h0 = heap w)
              /\ rows_of (values_objects self texts ids h0 refs) (length (first_pass texts))
                 = Ok rows
              /\ e = BatchInsert (_table_name self)
                       (dict_keys (values_objects self texts ids h0 refs))
                       (slice rows i (Z.to_nat batch_size)).
Proof.
  assert (Hnone : forall o : outcome (list string),
    exists new, trace (o, w).2 = trace w ++ new
      /\ forall e, e ∈ new ->
           e = EmbedDocuments (first_pass texts)
           \/ exists h0 refs rows i,
                (forall given, metadatas = Some given -> refs = given /\ h0 = heap w)
                /\ rows_of (values_objects self texts ids h0 refs)
                     (length (first_pass texts)) = Ok rows
                /\ e = BatchInsert (_table_name self)
                         (dict_keys (values_objects self texts ids h0 refs))
                         (slice rows i (Z.to_nat batch_size))).
  { intros o. exists []. split; [by rewrite app_nil_r|]. by intros e ?%elem_of_nil. }
  unfold add_texts. cbv zeta. destruct (length (first_pass texts) =? 0); [apply Hnone|].
  unfold bind at 1.
  assert (Hguard : forall c : option bool,
    match c with Some b => py_assert b | None => ret tt end w = (Ok tt, w)
    \/ match c with Some b => py_assert b | None => ret tt end w = (Raise AssertionError, w)).
  { intros [[|]|]; by auto. }
  destruct (Hguard ((fun given => length given =? length (first_pass texts)) <$> ids))
    as [Hg|Hg].
  2: { destruct ids; cbn in Hg; rewrite Hg; apply Hnone. }
  assert (Hg1 : match ids with
                | Some ids0 => py_assert (length ids0 =? length (first_pass texts))
                | None => ret tt
                end w = (Ok tt, w)) by (by destruct ids).
  rewrite Hg1. clear Hg Hg1. unfold bind at 1.
  destruct (Hguard ((fun given : list loc => length given =? length (first_pass texts))
                      <$> metadatas)) as [Hg|Hg].
  2: { destruct metadatas; cbn in Hg; rewrite Hg; apply Hnone. }
  assert (Hg2 : match metadatas with
                | Some metadatas0 => py_assert (length metadatas0 =? length (first_pass texts))
                | None => ret tt
                end w = (Ok tt, w)) by (by destruct metadatas).
  rewrite Hg2. clear Hg Hg2. unfold bind at 1.
  destruct (add_texts_rows_run self texts metadatas ids w) as (refs & h0 & Hrefs & ->).
  assert (Hgiven : forall given, metadatas = Some given -> refs = given /\ h0 = heap w).
  { by intros given ->. }
  destruct (rows_of (values_objects self texts ids h0 refs) (length (first_pass texts)))
    as [rows|err] eqn:Hrows; cbn [obind].
  2: { exists [EmbedDocuments (first_pass texts)]. split; [done|].
       intros e ->%list_elem_of_singleton. by left. }
  unfold bind at 1, lift at 1.
  destruct (py_range (length rows) batch_size) as [starts|err].
  2: { exists [EmbedDocuments (first_pass texts)]. split; [done|].
       intros e ->%list_elem_of_singleton. by left. }
  unfold bind at 1. rewrite insert_loop. cbn [snd trace ret].
  eexists (EmbedDocuments (first_pass texts) :: _). split.
  { rewrite <- app_assoc. cbn [app]. reflexivity. }
  intros e [->|He]%elem_of_cons; [by left|]. right.
  apply list_elem_of_fmap in He as (i & -> & _). by exists h0, refs, rows, i.
Qed.

Lemma values_table_embedding (texts : list string) (ids : option (list string))
    (h0 : gmap loc (list (string * pyval))) (refs : list loc) :
  dict_get (_embedding_column self) (values_table self texts ids h0 refs)
  = Some (embedding_value <$> embed_documents (_embedding_service self) texts).
Proof. apply dict_get_set_eq. Qed.

Lemma values_table_content (texts : list string) (ids : option (list string))
    (h0 : gmap loc (list (string * pyval))) (refs : list loc) :
  _content_column self <> _embedding_column self ->
  dict_get (_content_column self) (values_table self texts ids h0 refs)
  = Some (VStr <$> texts).
Proof.
  intros Hne. unfold values_table. rewrite dict_get_set_ne by done. apply dict_get_set_eq.
Qed.

Lemma values_table_id (texts given : list string)
    (h0 : gmap loc (list (string * pyval))) (refs : list loc) :
  _id_column self <> _embedding_column self ->
  _id_column self <> _content_column self ->
  dict_get (_id_column self) (values_table self texts (Some given) h0 refs)
  = Some (VStr <$> given).
Proof.
  intros Hne1 Hne2. unfold values_table. rewrite !dict_get_set_ne by done.
  apply dict_get_set_eq.
Qed.

(** C5 (as amended).  The select list of every search is the
    construction-time column list in its construction-time order, each
    recorded position holds the column it is recorded for, every configured
    column has a position, and the distance alias is mapped to the position
    after the last column.  The inserts of one [add_texts] call all use one
    column list, fixed by the construction-time configuration and by
    whether ids are supplied: the metadata columns (a repeated name once),
    then the id column (with ids only), the content column and the
    embedding column, each unless it is listed already.  Every inserted row
    is as wide as that list and holds the values of one input index: at the
    position of the embedding column the vector; at the position of the
    content column the text, when the content and embedding columns differ;
    at the position of the id column the id, when the id column differs
    from both; and, when metadata dicts are supplied, at the position of a
    metadata column that is named once and is neither the catch-all column
    nor one of the three, what the dict of that index held under the
    column's name when the call began, null if nothing. *)
Theorem column_orderings :
  (forall (embedding : list float) (k : Z) (pre_filter : option string),
      exists rest request,
        search_request self embedding k pre_filter = Ok request
        /\ sql request = "
            SELECT " +:+ PyStr.join "," (_columns_to_insert self) +:+ "," +:+ rest)
  /\ dict_get DISTANCE_SELECT_QUERY_NAME (column_order_map self)
     = Some (length (_columns_to_insert self))
  /\ (forall column i,
        column <> DISTANCE_SELECT_QUERY_NAME ->
        dict_get column (column_order_map self) = Some i ->
        _columns_to_insert self !! i = Some column)
  /\ (forall column,
        column ∈ _columns_to_insert self ->
        is_Some (dict_get column (column_order_map self)))
  /\ forall (texts : Iterable) (metadatas : option (list loc))
       (ids : option (list string)) (batch_size : Z) (w : world),
     exists new,
       trace (add_texts self texts metadatas ids batch_size w).2 = trace w ++ new
       /\ forall table columns rows,
            BatchInsert table columns rows ∈ new ->
            columns = insert_columns self (match ids with Some _ => true | None => false end)
            /\ forall row, row ∈ rows ->
                 length row = length columns
                 /\ exists i,
                      i < length (first_pass texts)
                      /\ (forall p, columns !! p = Some (_embedding_column self) ->
                            exists e,
                              embed_documents (_embedding_service self) (first_pass texts) !! i
                              = Some e
                              /\ row !! p = Some (embedding_value e))
                      /\ (_content_column self <> _embedding_column self ->
                          forall p, columns !! p = Some (_content_column self) ->
                            exists text,
                              first_pass texts !! i = Some text
                              /\ row !! p = Some (VStr text))
                      /\ (_id_column self <> _embedding_column self ->
                          _id_column self <> _content_column self ->
                          forall given p,
                            ids = Some given ->
                            columns !! p = Some (_id_column self) ->
                            exists id, given !! i = Some id /\ row !! p = Some (VStr id))
                      /\ (forall given c p,
                            metadatas = Some given ->
                            occurrences c (_metadata_columns self) = 1 ->
                            c ∉ [_id_column self; _content_column self;
                                 _embedding_column self] ->
                            _metadata_json_column self <> Some c ->
                            columns !! p = Some c ->
                            exists r,
                              given !! i = Some r
                              /\ row !! p
                                 = Some (default VNone
                                           (dict_get c (heap_dict (heap w) r)))).
Proof.
  split.
  { intros embedding k pre_filter.
    pose proof (search_request_text self embedding k pre_filter) as Hreq.
    cbv zeta in Hreq. eexists _, _. split; [exact Hreq|].
    cbn [sql]. flatten_strings. reflexivity. }
  split; [apply column_order_distance|].
  split; [apply column_order_sound|].
  split; [apply column_order_complete|].
  intros texts metadatas ids batch_size w.
  destruct (add_texts_events texts metadatas ids batch_size w) as (new & Htrace & Hnew).
  exists new. split; [done|].
  intros table columns rows
    [[=]|(h0 & refs & built & i0 & Hgiven & Hbuilt & [= -> -> ->])]%Hnew.
  split; [apply values_objects_keys|].
  intros row Hrow%slice_elem.
  apply list_elem_of_lookup in Hrow as [i Hi].
  destruct (rows_of_row _ _ _ _ _ Hbuilt Hi) as (Hlt & Hwidth & Hslots).
  split; [done|]. exists i. split; [done|].
  split; [|split; [|split]].
  - intros p Hp. destruct (Hslots p _ Hp) as (obj & v & Hget & Hv & Hslot).
    rewrite values_objects_embedding in Hget. simplify_eq.
    apply subscript_list in Hv. rewrite list_lookup_fmap in Hv.
    destruct (embed_documents _ (first_pass texts) !! i) as [e|]; [|done].
    cbn in Hv. simplify_eq. by exists e.
  - intros Hne p Hp. destruct (Hslots p _ Hp) as (obj & v & Hget & Hv & Hslot).
    rewrite values_objects_content in Hget by done. simplify_eq.
    apply subscript_texts in Hv as (text & _ & Htext & ->). by exists text.
  - intros Hne1 Hne2 given p -> Hp.
    destruct (Hslots p _ Hp) as (obj & v & Hget & Hv & Hslot).
    rewrite values_objects_id in Hget by done. simplify_eq.
    apply subscript_list in Hv. rewrite list_lookup_fmap in Hv.
    destruct (given !! i) as [id|]; [|done].
    cbn in Hv. simplify_eq. by exists id.
  - intros given c p -> Honce Hbase Hjson Hp.
    destruct (Hgiven given eq_refl) as [-> ->].
    destruct (Hslots p _ Hp) as (obj & v & Hget & Hv & Hslot).
    rewrite values_objects_metadata in Hget by done. simplify_eq.
    apply subscript_list in Hv. rewrite list_lookup_fmap in Hv.
    destruct (seen_dicts _ (heap w) given !! i) as [d|] eqn:Hd; [|done].
    cbn in Hv. simplify_eq.
    destruct (lookup_lt_is_Some_2 given i) as [r Hr].
    { rewrite <- (seen_dicts_length self (heap w)).
      by eapply lookup_lt_Some. }
    exists r. split; [done|]. rewrite Hslot. f_equal.
    rewrite (seen_dicts_row _ _ _ _ _ Hr) in Hd. simplify_eq.
    rewrite metadata_value_default.
    assert (Hc : forall k, _metadata_json_column self = Some k -> c <> k).
    { intros k Hk <-. done. }
    by rewrite heap_dict_stamp_get, fold_stamp_get.
Qed.

End ColumnOrder.

(** C5, as stated, fails: with a metadata column and the catch-all column
    configured, the insert lists the metadata columns first and the base
    columns last, while the construction-time list starts with the base
    columns. *)
Lemma column_orderings_counterexample :
  trace (add_texts (sample_store []) (Sequence ["hello"]) None (Some ["1"]) 5000
           empty_world).2
  = [ EmbedDocuments ["hello"];
      BatchInsert "docs" ["author"; "metadata"; "id"; "content"; "embedding"]
        [[VNone; JsonObject []; VStr "1"; VStr "hello"; VList [VFloat 1.5; VFloat 2]]] ]
  /\ ["author"; "metadata"; "id"; "content"; "embedding"]
     <> _columns_to_insert (sample_store []).
Proof. split; [reflexivity|discriminate]. Qed.

(** ** The caller's metadata dicts *)

Section Stamping.

Variable self : SpannerVectorStore.
Variable json_column : string.

Implicit Types (h : gmap loc (list (string * pyval))) (refs : list loc) (r : loc).

Lemma heap_dict_stamp_same h r :
  heap_dict (stamp (Some json_column) h r) r
  = dict_set json_column (JsonObject (heap_dict h r)) (heap_dict h r).
Proof. unfold stamp, heap_dict at 1. by rewrite lookup_insert_eq. Qed.

Lemma stamp_other h r r' :
  r <> r' -> stamp (Some json_column) h r !! r' = h !! r'.
Proof. intros Hne. unfold stamp. by rewrite lookup_insert_ne. Qed.

Lemma heap_dict_stamp_other h r r' :
  r <> r' -> heap_dict (stamp (Some json_column) h r) r' = heap_dict h r'.
Proof. intros Hne. unfold heap_dict. by rewrite stamp_other. Qed.

Lemma fold_stamp_other refs h r :
  r ∉ refs -> fold_left (stamp (Some json_column)) refs h !! r = h !! r.
Proof.
  revert h. induction refs as [|r0 refs IH]; intros h Hr; [done|].
  apply not_elem_of_cons in Hr as [Hne Hr]. cbn [fold_left].
  rewrite IH by done. by apply stamp_other.
Qed.

(** After the loop every supplied dict holds the catch-all key. *)
Lemma fold_stamp_has_key refs h r :
  r ∈ refs ->
  is_Some (dict_get json_column (heap_dict (fold_left (stamp (Some json_column)) refs h) r)).
Proof.
  induction refs as [|r0 refs IH] using rev_ind; [by intros ?%elem_of_nil|].
  rewrite fold_left_app. cbn [fold_left]. intros Hr.
  destruct (decide (r0 = r)) as [->|Hne].
  - rewrite heap_dict_stamp_same, dict_get_set_eq. by eexists.
  - unfold heap_dict. rewrite stamp_other by done. apply IH.
    apply elem_of_app in Hr as [Hr|Hr%list_elem_of_singleton]; [done|congruence].
Qed.

(** A dict supplied once is stamped once, with a copy of what it held. *)
Lemma fold_stamp_once refs h r :
  NoDup refs -> r ∈ refs ->
  fold_left (stamp (Some json_column)) refs h !! r
  = Some (dict_set json_column (JsonObject (heap_dict h r)) (heap_dict h r)).
Proof.
  revert h. induction refs as [|r0 refs IH]; intros h Hnd Hr; [by apply elem_of_nil in Hr|].
  apply NoDup_cons in Hnd as [Hr0 Hnd]. cbn [fold_left].
  apply elem_of_cons in Hr as [->|Hr].
  - rewrite fold_stamp_other by done. unfold stamp. by rewrite lookup_insert_eq.
  - rewrite IH by done.
    assert (Hne : r0 <> r) by (by intros ->).
    by rewrite (heap_dict_stamp_other h r0 r Hne).
Qed.

(** The dict row [i] is read from: the dict as it stood just before the
    row's own stamp, with the key added. *)
Lemma seen_dicts_lookup refs h (i : nat) r :
  refs !! i = Some r ->
  seen_dicts (Some json_column) h refs !! i
  = Some (let before := heap_dict (fold_left (stamp (Some json_column)) (take i refs) h) r in
          dict_set json_column (JsonObject before) before).
Proof.
  revert h i. induction refs as [|r0 refs IH]; intros h i; [done|].
  destruct i as [|i]; cbn [seen_dicts lookup list_lookup take fold_left].
  - intros [= ->]. by rewrite heap_dict_stamp_same.
  - intros Hi. by rewrite IH.
Qed.

Lemma metadata_value_stamped (d : list (string * pyval)) :
  metadata_value (dict_set json_column (JsonObject d) d) json_column = JsonObject d.
Proof. unfold metadata_value. by rewrite dict_get_set_eq. Qed.

Lemma dict_set_fresh {V} (k : string) (v : V) (d : list (string * V)) :
  dict_get k d = None -> dict_set k v d = d ++ [(k, v)].
Proof.
  induction d as [|[k' v'] d IH]; cbn; [done|].
  destruct (String.eqb k k'); [done|]. intros Hd. by rewrite IH.
Qed.

Lemma inserted_batches (texts : list string) (table : string) (columns : list string)
    (batches : list (list (list pyval))) :
  inserted (EmbedDocuments texts :: (BatchInsert table columns <$> batches))
  = (fun row => (columns, row)) <$> concat batches.
Proof.
  unfold inserted. rewrite bind_cons. cbn [app].
  induction batches as [|b batches IH]; [done|].
  rewrite fmap_cons, bind_cons, IH. cbn [concat]. by rewrite fmap_app.
Qed.

Hypothesis Hjson : _metadata_json_column self = Some json_column.
Hypothesis Honce : occurrences json_column (_metadata_columns self) = 1.
Hypothesis Hbase :
  json_column ∉ [_id_column self; _content_column self; _embedding_column self].

(** The catch-all column of the value table: row by row, a copy of the
    row's dict as it stood just before the row's own stamp. *)
Lemma values_table_json (texts : list string) (ids : option (list string)) h refs :
  dict_get json_column (values_table self texts ids h refs)
  = Some ((fun d => metadata_value d json_column) <$> seen_dicts (Some json_column) h refs).
Proof using Hjson Honce Hbase.
  apply not_elem_of_cons in Hbase as [Hid Hrest].
  apply not_elem_of_cons in Hrest as [Hcontent Hrest].
  apply not_elem_of_cons in Hrest as [Hembedding _].
  unfold values_table. rewrite !dict_get_set_ne by done.
  assert (Hmeta : dict_get json_column (metadata_table self h refs)
                  = Some ((fun d => metadata_value d json_column)
                            <$> seen_dicts (Some json_column) h refs)).
  { unfold metadata_table. rewrite dict_get_tabulate, Hjson, Honce, bind_replicate_one.
    rewrite decide_True; [done|].
    apply fold_append_new_elem. right. apply occurrences_elem. lia. }
  destruct ids; [by rewrite dict_get_set_ne|done].
Qed.

(** C10 (as amended).  In a call with a list of at least one text, a
    positive batch size, metadata dicts and ids (if any) of matching length
    and a vector per text, on a store whose catch-all column is one of its
    metadata columns (once, and not also the id, content or embedding
    column): the call succeeds, inserts one row per text, and every
    supplied dict holds the catch-all key afterwards.  The value in the catch-all slot of row [i] is a copy
    of the row's dict as it stood just before the row's own insertion of
    the key: that is the caller's original mapping when the dict object was
    not supplied for an earlier row of the call, and then the dict ends up
    as the original mapping with the key bound to that copy -- appended, if
    the mapping did not hold the key.  Dicts that were not supplied are
    untouched. *)
Theorem metadata_dicts_are_stamped (texts : list string) (refs : list loc)
    (ids : option (list string)) (batch_size : Z) (w : world) :
  texts <> [] ->
  (0 < batch_size)%Z ->
  length refs = length texts ->
  (forall given, ids = Some given -> length given = length texts) ->
  length texts <= length (embed_documents (_embedding_service self) texts) ->
  exists w' new,
    add_texts self (Sequence texts) (Some refs) ids batch_size w = (Ok (default [] ids), w')
    /\ trace w' = trace w ++ new
    /\ length (inserted new) = length texts
    /\ (forall r, r ∉ refs -> heap w' !! r = heap w !! r)
    /\ forall i r,
         refs !! i = Some r ->
         let original := heap_dict (heap w) r in
         let before :=
           heap_dict (fold_left (stamp (Some json_column)) (take i refs) (heap w)) r in
         is_Some (dict_get json_column (heap_dict (heap w') r))
         /\ (exists columns row,
               inserted new !! i = Some (columns, row)
               /\ json_column ∈ columns
               /\ forall p, columns !! p = Some json_column ->
                    row !! p = Some (JsonObject before))
         /\ (r ∉ take i refs -> before = original)
         /\ (NoDup refs ->
             heap w' !! r
             = Some (dict_set json_column (JsonObject original) original)
             /\ (dict_get json_column original = None ->
                 heap w' !! r = Some (original ++ [(json_column, JsonObject original)]))).
Proof using Hjson Honce Hbase.
  intros Hne Hsize Hlen Hids Hembeds.
  destruct (add_texts_spec self texts (Some refs) ids batch_size w Hne Hsize Hids)
    as (refs' & h0 & Hlen' & Hgiven & _ & Hrows & Hrun); [by intros given [= <-]|done|].
  destruct (Hgiven refs eq_refl) as [-> ->]. clear Hgiven Hlen'.
  rewrite Hjson in Hrun.
  set (table := values_table self texts ids (heap w) refs) in *.
  set (rows := rows_table table (length texts)) in *.
  eexists _, _. split; [exact Hrun|]. cbn [heap trace]. split; [done|].
  rewrite inserted_batches, batches_of_concat by lia.
  assert (Hn : length rows = length texts).
  { unfold rows, rows_table. by rewrite length_fmap, length_seq. }
  split; [by rewrite length_fmap|].
  split; [by apply fold_stamp_other|].
  intros i r Hi.
  set (original := heap_dict (heap w) r).
  set (before := heap_dict (fold_left (stamp (Some json_column)) (take i refs) (heap w)) r).
  assert (Hr : r ∈ refs) by (by eapply list_elem_of_lookup_2).
  split; [by apply fold_stamp_has_key|].
  split; [|split].
  - assert (Hlt : i < length rows) by (rewrite Hn, <- Hlen; by eapply lookup_lt_Some).
    destruct (lookup_lt_is_Some_2 rows i Hlt) as [row Hrow].
    exists (dict_keys table), row.
    split; [by rewrite list_lookup_fmap, Hrow|].
    split.
    { unfold table. rewrite values_table_keys. unfold insert_columns.
      do 2 (apply append_new_elem; left).
      assert (Hin : json_column ∈ fold_left append_new (_metadata_columns self) []).
      { apply fold_append_new_elem. right. apply occurrences_elem. lia. }
      destruct ids; [apply append_new_elem; by left|done]. }
    intros p Hp.
    destruct (rows_table_row table (length texts) i row (values_table_NoDup _ _ _ _ _))
      with (p := p) (key := json_column) as (column_values & v & Hget & Hv & Hslot);
      [by intros k l Hin; eapply values_table_enough|done..|].
    unfold table in Hget. rewrite values_table_json in Hget. simplify_eq.
    rewrite list_lookup_fmap, (seen_dicts_lookup _ _ _ _ Hi) in Hv.
    cbn in Hv. rewrite metadata_value_stamped in Hv. by simplify_eq.
  - intros Hfirst. unfold before, original, heap_dict.
    by rewrite fold_stamp_other.
  - intros Hnd. rewrite fold_stamp_once by done. split; [done|].
    intros Hfresh. by rewrite dict_set_fresh.
Qed.

End Stamping.

Lemma metadata_dicts_are_stamped_witness :
  let w := {| heap := {[ 0 := [("author", VStr "ann")]; 1 := [("author", VStr "bob")] ]};
              trace := [] |} in
  let refs := [0; 1] in
  exists w' new,
    add_texts (sample_store []) (Sequence ["a"; "b"]) (Some refs) None 5000 w = (Ok [], w')
    /\ trace w' = trace w ++ new
    /\ length (inserted new) = 2
    /\ (forall r, r ∉ refs -> heap w' !! r = heap w !! r)
    /\ forall i r,
         refs !! i = Some r ->
         let original := heap_dict (heap w) r in
         let before := heap_dict (fold_left (stamp (Some "metadata")) (take i refs) (heap w)) r in
         is_Some (dict_get "metadata" (heap_dict (heap w') r))
         /\ (exists columns row,
               inserted new !! i = Some (columns, row)
               /\ "metadata" ∈ columns
               /\ forall p, columns !! p = Some "metadata" ->
                    row !! p = Some (JsonObject before))
         /\ (r ∉ take i refs -> before = original)
         /\ (NoDup refs ->
             heap w' !! r = Some (dict_set "metadata" (JsonObject original) original)
             /\ (dict_get "metadata" original = None ->
                 heap w' !! r = Some (original ++ [("metadata", JsonObject original)]))).
Proof.
  intros w refs.
  apply (metadata_dicts_are_stamped (sample_store []) "metadata").
  - reflexivity.
  - reflexivity.
  - intros H. repeat (apply elem_of_cons in H as [H|H]; [discriminate H|]).
    by apply elem_of_nil in H.
  - discriminate.
  - reflexivity.
  - reflexivity.
  - intros given [=].
  - cbn. lia.
Defined.

Example stamped_dicts_sample :
  let w := {| heap := {[ 0 := [("author", VStr "ann")]; 1 := [("author", VStr "bob")] ]};
              trace := [] |} in
  let w' := (add_texts (sample_store []) (Sequence ["a"; "b"]) (Some [0; 1]) None 5000 w).2 in
  inserted (trace w')
  = [ (["author"; "metadata"; "content"; "embedding"],
       [VStr "ann"; JsonObject [("author", VStr "ann")]; VStr "a";
        VList [VFloat 1.5; VFloat 2]]);
      (["author"; "metadata"; "content"; "embedding"],
       [VStr "bob"; JsonObject [("author", VStr "bob")]; VStr "b";
        VList [VFloat 1.5; VFloat 2]]) ]
  /\ heap w' !! 0 = Some [("author", VStr "ann");
                          ("metadata", JsonObject [("author", VStr "ann")])]
  /\ heap w' !! 1 = Some [("author", VStr "bob");
                          ("metadata", JsonObject [("author", VStr "bob")])].
Proof. intros w w'. repeat split; by vm_compute. Qed.

(** C10, as stated, fails when one dict object is supplied for two rows:
    the copy taken for the second row is taken after the first row's
    insertion of the key, and contains it. *)
Lemma metadata_dicts_are_stamped_counterexample :
  let w := {| heap := {[ 0 := [("author", VStr "ann")] ]}; trace := [] |} in
  dict_get "metadata" (heap_dict (heap w) 0) = None
  /\ inserted (trace (add_texts (sample_store []) (Sequence ["a"; "b"]) (Some [0; 0]) None
                        5000 w).2) !! 1
     = Some (["author"; "metadata"; "content"; "embedding"],
             [VStr "ann";
              JsonObject [("author", VStr "ann");
                          ("metadata", JsonObject [("author", VStr "ann")])];
              VStr "b"; VList [VFloat 1.5; VFloat 2]])
  /\ dict_get "metadata" [("author", VStr "ann");
                          ("metadata", JsonObject [("author", VStr "ann")])] <> None.
Proof. intros w. split; [reflexivity|]. split; [reflexivity|discriminate]. Qed.

(** ** Opening a store *)

Section Construction.

Variables (instance_id database_id table_name : string).
Variable embedding_service : Embeddings.
Variables (id_column content_column embedding_column : string).
Variable client : Client.
Variable metadata_json_column : option string.
Variable query_parameters : QueryParameters.

(** X1.  In a store that [__init__] returns, every metadata column is one of
    the columns to insert -- so the read path finds a position for each --
    and, when no ignore list was given, so are the id, content and embedding
    columns and the catch-all column. *)
Theorem init_columns_cover (metadata_columns ignore_metadata_columns : option (list string))
    (self : SpannerVectorStore) :
  SpannerVectorStore_init instance_id database_id table_name embedding_service
    id_column content_column embedding_column client metadata_columns
    ignore_metadata_columns metadata_json_column query_parameters = Ok self ->
  (forall c, c ∈ _metadata_columns self -> c ∈ _columns_to_insert self)
  /\ (ignore_metadata_columns = None ->
      _id_column self ∈ _columns_to_insert self
      /\ _content_column self ∈ _columns_to_insert self
      /\ _embedding_column self ∈ _columns_to_insert self
      /\ forall j, _metadata_json_column self = Some j -> j ∈ _columns_to_insert self).
Proof.
  unfold SpannerVectorStore_init. intros H.
  destruct (instance_exists _ _); [|done].
  destruct (database_exists _); [|done].
  destruct (table_schema _ _) as [schema|]; [|done]. cbn [negb] in H.
  destruct ignore_metadata_columns as [ignored|].
  - cbn in H. simplify_eq. cbn. split; [|done].
    intros c Hc. by apply list_elem_of_filter in Hc as [_ Hc].
  - destruct metadata_columns as [given|], metadata_json_column as [j|]; cbn in H.
    all: try (destruct (name_in j _) eqn:E; cbn in H; unfold name_in in E;
              [apply bool_decide_eq_true in E|apply bool_decide_eq_false in E]).
    all: simplify_eq; cbn.
    all: split; [intros c Hc|intros _; repeat split; try (intros ? [= <-])].
    all: rewrite ?elem_of_cons, ?elem_of_app, ?elem_of_cons, ?list_elem_of_singleton in *.
    all: intuition (subst; auto).
Qed.

(** X2.  An ignore list overrides the explicit metadata column list: with
    one given, the store does not depend on [metadata_columns], no ignored
    column is among its columns, and its columns are distinct columns of
    the table. *)
Theorem init_ignore_list_overrides (metadata_columns metadata_columns' : option (list string))
    (ignored : list string) (self : SpannerVectorStore) :
  SpannerVectorStore_init instance_id database_id table_name embedding_service
    id_column content_column embedding_column client metadata_columns
    (Some ignored) metadata_json_column query_parameters = Ok self ->
  SpannerVectorStore_init instance_id database_id table_name embedding_service
    id_column content_column embedding_column client metadata_columns'
    (Some ignored) metadata_json_column query_parameters = Ok self
  /\ (forall c, c ∈ _columns_to_insert self -> c ∉ ignored)
  /\ (forall c, c ∈ _columns_to_insert self ->
        exists schema, table_schema (_database self) table_name = Some schema
                       /\ c ∈ schema.*1)
  /\ NoDup (_columns_to_insert self).
Proof.
  unfold SpannerVectorStore_init. intros H.
  destruct (instance_exists _ _); [|done].
  destruct (database_exists _); [|done].
  destruct (table_schema _ _) as [schema|] eqn:Hschema; [|done].
  cbn in H. simplify_eq. cbn. split; [done|].
  assert (Hkeys : dict_keys (dict_comprehension fst snd schema)
                  = fold_left append_new schema.*1 []) by apply dict_comprehension_keys.
  split; [|split].
  - intros c Hc. by apply list_elem_of_filter in Hc as [Hc _].
  - intros c Hc. apply list_elem_of_filter in Hc as [_ Hc].
    exists schema. split; [done|]. rewrite Hkeys in Hc.
    apply fold_append_new_elem in Hc as [Hc|Hc]; [by apply elem_of_nil in Hc|done].
  - apply NoDup_filter. rewrite Hkeys. apply fold_append_new_NoDup, NoDup_nil_2.
Qed.

(** X3.  Opening a store succeeds exactly when the instance, the database
    and the table exist; otherwise it raises an [Exception]. *)
Theorem init_succeeds_iff (metadata_columns ignore_metadata_columns : option (list string)) :
  (exists self,
     SpannerVectorStore_init instance_id database_id table_name embedding_service
       id_column content_column embedding_column client metadata_columns
       ignore_metadata_columns metadata_json_column query_parameters = Ok self)
  <-> (instance_exists client instance_id = true
       /\ database_exists (instance_database client instance_id database_id) = true
       /\ is_Some (table_schema (instance_database client instance_id database_id)
                     table_name)).
Proof.
  unfold SpannerVectorStore_init.
  destruct (instance_exists _ _); cbn [negb].
  2: { split; [by intros [? ?]|by intros [? _]]. }
  destruct (database_exists _); cbn [negb].
  2: { split; [by intros [? ?]|by intros (_ & ? & _)]. }
  destruct (table_schema _ _) as [schema|].
  2: { split; [by intros [? ?]|]. intros (_ & _ & [? ?]). done. }
  split; [done|]. intros _.
  destruct ignore_metadata_columns, metadata_columns, metadata_json_column;
    cbn; repeat case_match; by eexists.
Qed.

End Construction.

Lemma init_ignore_list_overrides_witness :
  exists self,
    SpannerVectorStore_init "inst" "db" "docs" sample_embeddings "id" "content" "embedding"
      (sample_client []) (Some ["author"]) (Some ["metadata"]) None default_query_parameters
    = Ok self
    /\ SpannerVectorStore_init "inst" "db" "docs" sample_embeddings "id" "content" "embedding"
         (sample_client []) None (Some ["metadata"]) None default_query_parameters
       = Ok self
    /\ _columns_to_insert self = ["id"; "content"; "embedding"; "author"].
Proof.
  eexists. split; [reflexivity|].
  split; [|reflexivity].
  exact (proj1 (init_ignore_list_overrides "inst" "db" "docs" sample_embeddings "id" "content"
                  "embedding" (sample_client []) None default_query_parameters
                  (Some ["author"]) None ["metadata"] _ eq_refl)).
Defined.

Lemma init_columns_cover_witness :
  (forall c, c ∈ _metadata_columns (sample_store []) -> c ∈ _columns_to_insert (sample_store []))
  /\ (@None (list string) = None ->
      "id" ∈ _columns_to_insert (sample_store [])
      /\ "content" ∈ _columns_to_insert (sample_store [])
      /\ "embedding" ∈ _columns_to_insert (sample_store [])
      /\ forall j, Some "metadata" = Some j -> j ∈ _columns_to_insert (sample_store [])).
Proof.
  exact (init_columns_cover "inst" "db" "docs" sample_embeddings "id" "content" "embedding"
           (sample_client []) (Some "metadata") default_query_parameters
           (Some ["author"]) None (sample_store []) eq_refl).
Defined.

(** ** Reading rows back: when it works, when it raises *)

Section Rows.

Variable self : SpannerVectorStore.

Implicit Types (row : list pyval) (key : string).

Lemma row_value_distance row :
  row_value (column_order_map self) row DISTANCE_SELECT_QUERY_NAME
  = list_item row (length (_columns_to_insert self)).
Proof. unfold row_value, dict_item. by rewrite column_order_distance. Qed.

(** In a row one wider than the column list, every configured column and
    the distance alias have a value. *)
Lemma row_value_Ok row key :
  length row = S (length (_columns_to_insert self)) ->
  key ∈ _columns_to_insert self \/ key = DISTANCE_SELECT_QUERY_NAME ->
  exists v, row_value (column_order_map self) row key = Ok v.
Proof.
  intros Hwidth Hkey.
  destruct (decide (key = DISTANCE_SELECT_QUERY_NAME)) as [->|Hne].
  - rewrite row_value_distance. unfold list_item.
    destruct (lookup_lt_is_Some_2 row (length (_columns_to_insert self)) ltac:(lia)) as [v ->].
    by exists v.
  - destruct Hkey as [Hin|?]; [|done].
    destruct (column_order_complete self key Hin) as [i Hi].
    pose proof (column_order_sound self key i Hne Hi) as Hpos.
    apply lookup_lt_Some in Hpos.
    unfold row_value, dict_item. rewrite Hi. cbn [obind]. unfold list_item.
    destruct (lookup_lt_is_Some_2 row i ltac:(lia)) as [v ->]. by exists v.
Qed.

Lemma row_value_KeyError row key :
  key ∉ _columns_to_insert self -> key <> DISTANCE_SELECT_QUERY_NAME ->
  row_value (column_order_map self) row key = Raise (KeyError key).
Proof.
  intros Hout Hne. unfold row_value, dict_item.
  assert (Hnone : dict_get key (column_order_map self) = None).
  { apply dict_get_None. unfold column_order_map. rewrite dict_keys_set.
    intros [Hin|?]%append_new_elem; [|done].
    rewrite dict_comprehension_keys in Hin.
    apply fold_append_new_elem in Hin as [Hin|Hin]; [by apply elem_of_nil in Hin|].
    unfold enumerate in Hin. by rewrite snd_zip in Hin by (rewrite length_seq; lia). }
  by rewrite Hnone.
Qed.

Lemma metadata_of_columns_Ok row (keys : list string) (acc : list (string * pyval)) :
  length row = S (length (_columns_to_insert self)) ->
  (forall key, key ∈ keys -> key ∈ _columns_to_insert self) ->
  exists entries, metadata_of_columns (column_order_map self) row keys acc = Ok entries.
Proof.
  intros Hwidth. revert acc. induction keys as [|key keys IH]; intros acc Hkeys.
  - by exists acc.
  - cbn [metadata_of_columns].
    destruct (row_value_Ok row key Hwidth) as [v Hv];
      [left; apply Hkeys, list_elem_of_here|].
    rewrite Hv. cbn [obind].
    destruct (is_not_None v); cbn [obind];
      apply IH; intros k Hk; by apply Hkeys, list_elem_of_further.
Qed.

(** A duration within the range of [timedelta] is accepted as it is. *)
Lemma timedelta_in_range (seconds : Z) :
  (Z.abs (seconds / 86400) <= 999999999)%Z -> timedelta seconds = Ok seconds.
Proof. unfold timedelta. intros H. by destruct (Z.leb_spec (Z.abs (seconds / 86400)) 999999999); [|lia]. Qed.

Lemma timedelta_Ok (seconds duration : Z) :
  timedelta seconds = Ok duration -> duration = seconds.
Proof. unfold timedelta. by destruct (_ <=? _)%Z; intros [= <-]. Qed.

(** X4.  When the catch-all column and the metadata columns are among the
    store's columns -- which [__init__] without an ignore list guarantees
    -- every row one wider than the column list is converted, provided its
    content value is a string and its catch-all value, when it is true in a
    condition, is an object: no lookup raises, the document is accepted,
    and the score is the row's value right after the last configured
    column. *)
Theorem document_of_row_total row :
  (exists text, row_value (column_order_map self) row (_content_column self) = Ok (VStr text)) ->
  (forall j, _metadata_json_column self = Some j -> j ∈ _columns_to_insert self) ->
  (forall j v, _metadata_json_column self = Some j ->
     row_value (column_order_map self) row j = Ok v -> truthy v = true ->
     exists entries, v = JsonObject entries \/ v = VDict entries) ->
  (forall c, c ∈ _metadata_columns self -> c ∈ _columns_to_insert self) ->
  length row = S (length (_columns_to_insert self)) ->
  exists doc distance,
    document_of_row self row = Ok (doc, distance)
    /\ row !! length (_columns_to_insert self) = Some distance.
Proof.
  intros [text Hcontent] Hjson Hobject Hmeta Hwidth. unfold document_of_row. cbv zeta.
  rewrite Hcontent. cbn [obind].
  destruct (metadata_of_columns_Ok row (_metadata_columns self) [] Hwidth Hmeta)
    as [entries Hentries].
  assert (Hscore : exists distance,
    row_value (column_order_map self) row DISTANCE_SELECT_QUERY_NAME = Ok distance
    /\ row !! length (_columns_to_insert self) = Some distance).
  { destruct (row_value_Ok row DISTANCE_SELECT_QUERY_NAME Hwidth) as [d Hd]; [by right|].
    exists d. split; [done|]. rewrite row_value_distance in Hd. unfold list_item in Hd.
    by destruct (row !! _); simplify_eq. }
  destruct Hscore as (distance & Hdist & Hlast).
  destruct (_metadata_json_column self) as [j|].
  - destruct (row_value_Ok row j Hwidth) as [v Hv]; [left; by apply Hjson|].
    rewrite Hv. cbn [obind]. destruct (truthy v) eqn:Htruth.
    + cbn [obind].
      destruct (Hobject j v eq_refl Hv Htruth) as [object [-> | ->]];
        cbn [Document_init obind]; rewrite Hdist; cbn [obind]; by eexists _, _.
    + rewrite Hentries. cbn [obind Document_init]. rewrite Hdist. cbn [obind].
      by eexists _, _.
  - rewrite Hentries. cbn [obind Document_init]. rewrite Hdist. cbn [obind].
    by eexists _, _.
Qed.

(** X5.  When the content column is not among the store's columns -- an
    ignore list that names it does that -- a search whose staleness is
    accepted as a duration and whose read returns any row raises
    [KeyError] for the content column, after the read. *)
Theorem search_without_content_column (embedding : list float) (k : Z)
    (pre_filter : option string) (w : world) :
  (Z.abs (staleness (_query_parameters self) / 86400) <= 999999999)%Z ->
  _content_column self ∉ _columns_to_insert self ->
  _content_column self <> DISTANCE_SELECT_QUERY_NAME ->
  (forall exact_staleness request,
      execute_sql (_database self) exact_staleness request <> []) ->
  exists request,
    similarity_search_with_score_by_vector self embedding k pre_filter w
    = (Raise (KeyError (_content_column self)),
       {| heap := heap w;
          trace := trace w ++ [ExecuteSql (staleness (_query_parameters self)) request] |}).
Proof.
  intros Hrange Hout Hne Hrows.
  pose proof (search_request_text self embedding k pre_filter) as Hreq. cbv zeta in Hreq.
  eexists. unfold similarity_search_with_score_by_vector.
  unfold bind at 1, lift at 1. rewrite (timedelta_in_range _ Hrange).
  unfold bind at 1, lift at 1. rewrite Hreq.
  unfold bind, emit, lift. cbn [heap trace]. f_equal.
  match goal with |- mapO _ ?returned = _ => destruct returned as [|row rest] eqn:E end.
  { by apply Hrows in E. }
  cbn [mapO]. unfold document_of_row at 1. cbv zeta.
  by rewrite row_value_KeyError.
Qed.

(** The mapping collected from the metadata columns binds a key exactly when
    it is a metadata column whose value in the row is not null, and binds it
    to that value; what was collected before stays for the other keys. *)
Lemma metadata_of_columns_spec row (keys : list string) (acc entries : list (string * pyval)) :
  metadata_of_columns (column_order_map self) row keys acc = Ok entries ->
  forall key v,
    dict_get key entries = Some v
    <-> (key ∈ keys /\ row_value (column_order_map self) row key = Ok v /\ v <> VNone)
        \/ (dict_get key acc = Some v
            /\ ~ (key ∈ keys /\ exists v', row_value (column_order_map self) row key = Ok v'
                                           /\ v' <> VNone)).
Proof.
  revert acc. induction keys as [|k keys IH]; intros acc; cbn [metadata_of_columns].
  - intros [= <-] key v. split.
    + intros Hget. right. split; [done|]. by intros [?%elem_of_nil _].
    + intros [[?%elem_of_nil _]|[? _]]; done.
  - destruct (row_value (column_order_map self) row k) as [vk|] eqn:Hk; [|done].
    cbn [obind]. destruct (is_not_None vk) eqn:Hnn.
    + cbn [obind]. intros Hrun key v. rewrite (IH _ Hrun key v).
      assert (Hvk : vk <> VNone) by (by destruct vk).
      destruct (decide (key = k)) as [->|Hne].
      * rewrite dict_get_set_eq. split.
        -- intros [(Hin & Hv & Hnone)|[[= <-] Hnot]]; left;
             (split; [by rewrite elem_of_cons; auto|done]).
        -- intros [(Hin & Hv & Hnone)|[_ Hnot]].
           ++ destruct (decide (k ∈ keys)) as [Hin'|Hout]; [by left|].
              right. rewrite Hk in Hv. simplify_eq. split; [done|]. by intros [? _].
           ++ exfalso. apply Hnot. split; [apply list_elem_of_here|by exists vk].
      * rewrite dict_get_set_ne by done. rewrite elem_of_cons.
        split; (intros [(Hin & Hv & Hnone)|[Hacc Hnot]];
                [left; split; [|done]; tauto|right; split; [done|]]).
        -- intros [[?|Hin] Hex]; [done|]. by apply Hnot.
        -- intros [Hin Hex]. apply Hnot. split; [by right|done].
    + intros Hrun key v. rewrite (IH _ Hrun key v).
      assert (Hvk : vk = VNone) by (by destruct vk). subst vk.
      rewrite elem_of_cons. split.
      * intros [(Hin & Hv & Hnone)|[Hacc Hnot]]; [left; tauto|right].
        split; [done|]. intros [[->|Hin] (v' & Hv' & Hnone')].
        -- rewrite Hk in Hv'. by simplify_eq.
        -- apply Hnot. split; [done|]. by exists v'.
      * intros [([->|Hin] & Hv & Hnone)|[Hacc Hnot]].
        -- rewrite Hk in Hv. by simplify_eq.
        -- left. tauto.
        -- right. split; [done|]. intros [Hin Hex]. apply Hnot. split; [by right|done].
Qed.

(** X6.  Without a catch-all column, or when the row's value in it is false
    in a condition (null, or an empty object), the document's metadata is a
    dict that binds a name exactly when it is one of the metadata columns
    and the row's value at that column's position is not null, and binds it
    to that value. *)
Theorem document_metadata_from_columns row (doc : Document) (distance : pyval) :
  match _metadata_json_column self with
  | Some json_column =>
      exists v, row_value (column_order_map self) row json_column = Ok v /\ truthy v = false
  | None => True
  end ->
  document_of_row self row = Ok (doc, distance) ->
  exists entries,
    metadata doc = VDict entries
    /\ forall key v,
         dict_get key entries = Some v
         <-> key ∈ _metadata_columns self
             /\ row_value (column_order_map self) row key = Ok v /\ v <> VNone.
Proof.
  intros Hjson Hdoc.
  destruct (document_of_row_columns self row doc distance Hjson Hdoc)
    as (entries & Hentries & Hmeta & _).
  exists entries. split; [done|]. intros key v.
  rewrite (metadata_of_columns_spec row _ _ _ Hentries key v).
  split; [|by left]. intros [?|[Hnil _]]; [done|]. done.
Qed.

(** X7.  A search that succeeds returns one pair per row the read returned,
    in the order of the rows; pair [i] is the conversion of row [i], its
    score is that row's value right after the last configured column, and
    the only event is the one read, at the store's staleness. *)
Theorem search_results_follow_rows (embedding : list float) (k : Z)
    (pre_filter : option string) (w w' : world) (documents : list (Document * pyval)) :
  similarity_search_with_score_by_vector self embedding k pre_filter w = (Ok documents, w') ->
  exists request,
    search_request self embedding k pre_filter = Ok request
    /\ w' = {| heap := heap w;
               trace := trace w ++ [ExecuteSql (staleness (_query_parameters self)) request] |}
    /\ let rows := execute_sql (_database self) (staleness (_query_parameters self)) request in
       length documents = length rows
       /\ forall i doc distance,
            documents !! i = Some (doc, distance) ->
            exists row,
              rows !! i = Some row
              /\ document_of_row self row = Ok (doc, distance)
              /\ row !! length (_columns_to_insert self) = Some distance.
Proof.
  pose proof (search_request_text self embedding k pre_filter) as Hreq. cbv zeta in Hreq.
  unfold similarity_search_with_score_by_vector.
  unfold bind at 1, lift at 1.
  destruct (timedelta (staleness (_query_parameters self))) as [duration|] eqn:Hduration;
    [|done].
  apply timedelta_Ok in Hduration as ->.
  unfold bind at 1, lift at 1. rewrite Hreq.
  unfold bind, emit, lift. cbn [heap trace].
  intros [= Hdocs <-]. eexists. split; [reflexivity|]. split; [reflexivity|].
  cbv zeta. split; [by apply mapO_length in Hdocs|].
  intros i doc distance Hi.
  destruct (mapO_lookup _ _ _ _ _ Hdocs Hi) as (row & Hrow & Hconv).
  exists row. split; [done|]. split; [done|].
  unfold document_of_row in Hconv. cbv zeta in Hconv.
  destruct (row_value _ row (_content_column self)); [cbn [obind] in Hconv|done].
  match type of Hconv with obind ?m _ = _ => destruct m; [cbn [obind] in Hconv|done] end.
  match type of Hconv with obind ?m _ = _ => destruct m; [cbn [obind] in Hconv|done] end.
  rewrite row_value_distance in Hconv. unfold list_item in Hconv.
  destruct (row !! _) as [d|]; [|done]. cbn [obind] in Hconv. by simplify_eq.
Qed.

(** X18.  A staleness that [timedelta] refuses -- more than 999999999 days
    either way -- makes every search raise [OverflowError] at once: no
    statement is built and nothing is read. *)
Theorem search_staleness_refused (embedding : list float) (k : Z)
    (pre_filter : option string) (w : world) :
  (999999999 < Z.abs (staleness (_query_parameters self) / 86400))%Z ->
  similarity_search_with_score_by_vector self embedding k pre_filter w
  = (Raise OverflowError, w).
Proof.
  intros Hrange. unfold similarity_search_with_score_by_vector.
  unfold bind at 1, lift at 1, timedelta.
  by destruct (Z.leb_spec (Z.abs (staleness (_query_parameters self) / 86400)) 999999999);
    [lia|].
Qed.

(** X19.  A row whose content value is null is not converted: the lookups
    succeed and the document is refused, so a search whose read returns
    such a row first raises [ValidationError], after the read. *)
Theorem search_null_content (embedding : list float) (k : Z)
    (pre_filter : option string) (w : world) :
  (Z.abs (staleness (_query_parameters self) / 86400) <= 999999999)%Z ->
  (forall j, _metadata_json_column self = Some j -> j ∈ _columns_to_insert self) ->
  (forall c, c ∈ _metadata_columns self -> c ∈ _columns_to_insert self) ->
  (forall exact_staleness request,
      exists row rest,
        execute_sql (_database self) exact_staleness request = row :: rest
        /\ length row = S (length (_columns_to_insert self))
        /\ row_value (column_order_map self) row (_content_column self) = Ok VNone) ->
  exists request,
    similarity_search_with_score_by_vector self embedding k pre_filter w
    = (Raise ValidationError,
       {| heap := heap w;
          trace := trace w ++ [ExecuteSql (staleness (_query_parameters self)) request] |}).
Proof.
  intros Hrange Hjson Hmeta Hrows.
  pose proof (search_request_text self embedding k pre_filter) as Hreq. cbv zeta in Hreq.
  eexists. unfold similarity_search_with_score_by_vector.
  unfold bind at 1, lift at 1. rewrite (timedelta_in_range _ Hrange).
  unfold bind at 1, lift at 1. rewrite Hreq.
  unfold bind, emit, lift. cbn [heap trace]. f_equal.
  match goal with
  | |- mapO _ (execute_sql ?db ?d ?req) = _ =>
      destruct (Hrows d req) as (row & rest & -> & Hwidth & Hcontent)
  end.
  cbn [mapO]. unfold document_of_row at 1. cbv zeta. rewrite Hcontent. cbn [obind].
  destruct (metadata_of_columns_Ok row (_metadata_columns self) [] Hwidth Hmeta)
    as [entries Hentries].
  destruct (_metadata_json_column self) as [j|].
  - destruct (row_value_Ok row j Hwidth) as [v Hv]; [left; by apply Hjson|].
    rewrite Hv. cbn [obind]. destruct (truthy v); cbn [obind]; [done|].
    by rewrite Hentries.
  - by rewrite Hentries.
Qed.

End Rows.

Lemma document_of_row_total_witness :
  exists doc distance,
    document_of_row (sample_store [])
      [VStr "7"; VStr "hello"; VList []; VStr "ann"; VNone; VFloat 0.5]
    = Ok (doc, distance)
    /\ [VStr "7"; VStr "hello"; VList []; VStr "ann"; VNone; VFloat 0.5]
         !! length (_columns_to_insert (sample_store [])) = Some distance.
Proof.
  apply (document_of_row_total (sample_store [])).
  - by exists "hello".
  - intros j [= <-]. cbn. rewrite !elem_of_cons. auto 10.
  - intros j v [= <-] [= <-]. discriminate.
  - intros c Hc. cbn in *.
    rewrite !elem_of_cons in *. intuition (subst; auto).
  - reflexivity.
Defined.

Lemma search_without_content_column_witness :
  exists self,
    content_ignored_store = Ok self
    /\ exists request,
         similarity_search_with_score_by_vector self [0.5%float] 4 None empty_world
         = (Raise (KeyError (_content_column self)),
            {| heap := heap empty_world;
               trace := trace empty_world ++
                 [ExecuteSql (staleness (_query_parameters self)) request] |}).
Proof.
  eexists. split; [reflexivity|].
  apply search_without_content_column.
  - by vm_compute.
  - intros H. apply list_elem_of_In in H. vm_compute in H. intuition discriminate.
  - discriminate.
  - intros exact_staleness request. discriminate.
Defined.

Lemma document_metadata_from_columns_witness :
  exists entries,
    metadata {| page_content := VStr "hello"; metadata := VDict [("author", VStr "ann")] |}
    = VDict entries
    /\ forall key v,
         dict_get key entries = Some v
         <-> key ∈ _metadata_columns plain_store
             /\ row_value (column_order_map plain_store)
                  [VStr "7"; VStr "hello"; VList []; VStr "ann"; VFloat 0.5] key = Ok v
             /\ v <> VNone.
Proof.
  apply (document_metadata_from_columns plain_store
           [VStr "7"; VStr "hello"; VList []; VStr "ann"; VFloat 0.5]
           {| page_content := VStr "hello"; metadata := VDict [("author", VStr "ann")] |}
           (VFloat 0.5)).
  - exact I.
  - reflexivity.
Defined.

Lemma search_results_follow_rows_witness :
  let rows := [[VStr "7"; VStr "hello"; VList []; VStr "ann"; VNone; VFloat 0.5]] in
  let w' := (similarity_search_with_score_by_vector (sample_store rows) [0.5%float] 4 None
               empty_world).2 in
  let documents :=
    [({| page_content := VStr "hello"; metadata := VDict [("author", VStr "ann")] |},
      VFloat 0.5)] in
  exists request,
    search_request (sample_store rows) [0.5%float] 4 None = Ok request
    /\ w' = {| heap := heap empty_world;
               trace := trace empty_world ++
                 [ExecuteSql (staleness (_query_parameters (sample_store rows))) request] |}
    /\ let returned := execute_sql (_database (sample_store rows))
                         (staleness (_query_parameters (sample_store rows))) request in
       length documents = length returned
       /\ forall i doc distance,
            documents !! i = Some (doc, distance) ->
            exists row,
              returned !! i = Some row
              /\ document_of_row (sample_store rows) row = Ok (doc, distance)
              /\ row !! length (_columns_to_insert (sample_store rows)) = Some distance.
Proof.
  intros rows w' documents.
  apply (search_results_follow_rows (sample_store rows) [0.5%float] 4 None empty_world w'
           documents).
  reflexivity.
Defined.

Lemma search_staleness_refused_witness :
  similarity_search_with_score_by_vector overdue_store [0.5%float] 4 None empty_world
  = (Raise OverflowError, empty_world).
Proof.
  apply (search_staleness_refused overdue_store [0.5%float] 4 None empty_world).
  by vm_compute.
Defined.

Lemma search_null_content_witness :
  let rows := [[VStr "7"; VNone; VList []; VStr "ann"; VNone; VFloat 0.5]] in
  exists request,
    similarity_search_with_score_by_vector (sample_store rows) [0.5%float] 4 None empty_world
    = (Raise ValidationError,
       {| heap := heap empty_world;
          trace := trace empty_world ++
            [ExecuteSql (staleness (_query_parameters (sample_store rows))) request] |}).
Proof.
  intros rows.
  apply (search_null_content (sample_store rows) [0.5%float] 4 None empty_world).
  - by vm_compute.
  - intros j [= <-]. cbn. rewrite !elem_of_cons. auto 10.
  - intros c Hc. cbn in *.
    rewrite !elem_of_cons in *. intuition (subst; auto).
  - intros exact_staleness request. eexists _, _. split; [reflexivity|].
    split; reflexivity.
Defined.

(** ** The dialect of a search *)

Section SearchDialect.

Variable self : SpannerVectorStore.

(** X8.  In a store that [__init__] returns, the distance function and the
    placeholder of the search statement always belong to the same dialect:
    [spanner.cosine_distance] or [spanner.euclidean_distance] with [$1] when
    the database reports PostgreSQL, [COSINE_DISTANCE] or
    [EUCLIDEAN_DISTANCE] with [@vector_embedding] otherwise. *)
Theorem init_search_dialect instance_id database_id table_name embedding_service
    id_column content_column embedding_column client metadata_columns
    ignore_metadata_columns metadata_json_column query_parameters
    (embedding : list float) (k : Z) (pre_filter : option string) :
  SpannerVectorStore_init instance_id database_id table_name embedding_service
    id_column content_column embedding_column client metadata_columns
    ignore_metadata_columns metadata_json_column query_parameters = Ok self ->
  let postgres := is_postgresql (database_dialect (_database self)) in
  let call :=
    match distance_strategy (_query_parameters self), postgres with
    | COSINE, true => "spanner.cosine_distance(" +:+ _embedding_column self +:+ ", $1)"
    | EUCLIDEIAN, true => "spanner.euclidean_distance(" +:+ _embedding_column self +:+ ", $1)"
    | COSINE, false => "COSINE_DISTANCE(" +:+ _embedding_column self +:+ ", @vector_embedding)"
    | EUCLIDEIAN, false =>
        "EUCLIDEAN_DISTANCE(" +:+ _embedding_column self +:+ ", @vector_embedding)"
    end in
  exists request,
    search_request self embedding k pre_filter = Ok request
    /\ sql request = "
            SELECT " +:+ PyStr.join "," (_columns_to_insert self) +:+ ", " +:+ call
         +:+ " AS distance
            FROM " +:+ _table_name self +:+ " 
            WHERE " +:+ match pre_filter with Some text => text | None => "1 = 1" end +:+ "
            ORDER BY distance
            LIMIT " +:+ PyStr.of_int k +:+ ";
        ".
Proof.
  intros Hinit postgres call.
  pose proof (init_dialect_semantics _ _ _ _ _ _ _ _ _ _ _ _ _ Hinit) as Hsem.
  pose proof (search_request_text self embedding k pre_filter) as Hreq. cbv zeta in Hreq.
  eexists. split; [exact Hreq|]. cbn [sql]. rewrite Hsem. subst call postgres.
  destruct (database_dialect (_database self)), (distance_strategy (_query_parameters self));
    cbn [is_postgresql getDistanceFunction]; by flatten_strings.
Qed.

End SearchDialect.

Lemma init_search_dialect_witness :
  exists request,
    search_request (sample_store []) [0.5%float] 4 None = Ok request
    /\ sql request = "
            SELECT id,content,embedding,author,metadata, EUCLIDEAN_DISTANCE(embedding, @vector_embedding) AS distance
            FROM docs 
            WHERE 1 = 1
            ORDER BY distance
            LIMIT 4;
        ".
Proof.
  exact (init_search_dialect (sample_store []) "inst" "db" "docs" sample_embeddings "id"
           "content" "embedding" (sample_client []) (Some ["author"]) None (Some "metadata")
           default_query_parameters [0.5%float] 4 None eq_refl).
Defined.

(** ** Ingestion: edges, failures and what is left untouched *)

Section IngestionEdges.

Variable self : SpannerVectorStore.

Implicit Types (h : gmap loc (list (string * pyval))) (refs : list loc) (r : loc).

(** X10.  A batch size that is not positive writes nothing.  In a call with
    a list of texts that passes the guards and gets a vector per text, a
    batch size of zero raises [ValueError] and a negative one makes the
    call return normally -- in both cases after the embedding request and
    after the metadata dicts were stamped, and without a single insert. *)
Theorem add_texts_nonpositive_batch_size (texts : list string)
    (metadatas : option (list loc)) (ids : option (list string)) (batch_size : Z)
    (w : world) :
  texts <> [] ->
  (batch_size <= 0)%Z ->
  (forall given, ids = Some given -> length given = length texts) ->
  (forall given, metadatas = Some given -> length given = length texts) ->
  length texts <= length (embed_documents (_embedding_service self) texts) ->
  exists refs h0,
    (forall given, metadatas = Some given -> refs = given /\ h0 = heap w)
    /\ add_texts self (Sequence texts) metadatas ids batch_size w
       = (if (batch_size =? 0)%Z
          then Raise (ValueError "range() arg 3 must not be zero")
          else Ok (default [] ids),
          {| heap := fold_left (stamp (_metadata_json_column self)) refs h0;
             trace := trace w ++ [EmbedDocuments texts] |}).
Proof.
  intros Hne Hsize Hids Hmetas Hembeds.
  destruct (add_texts_rows_spec self texts metadatas ids w Hids Hmetas Hembeds)
    as (refs & h0 & Hlen & Hgiven & _ & Hrows).
  exists refs, h0. split; [done|].
  rewrite add_texts_guarded by done.
  unfold bind at 1. rewrite Hrows. unfold py_range.
  destruct (Z.eqb_spec batch_size 0) as [->|Hnz]; [done|].
  destruct (Z.ltb_spec batch_size 0) as [_|?]; [|lia].
  unfold bind, lift, ret. cbn [foldM]. by destruct ids.
Qed.

Lemma mapO_Raise_inv {A B} (f : A -> outcome B) (l : list A) (e : exn) :
  mapO f l = Raise e -> exists x, x ∈ l /\ f x = Raise e.
Proof.
  induction l as [|x l IH]; [done|]. cbn [mapO].
  destruct (f x) as [y|e'] eqn:Hx.
  - destruct (mapO f l) as [ys|e'] eqn:Hl; [done|]. intros [= ->].
    destruct IH as (x' & Hin & Hx'); [done|]. exists x'. split; [|done].
    by apply list_elem_of_further.
  - intros [= ->]. exists x. split; [apply list_elem_of_here|done].
Qed.

(** Building the rows can only fail at an index that is out of range or at
    an object that cannot be indexed. *)
Lemma rows_of_error (values_dict : list (string * column_values)) (n : nat) (e : exn) :
  rows_of values_dict n = Raise e ->
  exists key obj i,
    dict_get key values_dict = Some obj /\ i < n /\ subscript obj i = Raise e.
Proof.
  unfold rows_of. intros (i & Hi & Hrow)%mapO_Raise_inv.
  apply elem_of_seq in Hi. apply mapO_Raise_inv in Hrow as (key & Hkey & Hcell).
  apply dict_get_is_Some in Hkey as [obj Hget].
  unfold dict_item in Hcell. rewrite Hget in Hcell.
  exists key, obj, i. split; [done|]. split; [lia|done].
Qed.

(** One cell that cannot be read is enough for the rows not to be built. *)
Lemma rows_of_cell (values_dict : list (string * column_values)) (n i : nat)
    (key : string) (obj : column_values) (e0 : exn) :
  dict_get key values_dict = Some obj -> i < n -> subscript obj i = Raise e0 ->
  exists e, rows_of values_dict n = Raise e.
Proof.
  intros Hget Hi Hcell.
  destruct (rows_of values_dict n) as [rows|e] eqn:Hrows; [|by exists e].
  assert (Hn : length rows = n).
  { unfold rows_of in Hrows. apply mapO_length in Hrows. by rewrite Hrows, length_seq. }
  destruct (lookup_lt_is_Some_2 rows i) as [row Hrow]; [lia|].
  destruct (rows_of_row _ _ _ _ _ Hrows Hrow) as (_ & _ & Hslots).
  assert (Hkey : key ∈ dict_keys values_dict) by (apply dict_get_is_Some; by eexists).
  apply list_elem_of_lookup in Hkey as [p Hp].
  destruct (Hslots p key Hp) as (obj' & v & Hget' & Hv & _).
  rewrite Hget in Hget'. simplify_eq. by rewrite Hcell in Hv.
Qed.

(** With a list of texts and fewer vectors than texts, building the rows
    raises [IndexError]. *)
Lemma rows_of_short_embedding (texts : list string) (ids : option (list string)) h refs :
  length (embed_documents (_embedding_service self) texts) < length texts ->
  rows_of (values_objects self (Sequence texts) ids h refs) (length texts)
  = Raise IndexError.
Proof.
  intros Hshort.
  destruct (rows_of_cell (values_objects self (Sequence texts) ids h refs) (length texts)
              (length (embed_documents (_embedding_service self) texts))
              (_embedding_column self) _ IndexError (values_objects_embedding _ _ _ _ _))
    as [e He]; [done| |].
  { cbn [subscript first_pass]. unfold list_item.
    by rewrite lookup_ge_None_2 by (by rewrite length_fmap). }
  rewrite He. f_equal.
  destruct (rows_of_error _ _ _ He) as (key & obj & i & Hget & _ & Hcell).
  rewrite values_objects_sequence, lists_only_get in Hget.
  destruct (dict_get key _) as [column_values|]; [|done]. cbn in Hget. simplify_eq.
  cbn in Hcell. unfold list_item in Hcell. by destruct (column_values !! i); simplify_eq.
Qed.

(** X11.  When the embedding service returns fewer vectors than there are
    texts, a call with a list of texts that passes the guards raises
    [IndexError] while it builds the rows: the embedding was requested,
    nothing was written, and the supplied metadata dicts have already been
    stamped. *)
Theorem add_texts_short_embedding (texts : list string) (metadatas : option (list loc))
    (ids : option (list string)) (batch_size : Z) (w : world) :
  texts <> [] ->
  (forall given, ids = Some given -> length given = length texts) ->
  (forall given, metadatas = Some given -> length given = length texts) ->
  length (embed_documents (_embedding_service self) texts) < length texts ->
  exists refs h0,
    (forall given, metadatas = Some given -> refs = given /\ h0 = heap w)
    /\ add_texts self (Sequence texts) metadatas ids batch_size w
       = (Raise IndexError,
          {| heap := fold_left (stamp (_metadata_json_column self)) refs h0;
             trace := trace w ++ [EmbedDocuments texts] |}).
Proof.
  intros Hne Hids Hmetas Hshort.
  destruct (add_texts_rows_run self (Sequence texts) metadatas ids w)
    as (refs & h0 & Hgiven & Hrows).
  exists refs, h0. split.
  { intros given ->. done. }
  rewrite add_texts_guarded by done.
  unfold bind at 1. rewrite Hrows. cbn [first_pass].
  by rewrite rows_of_short_embedding.
Qed.

(** X12.  Whatever the arguments and however the call ends, [add_texts]
    leaves every dict untouched that existed before the call and was not
    supplied as a metadata dict; without metadatas no existing dict is
    touched at all. *)
Theorem add_texts_frame (texts : Iterable) (metadatas : option (list loc))
    (ids : option (list string)) (batch_size : Z) (w : world) (r : loc) :
  is_Some (heap w !! r) ->
  (forall given, metadatas = Some given -> r ∉ given) ->
  heap (add_texts self texts metadatas ids batch_size w).2 !! r = heap w !! r.
Proof.
  intros Hr Hout. unfold add_texts. cbv zeta.
  destruct (length (first_pass texts) =? 0); [done|].
  unfold bind at 1.
  assert (Hguard : forall c : option bool,
    match c with Some b => py_assert b | None => ret tt end w = (Ok tt, w)
    \/ match c with Some b => py_assert b | None => ret tt end w = (Raise AssertionError, w)).
  { intros [[|]|]; by auto. }
  destruct (Hguard ((fun given => length given =? length (first_pass texts)) <$> ids))
    as [Hg|Hg].
  2: { destruct ids; cbn in Hg; by rewrite Hg. }
  assert (Hg1 : match ids with
                | Some ids0 => py_assert (length ids0 =? length (first_pass texts))
                | None => ret tt
                end w = (Ok tt, w)) by (by destruct ids).
  rewrite Hg1. clear Hg Hg1. unfold bind at 1.
  destruct (Hguard ((fun given : list loc => length given =? length (first_pass texts))
                      <$> metadatas)) as [Hg|Hg].
  2: { destruct metadatas; cbn in Hg; by rewrite Hg. }
  assert (Hg2 : match metadatas with
                | Some metadatas0 => py_assert (length metadatas0 =? length (first_pass texts))
                | None => ret tt
                end w = (Ok tt, w)) by (by destruct metadatas).
  rewrite Hg2. clear Hg Hg2. unfold bind at 1.
  destruct (add_texts_rows_run self texts metadatas ids w) as (refs & h0 & Hrefs & ->).
  assert (Hkept : fold_left (stamp (_metadata_json_column self)) refs h0 !! r = heap w !! r).
  { destruct metadatas as [given|].
    - destruct Hrefs as [-> ->]. apply fold_stamp_frame. by apply Hout.
    - destruct Hrefs as (_ & _ & _ & Hold).
      destruct (Hold r Hr) as [Hfresh <-]. by apply fold_stamp_frame. }
  destruct (rows_of _ _) as [rows|err]; cbn [obind]; [|done].
  unfold bind at 1, lift at 1.
  destruct (py_range (length rows) batch_size) as [starts|err]; [|done].
  unfold bind at 1. rewrite insert_loop. by cbn [snd heap ret].
Qed.

(** X17.  When [texts] is not a list -- a generator, say, or a set -- a call
    with at least one text that passes the guards writes nothing, whatever
    the batch size: the embedding is requested and the metadata dicts are
    stamped, and then building the rows raises, with [TypeError] for the
    [texts] object that cannot be indexed or with [IndexError] for a list
    that is too short. *)
Theorem add_texts_not_a_list (texts : Iterable) (metadatas : option (list loc))
    (ids : option (list string)) (batch_size : Z) (w : world) :
  (forall items, texts <> Sequence items) ->
  first_pass texts <> [] ->
  (forall given, ids = Some given -> length given = length (first_pass texts)) ->
  (forall given, metadatas = Some given -> length given = length (first_pass texts)) ->
  _content_column self <> _embedding_column self ->
  exists e refs h0,
    (forall given, metadatas = Some given -> refs = given /\ h0 = heap w)
    /\ add_texts self texts metadatas ids batch_size w
       = (Raise e,
          {| heap := fold_left (stamp (_metadata_json_column self)) refs h0;
             trace := trace w ++ [EmbedDocuments (first_pass texts)] |})
    /\ (e = IndexError
        \/ exists type_name,
             e = TypeError ("'" +:+ type_name +:+ "' object is not subscriptable")).
Proof.
  intros Hkind Hne Hids Hmetas Hcolumns.
  destruct (add_texts_rows_run self texts metadatas ids w) as (refs & h0 & Hgiven & Hrows).
  assert (Hcell : exists type_name,
    texts_object texts = NotSubscriptable type_name).
  { destruct texts as [items|t items|t items]; [by destruct (Hkind items)|by exists t..]. }
  destruct Hcell as [type_name Hobject].
  destruct (rows_of_cell (values_objects self texts ids h0 refs)
              (length (first_pass texts)) 0 (_content_column self) _
              (TypeError ("'" +:+ type_name +:+ "' object is not subscriptable"))
              (values_objects_content _ _ _ _ _ Hcolumns))
    as [e He].
  { destruct (first_pass texts); [done|cbn; lia]. }
  { by rewrite Hobject. }
  exists e, refs, h0. split.
  { intros given ->. done. }
  split.
  - rewrite add_texts_guarded by done.
    unfold bind at 1. rewrite Hrows. by rewrite He.
  - destruct (rows_of_error _ _ _ He) as (key & obj & i & _ & _ & Hraise).
    destruct obj as [values|t]; cbn in Hraise.
    + left. unfold list_item in Hraise. by destruct (values !! i); simplify_eq.
    + right. exists t. by simplify_eq.
Qed.

End IngestionEdges.

Lemma add_texts_nonpositive_batch_size_witness :
  exists refs h0,
    (forall given, @None (list loc) = Some given -> refs = given /\ h0 = heap empty_world)
    /\ add_texts (sample_store []) (Sequence ["a"; "b"]) None None (-1) empty_world
       = (Ok [],
          {| heap := fold_left (stamp (Some "metadata")) refs h0;
             trace := [EmbedDocuments ["a"; "b"]] |}).
Proof.
  apply (add_texts_nonpositive_batch_size (sample_store []) ["a"; "b"] None None (-1)
           empty_world).
  - discriminate.
  - lia.
  - intros given [=].
  - intros given [=].
  - cbn. lia.
Defined.

Lemma add_texts_short_embedding_witness :
  let w := {| heap := {[ 0 := [("k", VInt 1)]; 1 := [] ]}; trace := [] |} in
  exists refs h0,
    (forall given, Some [0; 1] = Some given -> refs = given /\ h0 = heap w)
    /\ add_texts one_vector_store (Sequence ["a"; "b"]) (Some [0; 1]) None 5000 w
       = (Raise IndexError,
          {| heap := fold_left (stamp (Some "metadata")) refs h0;
             trace := trace w ++ [EmbedDocuments ["a"; "b"]] |}).
Proof.
  intros w.
  apply (add_texts_short_embedding one_vector_store ["a"; "b"] (Some [0; 1]) None 5000 w).
  - discriminate.
  - intros given [=].
  - intros given [= <-]. reflexivity.
  - cbn. lia.
Defined.

Lemma add_texts_frame_witness :
  let w := {| heap := {[ 0 := [("k", VInt 1)]; 1 := [] ]}; trace := [] |} in
  heap (add_texts (sample_store []) (Sequence ["a"]) (Some [1]) None 5000 w).2 !! 0
  = heap w !! 0.
Proof.
  intros w.
  apply (add_texts_frame (sample_store []) (Sequence ["a"]) (Some [1]) None 5000 w 0).
  - by eexists.
  - intros given [= <-]. rewrite list_elem_of_singleton. discriminate.
Defined.

Lemma add_texts_not_a_list_witness :
  let w := {| heap := {[ 0 := []; 1 := [] ]}; trace := [] |} in
  let texts := Iterator "generator" ["a"; "b"] in
  exists e refs h0,
    (forall given, Some [0; 1] = Some given -> refs = given /\ h0 = heap w)
    /\ add_texts (sample_store []) texts (Some [0; 1]) None 5000 w
       = (Raise e,
          {| heap := fold_left (stamp (Some "metadata")) refs h0;
             trace := trace w ++ [EmbedDocuments ["a"; "b"]] |})
    /\ (e = IndexError
        \/ exists type_name,
             e = TypeError ("'" +:+ type_name +:+ "' object is not subscriptable")).
Proof.
  intros w texts.
  apply (add_texts_not_a_list (sample_store []) texts (Some [0; 1]) None 5000 w).
  - discriminate.
  - discriminate.
  - intros given [=].
  - intros given [= <-]. reflexivity.
  - discriminate.
Defined.

(** ** Ingestion: what the metadata columns of a row hold *)

Section MetadataSlots.

Variable self : SpannerVectorStore.

Implicit Types (h : gmap loc (list (string * pyval))) (refs : list loc) (r : loc).

(** Row [i] of the rows that are written, slot by slot. *)
Lemma inserted_row (texts : list string) (ids : option (list string)) h refs
    (size i : nat) :
  0 < size ->
  (forall given, ids = Some given -> length given = length texts) ->
  length refs = length texts ->
  length texts <= length (embed_documents (_embedding_service self) texts) ->
  i < length texts ->
  let table := values_table self texts ids h refs in
  exists row,
    inserted (EmbedDocuments texts ::
              (BatchInsert (_table_name self) (dict_keys table)
               <$> batches_of (rows_table table (length texts)) size))
      !! i = Some (dict_keys table, row)
    /\ forall p key, dict_keys table !! p = Some key ->
         exists column_values v,
           dict_get key table = Some column_values
           /\ column_values !! i = Some v /\ row !! p = Some v.
Proof.
  intros Hsize Hids Hlen Hembeds Hi table.
  set (rows := rows_table table (length texts)).
  assert (Hn : length rows = length texts).
  { unfold rows, rows_table. by rewrite length_fmap, length_seq. }
  destruct (lookup_lt_is_Some_2 rows i) as [row Hrow]; [lia|].
  exists row. rewrite inserted_batches, batches_of_concat by done.
  split; [by rewrite list_lookup_fmap, Hrow|].
  apply (rows_table_row table (length texts) i row); [apply values_table_NoDup| |done].
  intros k l Hin. by eapply values_table_enough.
Qed.

(** The slot, in row [i], of a metadata column that is named once and is
    none of the three base columns. *)
Lemma inserted_metadata_slot (texts : list string) (ids : option (list string)) h refs
    (size i : nat) r (c : string) :
  0 < size ->
  (forall given, ids = Some given -> length given = length texts) ->
  length refs = length texts ->
  length texts <= length (embed_documents (_embedding_service self) texts) ->
  refs !! i = Some r ->
  occurrences c (_metadata_columns self) = 1 ->
  c ∉ [_id_column self; _content_column self; _embedding_column self] ->
  let table := values_table self texts ids h refs in
  let j := _metadata_json_column self in
  exists row,
    inserted (EmbedDocuments texts ::
              (BatchInsert (_table_name self) (dict_keys table)
               <$> batches_of (rows_table table (length texts)) size))
      !! i = Some (dict_keys table, row)
    /\ c ∈ dict_keys table
    /\ forall p, dict_keys table !! p = Some c ->
         row !! p
         = Some (metadata_value
                   (heap_dict (stamp j (fold_left (stamp j) (take i refs) h) r) r) c).
Proof.
  intros Hsize Hids Hlen Hembeds Hi Honce Hbase table j.
  assert (Hlt : i < length texts) by (rewrite <- Hlen; by eapply lookup_lt_Some).
  destruct (inserted_row texts ids h refs size i Hsize Hids Hlen Hembeds Hlt)
    as (row & Hrow & Hslots).
  exists row. split; [done|]. split.
  { apply dict_get_is_Some. unfold table. rewrite values_table_metadata by done.
    by eexists. }
  intros p Hp. destruct (Hslots p c Hp) as (column_values & v & Hget & Hv & ->).
  unfold table in Hget. rewrite values_table_metadata in Hget by done. simplify_eq.
  rewrite list_lookup_fmap, (seen_dicts_row _ _ _ _ _ Hi) in Hv. cbn in Hv.
  by simplify_eq.
Qed.

(** X13.  In a call with a list of texts and metadata dicts that passes the
    guards (a positive batch size, a vector per text), a metadata
    column that is named once, is not the catch-all column and is none of
    the three base columns is among the insert columns, and its slot in
    row [i] holds what the caller's dict [i] held under the column's name
    when the call began -- null when the dict has no such key. *)
Theorem add_texts_metadata_slots (texts : list string) (refs : list loc)
    (ids : option (list string)) (batch_size : Z) (w : world) (c : string) :
  texts <> [] ->
  (0 < batch_size)%Z ->
  length refs = length texts ->
  (forall given, ids = Some given -> length given = length texts) ->
  length texts <= length (embed_documents (_embedding_service self) texts) ->
  occurrences c (_metadata_columns self) = 1 ->
  c ∉ [_id_column self; _content_column self; _embedding_column self] ->
  _metadata_json_column self <> Some c ->
  exists w' new,
    add_texts self (Sequence texts) (Some refs) ids batch_size w = (Ok (default [] ids), w')
    /\ trace w' = trace w ++ new
    /\ forall i r,
         refs !! i = Some r ->
         exists columns row,
           inserted new !! i = Some (columns, row)
           /\ c ∈ columns
           /\ forall p, columns !! p = Some c ->
                row !! p = Some (default VNone (dict_get c (heap_dict (heap w) r))).
Proof.
  intros Hne Hsize Hlen Hids Hembeds Honce Hbase Hjson.
  destruct (add_texts_spec self texts (Some refs) ids batch_size w Hne Hsize Hids)
    as (refs' & h0 & _ & Hgiven & _ & _ & Hrun); [by intros given [= <-]|done|].
  destruct (Hgiven refs eq_refl) as [-> ->].
  eexists _, _. split; [exact Hrun|]. cbn [trace]. split; [done|].
  intros i r Hi.
  destruct (inserted_metadata_slot texts ids (heap w) refs (Z.to_nat batch_size) i r c)
    as (row & Hrow & Hin & Hslot); [lia|done..|].
  eexists _, row. split; [exact Hrow|]. split; [done|].
  intros p Hp. rewrite (Hslot p Hp), metadata_value_default.
  assert (Hc : forall k, _metadata_json_column self = Some k -> c <> k).
  { intros k Hk <-. done. }
  by rewrite heap_dict_stamp_get, fold_stamp_get.
Qed.

(** X14.  In a call with a list of texts and without metadatas that passes
    the guards (a positive batch size, a vector per text), the slot of a
    metadata column that is named once and is none of the three base columns
    holds, in every row, the empty JSON object when the column is the
    catch-all column and null otherwise. *)
Theorem add_texts_without_metadatas (texts : list string) (ids : option (list string))
    (batch_size : Z) (w : world) (c : string) :
  texts <> [] ->
  (0 < batch_size)%Z ->
  (forall given, ids = Some given -> length given = length texts) ->
  length texts <= length (embed_documents (_embedding_service self) texts) ->
  occurrences c (_metadata_columns self) = 1 ->
  c ∉ [_id_column self; _content_column self; _embedding_column self] ->
  exists w' new,
    add_texts self (Sequence texts) None ids batch_size w = (Ok (default [] ids), w')
    /\ trace w' = trace w ++ new
    /\ forall i,
         i < length texts ->
         exists columns row,
           inserted new !! i = Some (columns, row)
           /\ c ∈ columns
           /\ forall p, columns !! p = Some c ->
                row !! p
                = Some (if decide (_metadata_json_column self = Some c)
                        then JsonObject [] else VNone).
Proof.
  intros Hne Hsize Hids Hembeds Honce Hbase.
  destruct (add_texts_spec self texts None ids batch_size w Hne Hsize Hids)
    as (refs & h0 & Hlen & _ & Hfresh & _ & Hrun); [done..|].
  destruct (Hfresh eq_refl) as [Hnd Hempty].
  eexists _, _. split; [exact Hrun|]. cbn [trace]. split; [done|].
  intros i Hi.
  destruct (lookup_lt_is_Some_2 refs i) as [r Hr]; [lia|].
  destruct (inserted_metadata_slot texts ids h0 refs (Z.to_nat batch_size) i r c)
    as (row & Hrow & Hin & Hslot); [lia|done..|].
  eexists _, row. split; [exact Hrow|]. split; [done|].
  intros p Hp. rewrite (Hslot p Hp). f_equal.
  assert (Hr' : r ∈ refs) by (by eapply list_elem_of_lookup_2).
  case_decide as Hj.
  - rewrite Hj. cbn [stamp]. unfold heap_dict at 1. rewrite lookup_insert_eq. cbn.
    unfold metadata_value. rewrite dict_get_set_eq. cbn.
    assert (Hbefore : heap_dict (fold_left (stamp (Some c)) (take i refs) h0) r = []).
    { unfold heap_dict at 1. rewrite fold_stamp_frame; [by apply Hempty|].
      intros Hin'. apply list_elem_of_lookup in Hin' as [i' Hi'].
      pose proof (lookup_lt_Some _ _ _ Hi') as Hlt. rewrite length_take in Hlt.
      rewrite lookup_take_lt in Hi' by lia.
      pose proof (NoDup_lookup _ _ _ _ Hnd Hr Hi'). lia. }
    by rewrite Hbefore.
  - rewrite metadata_value_default.
    assert (Hc : forall k, _metadata_json_column self = Some k -> c <> k).
    { intros k Hk <-. done. }
    by rewrite heap_dict_stamp_get, fold_stamp_get, Hempty.
Qed.

(** X15.  [add_documents] hands the documents' texts and metadata dicts to
    [add_texts], so its metadata guard cannot fail: for a non-empty list of
    documents, a positive batch size, ids (if any) of the right length and
    a vector per text, the call succeeds and writes one row per document,
    in the documents' order, with the page content in the content slot and,
    in the slot of each plain metadata column, what the document's metadata
    held under that name (null if nothing). *)
Theorem add_documents_rows (documents : list DocumentRef) (ids : option (list string))
    (batch_size : Z) (w : world) :
  documents <> [] ->
  (0 < batch_size)%Z ->
  (forall given, ids = Some given -> length given = length documents) ->
  length documents
  <= length (embed_documents (_embedding_service self) (ref_page_content <$> documents)) ->
  _content_column self <> _embedding_column self ->
  exists w' new,
    add_documents self documents ids batch_size w = (Ok (default [] ids), w')
    /\ trace w' = trace w ++ new
    /\ length (inserted new) = length documents
    /\ forall i doc,
         documents !! i = Some doc ->
         exists columns row,
           inserted new !! i = Some (columns, row)
           /\ (forall p, columns !! p = Some (_content_column self) ->
                 row !! p = Some (VStr (ref_page_content doc)))
           /\ forall c p,
                occurrences c (_metadata_columns self) = 1 ->
                c ∉ [_id_column self; _content_column self; _embedding_column self] ->
                _metadata_json_column self <> Some c ->
                columns !! p = Some c ->
                row !! p
                = Some (default VNone (dict_get c (heap_dict (heap w) (ref_metadata doc)))).
Proof.
  intros Hne Hsize Hids Hembeds Hcols. unfold add_documents.
  set (texts := ref_page_content <$> documents) in *.
  set (refs := ref_metadata <$> documents).
  assert (Hn : length texts = length documents) by apply length_fmap.
  assert (Hm : length refs = length texts) by (by rewrite Hn; apply length_fmap).
  assert (Hids' : forall given, ids = Some given -> length given = length texts).
  { intros given Hg. rewrite Hn. by apply Hids. }
  destruct (add_texts_spec self texts (Some refs) ids batch_size w)
    as (refs' & h0 & _ & Hgiven & _ & _ & Hrun);
    [by destruct documents|done|done|by intros given [= <-]|lia|].
  destruct (Hgiven refs eq_refl) as [-> ->].
  eexists _, _. split; [exact Hrun|]. cbn [trace]. split; [done|].
  split.
  { rewrite inserted_batches, batches_of_concat by lia.
    unfold rows_table. by rewrite !length_fmap, length_seq. }
  intros i doc Hi.
  assert (Hlt : i < length texts) by (rewrite Hn; by eapply lookup_lt_Some).
  destruct (inserted_row texts ids (heap w) refs (Z.to_nat batch_size) i)
    as (row & Hrow & Hslots); [lia|done|done|lia|done|].
  eexists _, row. split; [exact Hrow|]. split.
  - intros p Hp. destruct (Hslots p _ Hp) as (column_values & v & Hget & Hv & ->).
    rewrite values_table_content in Hget by done. simplify_eq.
    unfold texts in Hv. rewrite !list_lookup_fmap, Hi in Hv. cbn in Hv. by simplify_eq.
  - intros c p Honce Hbase Hjson Hp.
    destruct (Hslots p _ Hp) as (column_values & v & Hget & Hv & ->).
    rewrite values_table_metadata in Hget by done. simplify_eq.
    assert (Hr : refs !! i = Some (ref_metadata doc)).
    { unfold refs. by rewrite list_lookup_fmap, Hi. }
    rewrite list_lookup_fmap, (seen_dicts_row _ _ _ _ _ Hr) in Hv. cbn in Hv.
    simplify_eq. rewrite metadata_value_default.
    assert (Hc : forall k, _metadata_json_column self = Some k -> c <> k).
    { intros k Hk <-. done. }
    by rewrite heap_dict_stamp_get, fold_stamp_get.
Qed.

End MetadataSlots.

Lemma add_texts_metadata_slots_witness :
  let w := {| heap := {[ 0 := [("author", VStr "ann")]; 1 := [] ]}; trace := [] |} in
  exists w' new,
    add_texts (sample_store []) (Sequence ["a"; "b"]) (Some [0; 1]) None 5000 w = (Ok [], w')
    /\ trace w' = trace w ++ new
    /\ forall i r,
         [0; 1] !! i = Some r ->
         exists columns row,
           inserted new !! i = Some (columns, row)
           /\ "author" ∈ columns
           /\ forall p, columns !! p = Some "author" ->
                row !! p = Some (default VNone (dict_get "author" (heap_dict (heap w) r))).
Proof.
  intros w.
  apply (add_texts_metadata_slots (sample_store []) ["a"; "b"] [0; 1] None 5000 w "author").
  - discriminate.
  - reflexivity.
  - reflexivity.
  - intros given [=].
  - cbn. lia.
  - reflexivity.
  - cbn. rewrite !elem_of_cons, elem_of_nil. intros [?|[?|[?|[]]]]; discriminate.
  - discriminate.
Defined.

Lemma add_texts_without_metadatas_witness :
  exists w' new,
    add_texts (sample_store []) (Sequence ["a"; "b"]) None None 5000 empty_world
    = (Ok [], w')
    /\ trace w' = trace empty_world ++ new
    /\ forall i,
         i < 2 ->
         exists columns row,
           inserted new !! i = Some (columns, row)
           /\ "metadata" ∈ columns
           /\ forall p, columns !! p = Some "metadata" ->
                row !! p
                = Some (if decide (_metadata_json_column (sample_store []) = Some "metadata")
                        then JsonObject [] else VNone).
Proof.
  apply (add_texts_without_metadatas (sample_store []) ["a"; "b"] None 5000 empty_world
           "metadata").
  - discriminate.
  - reflexivity.
  - intros given [=].
  - cbn. lia.
  - reflexivity.
  - cbn. rewrite !elem_of_cons, elem_of_nil. intros [?|[?|[?|[]]]]; discriminate.
Defined.

Lemma add_documents_rows_witness :
  let w := {| heap := {[ 0 := [("author", VStr "ann")]; 1 := [] ]}; trace := [] |} in
  let documents :=
    [ {| ref_page_content := "a"; ref_metadata := 0 |};
      {| ref_page_content := "b"; ref_metadata := 1 |} ] in
  exists w' new,
    add_documents (sample_store []) documents (Some ["1"; "2"]) 5000 w
    = (Ok ["1"; "2"], w')
    /\ trace w' = trace w ++ new
    /\ length (inserted new) = 2
    /\ forall i doc,
         documents !! i = Some doc ->
         exists columns row,
           inserted new !! i = Some (columns, row)
           /\ (forall p, columns !! p = Some "content" ->
                 row !! p = Some (VStr (ref_page_content doc)))
           /\ forall c p,
                occurrences c (_metadata_columns (sample_store [])) = 1 ->
                c ∉ ["id"; "content"; "embedding"] ->
                _metadata_json_column (sample_store []) <> Some c ->
                columns !! p = Some c ->
                row !! p
                = Some (default VNone (dict_get c (heap_dict (heap w) (ref_metadata doc)))).
Proof.
  intros w documents.
  apply (add_documents_rows (sample_store []) documents (Some ["1"; "2"]) 5000 w).
  - discriminate.
  - reflexivity.
  - intros given [= <-]. reflexivity.
  - cbn. lia.
  - discriminate.
Defined.

(** ** Deletion by id *)

Section DeletionById.

Variable self : SpannerVectorStore.

(** X16.  Whenever ids are supplied -- whatever is passed as documents, which
    is then not looked at -- [delete] returns [True] after executing exactly
    one statement, however many ids there are: a [DELETE] on the store's
    table whose [IN] list holds, separated by commas, each id in the order
    given, put between [(('] and ['))] as it is. *)
Theorem delete_with_ids (ids : list string) (documents : option (list Document))
    (w : world) :
  delete self (Some ids) documents w
  = (Ok true,
     {| heap := heap w;
        trace := trace w ++
          [ExecuteUpdate ("
                DELETE FROM " +:+ _table_name self +:+ " 
                WHERE (" +:+ _id_column self +:+ ") IN "
              +:+ PyStr.join ", " ((fun id => "(('" +:+ id +:+ "'))") <$> ids)
              +:+ "
                ")] |}).
Proof.
  assert (Hvalues : (fun elem => "(" +:+ elem +:+ ")")
                      <$> ((fun value => "('" +:+ value +:+ "')") <$> ids)
                    = (fun id => "(('" +:+ id +:+ "'))") <$> ids).
  { rewrite <- list_fmap_compose. apply list_fmap_ext. intros _ id _. cbn.
    by flatten_strings. }
  rewrite <- Hvalues. destruct documents; apply delete_by_ids.
Qed.

End DeletionById.
